(** * The dual-channel RPC correlation engine of blender-mcp

    A shallow embedding of the Server-Sent-Events client that lives in
    [src/blender_mcp/reverse_mcp_client.py], of the dispatch loop of
    [src/blender_mcp/reverse_bridge.py] and of the demo worker of
    [reverse_mcp.py], followed by the properties of the engine.

    Conventions of the embedding.
    - A Python [str] is a [string]; the characters are the code points below
      256, which is where every literal of the source lives.
    - The values produced by [json.loads] (and Python's [None]) are the
      terms of [json].
    - A Python exception is a value of [exn]; code that can raise returns a
      [res].
    - The mutable objects shared by the threads (the [pending_responses]
      dictionary, the [queue.Queue] objects, the stop flag) are fields of
      the record [sse_connection]; every function takes the current record
      and gives back the next one.
    - What the outside world answers (HTTP statuses, lines of the stream,
      the identifier drawn by [uuid.uuid4]) is an explicit argument. *)

From Stdlib Require Import Ascii String ZArith QArith.
From stdpp Require Import gmap strings list fin_maps pretty.

Open Scope string_scope.
Open Scope list_scope.

(** ** Python strings *)

Module PyStr.

(** [str.isspace] on one character, for the code points below 256. *)
Definition isspace (c : ascii) : bool :=
  let n := nat_of_ascii c in
  (((9 <=? n) && (n <=? 13)) || ((28 <=? n) && (n <=? 32))
   || (n =? 133) || (n =? 160))%nat.

Fixpoint lstrip (s : string) : string :=
  match s with
  | String c s' => if isspace c then lstrip s' else s
  | EmptyString => EmptyString
  end.

Definition rstrip (s : string) : string :=
  String.rev (lstrip (String.rev s)).

(** [s.strip()] *)
Definition strip (s : string) : string := rstrip (lstrip s).

(** [s.startswith(p)] *)
Fixpoint startswith (p s : string) : bool :=
  match p, s with
  | EmptyString, _ => true
  | String a p', String b s' => if decide (a = b) then startswith p' s' else false
  | String _ _, EmptyString => false
  end.

(** [sub in s] for two strings: [sub] occurs somewhere in [s]. *)
Fixpoint contains (sub s : string) : bool :=
  startswith sub s ||
  match s with
  | EmptyString => false
  | String _ s' => contains sub s'
  end.

Fixpoint drop (n : nat) (s : string) : string :=
  match n, s with
  | S n', String _ s' => drop n' s'
  | _, _ => s
  end.

(** The text before and the text after the leftmost occurrence of [sep]
    ([str.partition] without the separator), [None] when there is none. *)
Fixpoint partition (sep s : string) : option (string * string) :=
  if startswith sep s then Some (EmptyString, drop (String.length sep) s)
  else
    match s with
    | EmptyString => None
    | String c s' =>
        match partition sep s' with
        | Some (b, a) => Some (String c b, a)
        | None => None
        end
    end.

(** [s.split(sep, maxsplit)] for a non-empty [sep]: cut at the successive
    leftmost occurrences, at most [maxsplit] times ([None]: no limit).
    Every cut consumes at least one character, so [length s + 1] rounds
    are enough. *)
Fixpoint split_rounds (rounds : nat) (sep : string) (maxsplit : option nat)
    (s : string) : list string :=
  match rounds with
  | O => [s]
  | S r =>
      match maxsplit with
      | Some O => [s]
      | _ =>
          match partition sep s with
          | None => [s]
          | Some (b, a) => b :: split_rounds r sep (Nat.pred <$> maxsplit) a
          end
      end
  end.

Definition split (sep : string) (maxsplit : option nat) (s : string)
    : list string :=
  split_rounds (S (String.length s)) sep maxsplit s.

End PyStr.

(** ** JSON values and the Python operators the engine applies to them *)

#[local] Set Warnings "-register-all".

Inductive json : Type :=
| JNull
| JBool (b : bool)
| JInt (n : Z)
| JFloat (lexeme : string)
| JStr (s : string)
| JArr (items : list json)
| JObj (members : list (string * json)).

Inductive exn_kind : Type :=
| TypeError
| AttributeError
| IndexError
| OSError
| UnicodeDecodeError
| ConnectionError
| ValueError
    (** a [ValueError] that is not one of the two below *)
| JSONDecodeError
| OtherError.

Record exn : Type := Exn { exn_kind_of : exn_kind; exn_text : string }.

(** [except json.JSONDecodeError] catches [e]. *)
Definition is_json_decode_error (e : exn) : bool :=
  match exn_kind_of e with
  | JSONDecodeError => true
  | _ => false
  end.

Inductive res (A : Type) : Type :=
| Ret (a : A)
| Raise (e : exn).
Arguments Ret {A} a.
Arguments Raise {A} e.

(** Sequencing: an exception raised by [m] skips the rest. stdpp's
    notation [x ← m; k] is used for it. *)
#[global] Instance res_ret : MRet res := fun A a => Ret a.
#[global] Instance res_bind : MBind res := fun A B k m =>
  match m with
  | Ret a => k a
  | Raise e => Raise e
  end.

Module Py.

(** [type(v).__name__] *)
Definition type_name (v : json) : string :=
  match v with
  | JNull => "NoneType"
  | JBool _ => "bool"
  | JInt _ => "int"
  | JFloat _ => "float"
  | JStr _ => "str"
  | JArr _ => "list"
  | JObj _ => "dict"
  end.

(** Dictionary lookup: the members of a decoded object, first match. *)
Fixpoint assoc (k : string) (members : list (string * json)) : option json :=
  match members with
  | [] => None
  | (k', v) :: rest => if decide (k = k') then Some v else assoc k rest
  end.

(** The JSON object [v] has a member named [k]. *)
Definition has_field (k : string) (v : json) : bool :=
  match v with
  | JObj members => bool_decide (is_Some (assoc k members))
  | _ => false
  end.

Definition is_str (k : string) (v : json) : bool :=
  match v with
  | JStr s => bool_decide (s = k)
  | _ => false
  end.

(** [k in v] where [k] is a string literal: key membership for a
    dictionary, element membership for a list, substring test for a
    string, and [TypeError] for the values that are not containers. *)
Definition contains (k : string) (v : json) : res bool :=
  match v with
  | JObj members => Ret (bool_decide (is_Some (assoc k members)))
  | JArr items => Ret (existsb (is_str k) items)
  | JStr s => Ret (PyStr.contains k s)
  | _ => Raise (Exn TypeError
                  ("argument of type '" +:+ type_name v +:+ "' is not iterable"))
  end.

(** [v[k]] where [k] is a string literal and [k in v] has been checked. *)
Definition getitem (k : string) (v : json) : res json :=
  match v with
  | JObj members =>
      match assoc k members with
      | Some x => Ret x
      | None => Raise (Exn OtherError k)
      end
  | JArr _ => Raise (Exn TypeError "list indices must be integers or slices, not str")
  | JStr _ => Raise (Exn TypeError "string indices must be integers, not 'str'")
  | _ => Raise (Exn TypeError
                  ("'" +:+ type_name v +:+ "' object is not subscriptable"))
  end.

(** [v.get(k, default)]: only dictionaries have a [get]. *)
Definition get (k : string) (dflt : json) (v : json) : res json :=
  match v with
  | JObj members => Ret (default dflt (assoc k members))
  | _ => Raise (Exn AttributeError
                  ("'" +:+ type_name v +:+ "' object has no attribute 'get'"))
  end.

End Py.

(** ** The libraries and the world outside *)

(** Python's [json] module and [str]. [json_loads] raises a
    [JSONDecodeError] on a text that is not JSON; on a text that is, it
    gives the value or raises what [json.loads] raises besides (a
    [ValueError] for an integer of more digits than the interpreter
    converts, a [RecursionError] for a nesting that is too deep).
    [json_dumps_indent] is [json.dumps(_, indent=2)]. *)
Class JsonLib : Type := {
  json_loads : string -> res json;
  json_dumps : json -> string;
  json_dumps_indent : json -> string;
  py_str : json -> string
    (** the text an f-string writes for a value, [str(v)] *)
}.

(** What one [response.readline()] hands to the code that decodes it. *)
Inductive read_event : Type :=
| Text (line : string)
    (** bytes that are valid UTF-8 and decode to [line]; the empty string
        is [b''], which [readline] returns once the peer has closed *)
| Garbled (kept : string)
    (** bytes that are not valid UTF-8; [kept] is what
        [decode('utf-8', errors='ignore')] keeps of them *)
| ReadFails (e : exn)
    (** [readline] raises: the socket timed out or was reset *).

(** What the server answers to an HTTP request. *)
Inductive http_outcome : Type :=
| HttpRaises (e : exn)
| HttpStatus (status : Z).

Inductive log_msg : Type :=
| SseConnectionFailedWithStatus (status : Z)
| CouldNotExtractMessageEndpoint
| FailedToConnectToSse (e : exn)
| PostRequestFailedWithStatus (status : Z)
| TimeoutWaitingForResponse (method : string)
| FailedToSendJsonrpcRequest (e : exn)
| ToolsReplyPostFailedWithStatus (status : Z)
| FailedToSendToolsReply (e : exn)
| ErrorInReverseCallListener (e : exn)
| ErrorHandlingToolCall (e : exn)
| UnknownToolWarning (tool_name : json).

(** The observable actions of the calling thread, in program order. *)
Inductive effect : Type :=
| LogError (m : log_msg)
    (** [logger.error] in the package, [print(..., file=sys.stderr)] of an
        error or a warning in the demo script *)
| HttpGet (url : string) (headers : list (string * string))
| HttpPost (url path body : string) (headers : list (string * string))
| ConnClose
    (** [conn.close()] on the connection that carries the stream *)
| PostConnClose
| BlenderCommand (command : string)
    (** [blender_sock.sendall(json.dumps(command).encode('utf-8'))] *)
| ThreadStart
| QueueWait (timeout_seconds : Q)
    (** [response_queue.get(timeout=timeout_seconds)] waits for an item,
        for the time given at most *).

(** ** The connection dictionary *)

(** A [queue.Queue] object is known by its address. *)
Definition loc : Type := nat.

Inductive reader_status : Type :=
| Running
| Finished
| Failed (e : exn).

(** The dictionary built by [connect_to_sse_endpoint] and the objects it
    refers to. A [queue.Queue] holds its items oldest first: [put] adds at
    the end, [get] takes the head. *)
Record sse_connection : Type := SseConnection {
  session_id : string;
  message_endpoint : string;
  server_url : string;
  auth_header : string;
  thread : reader_status;
  stop_event : bool;
  reverse_queue : list json;
  pending_responses : gmap string loc;
  queues : gmap loc (list json)
}.

Definition with_thread (t : reader_status) (c : sse_connection) : sse_connection :=
  SseConnection (session_id c) (message_endpoint c) (server_url c) (auth_header c)
    t (stop_event c) (reverse_queue c) (pending_responses c) (queues c).

Definition with_stop_event (b : bool) (c : sse_connection) : sse_connection :=
  SseConnection (session_id c) (message_endpoint c) (server_url c) (auth_header c)
    (thread c) b (reverse_queue c) (pending_responses c) (queues c).

Definition with_reverse_queue (q : list json) (c : sse_connection) : sse_connection :=
  SseConnection (session_id c) (message_endpoint c) (server_url c) (auth_header c)
    (thread c) (stop_event c) q (pending_responses c) (queues c).

Definition with_pending_responses (p : gmap string loc) (c : sse_connection)
    : sse_connection :=
  SseConnection (session_id c) (message_endpoint c) (server_url c) (auth_header c)
    (thread c) (stop_event c) (reverse_queue c) p (queues c).

Definition with_queues (q : gmap loc (list json)) (c : sse_connection)
    : sse_connection :=
  SseConnection (session_id c) (message_endpoint c) (server_url c) (auth_header c)
    (thread c) (stop_event c) (reverse_queue c) (pending_responses c) q.

(** Truth value of an optional string ([None] and [''] are false). *)
Definition truthy (o : option string) : bool :=
  match o with
  | Some (String _ _) => true
  | _ => false
  end.

(** ** Tool results *)

(** The dictionary literal [{"content": [{"type": "text", "text": text}],
    "isError": is_error}]. *)
Definition text_result (text : string) (is_error : bool) : json :=
  JObj [("content", JArr [JObj [("type", JStr "text"); ("text", JStr text)]]);
        ("isError", JBool is_error)].

Definition image_result (image_data : string) : json :=
  JObj [("content", JArr [JObj [("type", JStr "image"); ("data", JStr image_data);
                                ("mimeType", JStr "image/png")]]);
        ("isError", JBool false)].

(** ** [reverse_mcp_client.py] *)

Module Client.

(** The local variables of the handshake loop of
    [connect_to_sse_endpoint]. *)
Record handshake_vars : Type := HandshakeVars {
  hs_event_type : option string;
  hs_message_endpoint : option string;
  hs_session_id : option string
}.

(** [message_endpoint.split('session_id=')[1].split('&')[0]], guarded by
    ['session_id=' in message_endpoint]; [None] where the guard is false
    and [session_id] keeps its initial [None]. *)
Definition extract_session_id (message_endpoint : string) : res (option string) :=
  if PyStr.contains "session_id=" message_endpoint then
    match PyStr.split "session_id=" None message_endpoint !! 1%nat with
    | Some tail =>
        match PyStr.split "&" None tail !! 0%nat with
        | Some sid => Ret (Some sid)
        | None => Raise (Exn IndexError "list index out of range")
        end
    | None => Raise (Exn IndexError "list index out of range")
    end
  else Ret None.

(** [line.split(':', 1)[1].strip()] *)
Definition field_value (line : string) : res string :=
  match PyStr.split ":" (Some 1%nat) line !! 1%nat with
  | Some v => Ret (PyStr.strip v)
  | None => Raise (Exn IndexError "list index out of range")
  end.

(** [response.readline().decode('utf-8')] *)
Definition readline_strict (ev : read_event) : res string :=
  match ev with
  | Text line => Ret line
  | Garbled _ =>
      Raise (Exn UnicodeDecodeError "'utf-8' codec can't decode byte")
  | ReadFails e => Raise e
  end.

(** The loop [for _ in range(10)] of [connect_to_sse_endpoint] (lines
    230-244; the loop of
    [connect_to_this_sse_endpoint_and_get_this_message_endpoint] in
    [reverse_mcp.py], lines 774-791, is the same text). [rounds] is the
    number of iterations left and [pos] the number of lines read so far.
    The result is the value of the three variables when the loop is left,
    or the exception that left it, and the number of lines read. *)
Fixpoint read_endpoint_event (rounds : nat) (stream : nat -> read_event)
    (pos : nat) (vars : handshake_vars) : res handshake_vars * nat :=
  match rounds with
  | O => (Ret vars, pos)
  | S rounds' =>
      match readline_strict (stream pos) with
      | Raise e => (Raise e, S pos)
      | Ret raw =>
          let line := PyStr.strip raw in
          if PyStr.startswith "event:" line then
            match field_value line with
            | Raise e => (Raise e, S pos)
            | Ret event_type =>
                read_endpoint_event rounds' stream (S pos)
                  (HandshakeVars (Some event_type) (hs_message_endpoint vars)
                     (hs_session_id vars))
            end
          else if PyStr.startswith "data:" line then
            match field_value line with
            | Raise e => (Raise e, S pos)
            | Ret data =>
                if bool_decide (hs_event_type vars = Some "endpoint") then
                  match extract_session_id data with
                  | Raise e => (Raise e, S pos)
                  | Ret None =>
                      (Ret (HandshakeVars (hs_event_type vars) (Some data)
                              (hs_session_id vars)), S pos)
                  | Ret (Some sid) =>
                      (Ret (HandshakeVars (hs_event_type vars) (Some data)
                              (Some sid)), S pos)
                  end
                else read_endpoint_event rounds' stream (S pos) vars
            end
          else if bool_decide (line = "") then
            if truthy (hs_message_endpoint vars) then (Ret vars, S pos)
            else read_endpoint_event rounds' stream (S pos) vars
          else read_endpoint_event rounds' stream (S pos) vars
      end
  end.

Record connect_result : Type := ConnectResult {
  returned : option sse_connection;
  connect_effects : list effect;
  lines_read : nat
}.

Definition sse_headers (auth_header : string) : list (string * string) :=
  [("Accept", "text/event-stream"); ("Cache-Control", "no-cache");
   ("Authorization", auth_header)].

(** [connect_to_sse_endpoint(server_url, auth_header)]. [get] is the
    answer to the GET request and [stream] the successive results of
    [response.readline()]. *)
Definition connect_to_sse_endpoint (server_url auth_header : string)
    (get : http_outcome) (stream : nat -> read_event) : connect_result :=
  let request := HttpGet server_url (sse_headers auth_header) in
  match get with
  | HttpRaises e =>
      ConnectResult None [request; LogError (FailedToConnectToSse e)] 0
  | HttpStatus status =>
      if bool_decide (status ≠ 200%Z) then
        ConnectResult None
          [request; LogError (SseConnectionFailedWithStatus status); ConnClose] 0
      else
        match read_endpoint_event 10 stream 0 (HandshakeVars None None None) with
        | (Raise e, n) =>
            ConnectResult None [request; LogError (FailedToConnectToSse e)] n
        | (Ret vars, n) =>
            if negb (truthy (hs_message_endpoint vars))
               || negb (truthy (hs_session_id vars))
            then
              ConnectResult None
                [request; LogError CouldNotExtractMessageEndpoint; ConnClose] n
            else
              ConnectResult
                (Some (SseConnection (default "" (hs_session_id vars))
                         (default "" (hs_message_endpoint vars)) server_url
                         auth_header Running false [] ∅ ∅))
                [request; ThreadStart] n
        end
  end.

Section WithJson.
Context `{JsonLib}.

(** [request_id in pending_responses] and, when it is,
    [pending_responses[request_id]]. The keys of the dictionary are the
    strings made by [str(uuid.uuid4())]: a string is looked up, a number,
    a boolean or [None] is hashable and equal to no key, and a list or a
    dictionary cannot be hashed. *)
Definition pending_lookup (request_id : json) (pending : gmap string loc)
    : res (option loc) :=
  match request_id with
  | JStr s => Ret (pending !! s)
  | JArr _ | JObj _ =>
      Raise (Exn TypeError
               ("unhashable type: '" +:+ Py.type_name request_id +:+ "'"))
  | _ => Ret None
  end.

(** [q.put(item)] on the queue object at [l]. *)
Definition queue_put (l : loc) (item : json) (c : sse_connection) : sse_connection :=
  with_queues (alter (λ q, q ++ [item]) l (queues c)) c.

(** The routing of one decoded payload (lines 274-280 of
    [sse_reader_thread]; lines 826-835 of [sse_reader_thread_function] in
    [reverse_mcp.py] are the same text). *)
Definition route_json_data (json_data : json) (c : sse_connection)
    : res sse_connection :=
  is_reverse ← Py.contains "reverse" json_data;
  if is_reverse : bool then
    Ret (with_reverse_queue (reverse_queue c ++ [json_data]) c)
  else
    has_id ← Py.contains "id" json_data;
    if has_id : bool then
      request_id ← Py.getitem "id" json_data;
      slot ← pending_lookup request_id (pending_responses c);
      match slot with
      | Some l => Ret (queue_put l json_data c)
      | None => Ret c
      end
    else Ret c.

(** What the loop of [sse_reader_thread] does with a line it has read
    and decoded (lines 264-283). An exception that is not
    [json.JSONDecodeError], out of [json.loads] or out of the routing,
    leaves the loop through the handler around it, and the thread ends. *)
Definition sse_reader_line (raw : string) (c : sse_connection) : sse_connection :=
  let line_str := PyStr.strip raw in
  if PyStr.startswith ":" line_str then c
  else if PyStr.startswith "data:" line_str then
    match field_value line_str with
    | Raise e => with_thread (Failed e) c
    | Ret data_str =>
        match json_data ← json_loads data_str; route_json_data json_data c with
        | Ret c' => c'
        | Raise e =>
            if is_json_decode_error e then c else with_thread (Failed e) c
        end
    end
  else c.

(** One turn of the loop [while not stop_event.is_set()] of
    [sse_reader_thread], given what [response.readline()] yields. *)
Definition sse_reader_turn (ev : read_event) (c : sse_connection)
    : sse_connection :=
  if stop_event c then with_thread Finished c
  else
    match ev with
    | ReadFails e => with_thread (Failed e) c
    | Text "" => with_thread Finished c
    | Text raw | Garbled raw => sse_reader_line raw c
    end.

(** The thread runs as long as its loop does; once it has ended, further
    lines are not read. *)
Definition sse_reader_step (ev : read_event) (c : sse_connection)
    : sse_connection :=
  match thread c with
  | Running => sse_reader_turn ev c
  | _ => c
  end.

(** [sse_reader_thread] over the lines that arrive, oldest first. *)
Definition sse_reader_thread (arrivals : list read_event) (c : sse_connection)
    : sse_connection :=
  foldl (λ c ev, sse_reader_step ev c) c arrivals.

(** The dictionary literal that becomes the body of a request. *)
Definition jsonrpc_request (request_id method : string) (params : json) : json :=
  JObj [("jsonrpc", JStr "2.0"); ("id", JStr request_id);
        ("method", JStr method); ("params", params)].

Definition post_headers (auth_header request_body : string)
    : list (string * string) :=
  [("Content-Type", "application/json");
   ("Content-Length", pretty (String.length request_body));
   ("Authorization", auth_header)].

(** [response_queue = queue.Queue()] followed by
    [pending_responses[request_id] = response_queue] (lines 322-324): a
    new, empty queue object is stored under the identifier. *)
Definition register_response_queue (request_id : string) (c : sse_connection)
    : loc * sse_connection :=
  let response_queue := fresh (dom (queues c)) in
  (response_queue,
   with_pending_responses (<[request_id := response_queue]> (pending_responses c))
     (with_queues (<[response_queue := []]> (queues c)) c)).

(** [pending_responses.pop(request_id, None)] (lines 373-374). *)
Definition pop_pending (request_id : string) (c : sse_connection) : sse_connection :=
  with_pending_responses (delete request_id (pending_responses c)) c.

(** [response_queue.get(timeout=...)] once the time is over: the oldest
    item if one has been put, [None] for [queue.Empty]. *)
Definition queue_get (l : loc) (c : sse_connection) : option json * sse_connection :=
  match queues c !! l with
  | Some (item :: rest) => (Some item, with_queues (<[l := rest]> (queues c)) c)
  | _ => (None, c)
  end.

(** [timeout < 0], on which [queue.Queue.get] raises the [ValueError]
    below before it looks at the queue. *)
Definition negative (timeout_seconds : Q) : bool :=
  negb (Qle_bool 0 timeout_seconds).

Definition timeout_must_be_non_negative : exn :=
  Exn ValueError "'timeout' must be a non-negative number".

(** [send_jsonrpc_request(sse_connection, method, params, timeout_seconds)]
    (and [send_this_jsonrpc_request_and_wait_for_this_response] of
    [reverse_mcp.py], which takes the URL and the header as arguments).
    The world gives [uuid4], the text of [str(uuid.uuid4())]; [post], the
    answer to the POST; [during_post], the lines the reader thread handles
    while the POST is under way, and [during_wait], those it handles
    afterwards until the item is there or [timeout_seconds] are over.
    With a negative time there is no wait: [get] raises, and the handler
    of the outer [try] logs the failure. *)
Definition send_jsonrpc_request (c : sse_connection) (method : string)
    (params : json) (timeout_seconds : Q)
    (uuid4 : string) (post : http_outcome)
    (during_post during_wait : list read_event)
    : option json * sse_connection * list effect :=
  let request_id := uuid4 in
  let '(response_queue, c1) := register_response_queue request_id c in
  let request_body := json_dumps (jsonrpc_request request_id method params) in
  let request :=
    HttpPost (server_url c1) (message_endpoint c1) request_body
      (post_headers (auth_header c1) request_body) in
  let c2 := sse_reader_thread during_post c1 in
  match post with
  | HttpRaises e =>
      (None, pop_pending request_id c2,
       [request; LogError (FailedToSendJsonrpcRequest e)])
  | HttpStatus status =>
      if bool_decide (status ≠ 202%Z) then
        (None, pop_pending request_id c2,
         [request; LogError (PostRequestFailedWithStatus status); PostConnClose])
      else if negative timeout_seconds then
        (None, pop_pending request_id c2,
         [request; PostConnClose;
          LogError (FailedToSendJsonrpcRequest timeout_must_be_non_negative)])
      else
        let c3 := sse_reader_thread during_wait c2 in
        match queue_get response_queue c3 with
        | (Some response, c4) =>
            (Some response, pop_pending request_id c4,
             [request; PostConnClose; QueueWait timeout_seconds])
        | (None, c4) =>
            (None, pop_pending request_id c4,
             [request; PostConnClose; QueueWait timeout_seconds;
              LogError (TimeoutWaitingForResponse method)])
        end
  end.

(** The dictionary literal that becomes the body of a reply. *)
Definition reply_request (call_id result : json) : json :=
  JObj [("jsonrpc", JStr "2.0"); ("id", call_id);
        ("method", JStr "tools/reply"); ("params", JObj [("result", result)])].

(** [send_tool_reply(sse_connection, call_id, result)] (and
    [send_tool_reply] of [reverse_mcp.py], which takes the URL and the
    header as arguments instead of reading them from the dictionary). *)
Definition send_tool_reply (c : sse_connection) (call_id result : json)
    (post : http_outcome) : bool * sse_connection * list effect :=
  let request_body := json_dumps (reply_request call_id result) in
  let request :=
    HttpPost (server_url c) (message_endpoint c) request_body
      (post_headers (auth_header c) request_body) in
  match post with
  | HttpRaises e => (false, c, [request; LogError (FailedToSendToolsReply e)])
  | HttpStatus status =>
      if bool_decide (status ≠ 202%Z) then
        (false, c,
         [request; LogError (ToolsReplyPostFailedWithStatus status); PostConnClose])
      else (true, c, [request; PostConnClose])
  end.

End WithJson.
End Client.

(** ** [reverse_bridge.py] *)

Module Bridge.

(** The fields of [ReverseBlenderConnection] the dispatch loop reads or
    writes. [blender_sock] is false once the attribute is [None];
    [self_id] is the text of [id(self)]. *)
Record ReverseBlenderConnection : Type := Build {
  sse_connection_of : sse_connection;
  blender_sock : bool;
  stop_event : bool;
  self_id : string
}.

Definition with_sse (c : sse_connection) (b : ReverseBlenderConnection)
    : ReverseBlenderConnection :=
  Build c (blender_sock b) (stop_event b) (self_id b).

Definition with_blender_sock (s : bool) (b : ReverseBlenderConnection)
    : ReverseBlenderConnection :=
  Build (sse_connection_of b) s (stop_event b) (self_id b).

(** How the exchange with the Blender addon for one command ends. An
    exchange that does not end has no outcome here: [sendall] is called
    before any timeout is set and may block, and the loop of
    [_receive_full_response] has a timeout for each [recv] but none for all
    of them, so that chunks which never make a JSON text keep it receiving.
    [send_command] does not return then, and neither does the turn of the
    dispatch loop that called it. [Blender.exchange] gives the outcome, or
    the lack of one, from what the socket does. *)
Inductive blender_outcome : Type :=
| BlenderAnswers (response : json)
    (** the bytes received are the JSON text of [response] *)
| BlenderTimesOut
    (** [socket.timeout] out of [sendall] *)
| BlenderFails (e : exn)
    (** any other exception while sending, receiving or decoding *).

(** What the world does during one turn of the dispatch loop. *)
Record turn_world : Type := TurnWorld {
  blender : blender_outcome;
  screenshot : res string;
    (** the base64 text of the screenshot file, or what [open] raises *)
  reply_post : http_outcome
}.

Section WithJson.
Context `{JsonLib}.

Definition communication_error (e : exn) : exn :=
  Exn OtherError ("Communication error with Blender: " +:+ exn_text e).

(** [self.send_command(command_type, params)], for an exchange with Blender
    that ends as [w] says. *)
Definition send_command (b : ReverseBlenderConnection) (command_type : string)
    (params : json) (w : blender_outcome)
    : res json * ReverseBlenderConnection * list effect :=
  if negb (blender_sock b) then
    (Raise (Exn ConnectionError "Not connected to Blender"), b, [])
  else
    let command := JObj [("type", JStr command_type); ("params", params)] in
    let sent := [BlenderCommand (json_dumps command)] in
    match w with
    | BlenderTimesOut =>
        (Raise (Exn OtherError "Timeout waiting for Blender response"),
         with_blender_sock false b, sent)
    | BlenderFails e =>
        (Raise (communication_error e), with_blender_sock false b, sent)
    | BlenderAnswers response =>
        let answer :=
          status ← Py.get "status" JNull response;
          if Py.is_str "error" status then
            message ← Py.get "message" (JStr "Unknown error from Blender") response;
            Raise (Exn OtherError (py_str message))
          else Py.get "result" (JObj []) response in
        match answer with
        | Ret result => (Ret result, b, sent)
        | Raise e => (Raise (communication_error e), with_blender_sock false b, sent)
        end
    end.

(** [input_data.get("params", {}).get("arguments", {}).get(name, dflt)] *)
Definition tool_argument (input_data : json) (name : string) (dflt : json)
    : res json :=
  params ← Py.get "params" (JObj []) input_data;
  arguments ← Py.get "arguments" (JObj []) params;
  Py.get name dflt arguments.

(** The dictionary [tool_mapping] of [_handle_tool_call]; building it
    evaluates the three argument look-ups. *)
Definition tool_mapping (b : ReverseBlenderConnection) (input_data : json)
    : res (list (string * (string * json))) :=
  object_name ← tool_argument input_data "object_name" JNull;
  max_size ← tool_argument input_data "max_size" (JInt 800);
  code ← tool_argument input_data "code" JNull;
  Ret [("blender_get_scene_info", ("get_scene_info", JObj []));
       ("blender_get_object_info", ("get_object_info", JObj [("name", object_name)]));
       ("blender_get_viewport_screenshot",
        ("get_viewport_screenshot",
         JObj [("max_size", max_size);
               ("filepath", JStr ("/tmp/blender_screenshot_reverse_" +:+ self_id b +:+ ".png"));
               ("format", JStr "png")]));
       ("blender_execute_code", ("execute_code", JObj [("code", code)]))].

Fixpoint mapping_assoc (k : string) (m : list (string * (string * json)))
    : option (string * json) :=
  match m with
  | [] => None
  | (k', v) :: rest => if decide (k = k') then Some v else mapping_assoc k rest
  end.

(** [tool_name in tool_mapping] and [tool_mapping[tool_name]] for the
    value decoded from the envelope. *)
Definition mapping_lookup (tool_name : json) (m : list (string * (string * json)))
    : res (option (string * json)) :=
  match tool_name with
  | JStr s => Ret (mapping_assoc s m)
  | JArr _ | JObj _ =>
      Raise (Exn TypeError ("unhashable type: '" +:+ Py.type_name tool_name +:+ "'"))
  | _ => Ret None
  end.

(** The body of the [try] of [_handle_tool_call]. *)
Definition handle_tool_call_body (b : ReverseBlenderConnection)
    (tool_name input_data : json) (w : turn_world)
    : res json * ReverseBlenderConnection * list effect :=
  match tool_mapping b input_data with
  | Raise e => (Raise e, b, [])
  | Ret m =>
      match mapping_lookup tool_name m with
      | Raise e => (Raise e, b, [])
      | Ret None =>
          (Ret (text_result ("Unknown tool: " +:+ py_str tool_name) true), b, [])
      | Ret (Some (command_type, params)) =>
          match send_command b command_type params (blender w) with
          | (Raise e, b', eff) => (Raise e, b', eff)
          | (Ret blender_result, b', eff) =>
              if Py.is_str "blender_get_viewport_screenshot" tool_name then
                match screenshot w with
                | Ret image_data => (Ret (image_result image_data), b', eff)
                | Raise e =>
                    (Ret (text_result ("Error reading screenshot: " +:+ exn_text e) true),
                     b', eff)
                end
              else
                (Ret (text_result (json_dumps_indent blender_result) false), b', eff)
          end
      end
  end.

(** [self._handle_tool_call(tool_name, input_data)] *)
Definition _handle_tool_call (b : ReverseBlenderConnection)
    (tool_name input_data : json) (w : turn_world)
    : json * ReverseBlenderConnection * list effect :=
  match handle_tool_call_body b tool_name input_data w with
  | (Ret result, b', eff) => (result, b', eff)
  | (Raise e, b', eff) =>
      (text_result ("Error: " +:+ exn_text e) true, b',
       eff ++ [LogError (ErrorHandlingToolCall e)])
  end.

(** What one turn of the loop of [_listen_for_reverse_calls] leaves. *)
Record turn : Type := Turn {
  after : ReverseBlenderConnection;
  dequeued : option json;
    (** the message [reverse_queue.get] returned, if the queue had one *)
  turn_effects : list effect;
  looping : bool
    (** false once the loop has been left *)
}.

(** One turn of [while not self.stop_event.is_set()] in
    [_listen_for_reverse_calls]. *)
Definition listen_turn (b : ReverseBlenderConnection) (w : turn_world) : turn :=
  if stop_event b then Turn b None [] false
  else
    let c := sse_connection_of b in
    match reverse_queue c with
    | [] => Turn b None [] true
    | msg :: rest =>
        let b1 := with_sse (with_reverse_queue rest c) b in
        if Py.has_field "reverse" msg then
          let envelope :=
            reverse_data ← Py.getitem "reverse" msg;
            tool_name ← Py.get "tool" JNull reverse_data;
            call_id ← Py.get "call_id" JNull reverse_data;
            input_data ← Py.get "input" JNull reverse_data;
            Ret (tool_name, call_id, input_data) in
          match envelope with
          | Raise e =>
              Turn b1 (Some msg) [LogError (ErrorInReverseCallListener e)] true
          | Ret (tool_name, call_id, input_data) =>
              let '(result, b2, eff) := _handle_tool_call b1 tool_name input_data w in
              let '(_, c', eff') :=
                Client.send_tool_reply (sse_connection_of b2) call_id result
                  (reply_post w) in
              Turn (with_sse c' b2) (Some msg) (eff ++ eff') true
          end
        else Turn b1 (Some msg) [] true
    end.

(** [self._listen_for_reverse_calls()]: the turns of the loop, one for
    each element of [worlds], until the loop is left. *)
Fixpoint _listen_for_reverse_calls (worlds : list turn_world)
    (b : ReverseBlenderConnection) : ReverseBlenderConnection * list effect :=
  match worlds with
  | [] => (b, [])
  | w :: later =>
      let t := listen_turn b w in
      if looping t then
        let '(b', eff) := _listen_for_reverse_calls later (after t) in
        (b', turn_effects t ++ eff)
      else (after t, turn_effects t)
  end.

End WithJson.
End Bridge.

(** ** [reverse_mcp.py] *)

Module Demo.

Section WithJson.
Context `{JsonLib}.

(** [handle_echo_request(call_data)] *)
Definition handle_echo_request (call_data : json) : res json :=
  params ← Py.get "params" (JObj []) call_data;
  arguments ← Py.get "arguments" (JObj []) params;
  message ← Py.get "message" (JStr "(no message provided)") arguments;
  Ret (text_result ("Echo: " +:+ py_str message) false).

(** What one turn of the loop of [main_worker] leaves. *)
Record turn : Type := Turn {
  after : sse_connection;
  dequeued : option json;
  turn_effects : list effect;
  looping : bool
}.

(** One turn of the loop [while True] of step 9 of [main_worker] (lines
    668-695). An exception other than [queue.Empty] leaves the loop; the
    [finally] clause then sets the stop flag of the connection. *)
Definition main_worker_turn (c : sse_connection) (reply_post : http_outcome) : turn :=
  match reverse_queue c with
  | [] => Turn c None [] true
  | msg :: rest =>
      let c1 := with_reverse_queue rest c in
      if Py.has_field "reverse" msg then
        let envelope :=
          reverse_data ← Py.getitem "reverse" msg;
          tool_name ← Py.get "tool" JNull reverse_data;
          call_id ← Py.get "call_id" JNull reverse_data;
          input_data ← Py.get "input" JNull reverse_data;
          Ret (tool_name, call_id, input_data) in
        match envelope with
        | Raise e => Turn (with_stop_event true c1) (Some msg) [] false
        | Ret (tool_name, call_id, input_data) =>
            if Py.is_str "demo_tool_python" tool_name then
              match handle_echo_request input_data with
              | Raise e => Turn (with_stop_event true c1) (Some msg) [] false
              | Ret result =>
                  let '(_, c2, eff) :=
                    Client.send_tool_reply c1 call_id result reply_post in
                  Turn c2 (Some msg) eff true
              end
            else
              Turn c1 (Some msg) [LogError (UnknownToolWarning tool_name)] true
        end
      else Turn c1 (Some msg) [] true
  end.

(** Step 9 of [main_worker]: the turns of the loop, one for each answer
    of the server to a reply, until the loop is left. *)
Fixpoint main_worker (reply_posts : list http_outcome) (c : sse_connection)
    : sse_connection * list effect :=
  match reply_posts with
  | [] => (c, [])
  | reply_post :: later =>
      let t := main_worker_turn c reply_post in
      if looping t then
        let '(c', eff) := main_worker later (after t) in
        (c', turn_effects t ++ eff)
      else (after t, turn_effects t)
  end.

End WithJson.
End Demo.

(** ** A concrete library for the examples *)

Module Sample.

Definition dq : string := String "034"%char EmptyString.
Definition nl : string := String "010"%char EmptyString.

Definition quoted (s : string) : string := dq +:+ s +:+ dq.

(** A compact encoder for the values whose strings need no escape,
    with the separators [json.dumps] writes. *)
Fixpoint dumps (v : json) : string :=
  match v with
  | JNull => "null"
  | JBool true => "true"
  | JBool false => "false"
  | JInt n => pretty n
  | JFloat lexeme => lexeme
  | JStr s => quoted s
  | JArr items =>
      "[" +:+
      (fix go (l : list json) : string :=
         match l with
         | [] => ""
         | x :: rest =>
             dumps x +:+ match rest with [] => "" | _ => ", " +:+ go rest end
         end) items
      +:+ "]"
  | JObj members =>
      "{" +:+
      (fix go (l : list (string * json)) : string :=
         match l with
         | [] => ""
         | (k, x) :: rest =>
             quoted k +:+ ": " +:+ dumps x
             +:+ match rest with [] => "" | _ => ", " +:+ go rest end
         end) members
      +:+ "}"
  end.

Definition str (v : json) : string :=
  match v with
  | JStr s => s
  | JNull => "None"
  | JBool true => "True"
  | JBool false => "False"
  | _ => dumps v
  end.

(** The reverse call of scenario C of the specification, for a tool that
    nobody registered. *)
Definition unknown_call : json :=
  JObj [("reverse",
         JObj [("tool", JStr "no_such_tool"); ("call_id", JStr "abc123");
               ("input", JObj [("message", JStr "hi")])])].

Definition reply_r1 : json :=
  JObj [("jsonrpc", JStr "2.0"); ("id", JStr "r1"); ("result", JObj [])].

Definition both_fields : json :=
  JObj [("id", JStr "r1"); ("reverse", JObj [("tool", JStr "demo_tool")])].

Definition notification : json :=
  JObj [("jsonrpc", JStr "2.0"); ("method", JStr "ping")].

(** The payloads the examples use, with the text [json.dumps] writes for
    each; [json.loads] gives the payload back for that text. *)
Definition known_payloads : list json :=
  [JInt 5; JStr "reverse"; unknown_call; reply_r1; both_fields; notification].

Definition loads (s : string) : res json :=
  match List.find (λ v, bool_decide (dumps v = s)) known_payloads with
  | Some v => Ret v
  | None => Raise (Exn JSONDecodeError "Expecting value: line 1 column 1 (char 0)")
  end.

#[global] Instance lib : JsonLib := {|
  json_loads := loads;
  json_dumps := dumps;
  json_dumps_indent := dumps;
  py_str := str
|}.

(** One line of the stream carrying [v]. *)
Definition data_line (v : json) : read_event := Text ("data: " +:+ dumps v +:+ nl).

(** A connection as [connect_to_sse_endpoint] returns it. *)
Definition fresh_connection : sse_connection :=
  SseConnection "s1" "/messages/?session_id=s1" "http://127.0.0.1:31173/sse"
    "Bearer t" Running false [] ∅ ∅.

(** A stream that yields the given lines and is closed after them. *)
Definition stream_of (lines : list read_event) : nat -> read_event :=
  λ i, default (Text "") (lines !! i).

Definition text_line (s : string) : read_event := Text (s +:+ nl).

Definition handshake_ok : nat -> read_event :=
  stream_of [text_line "event: endpoint";
             text_line "data: /messages/?session_id=abc123"; text_line ""].

Definition handshake_without_session : nat -> read_event :=
  stream_of [text_line "event: endpoint"; text_line "data: /messages/"].

Definition handshake_two_session_ids : nat -> read_event :=
  stream_of [text_line "event: endpoint";
             text_line "data: /m?session_id=asession_id=b"].

(** Keep-alive lines only. *)
Definition handshake_pings : nat -> read_event := λ _, text_line ": ping".

(** A first line that is not UTF-8 (the byte 0xff and a newline), after
    which the peer closes the stream. *)
Definition handshake_garbled : nat -> read_event := stream_of [Garbled nl].

(** A server that accepts the request and then stays silent: the read
    times out. *)
Definition handshake_silent : nat -> read_event :=
  λ _, ReadFails (Exn OSError "timed out").

(** A bridge whose Blender socket is connected, and a world in which
    Blender does not answer and the reply is accepted. *)
Definition bridge (c : sse_connection) : Bridge.ReverseBlenderConnection :=
  Bridge.Build c true false "140023".

Definition quiet_world : Bridge.turn_world :=
  Bridge.TurnWorld Bridge.BlenderTimesOut
    (Raise (Exn OSError "No such file or directory")) (HttpStatus 202).

(** A connection on which the request ["r1"] is pending. *)
Definition busy_connection : sse_connection :=
  SseConnection "s1" "/messages/?session_id=s1" "http://127.0.0.1:31173/sse"
    "Bearer t" Running false [] {["r1" := 0%nat]} {[0%nat := []]}.

End Sample.

(** ** The vocabulary of the specification *)

Module Spec.

(** The tags of an inbound frame (data model of the specification). *)
Inductive frame_class : Type :=
| ReverseCallFrame
| ReplyFrame
| Unrecognized.

(** "A frame containing a "reverse" field is always a ReverseCallFrame
    regardless of whether it also carries an id; otherwise a frame
    carrying an id is a ReplyFrame; anything else is dropped." *)
Definition classify (payload : json) : frame_class :=
  if Py.has_field "reverse" payload then ReverseCallFrame
  else if Py.has_field "id" payload then ReplyFrame
  else Unrecognized.

(** "[fulfill(id, payload)]: if id present, delivers payload to its slot
    and is a no-op otherwise." *)
Definition fulfill (id : string) (payload : json) (c : sse_connection)
    : sse_connection :=
  match pending_responses c !! id with
  | Some slot => with_queues (alter (λ q, q ++ [payload]) slot (queues c)) c
  | None => c
  end.

(** Enqueue one envelope at the back of the Reverse-Call Queue. *)
Definition enqueue (payload : json) (c : sse_connection) : sse_connection :=
  with_reverse_queue (reverse_queue c ++ [payload]) c.

(** "[register(id) -> slot]: creates and inserts a new empty slot; fails
    with DuplicateId if id already present." [None] stands for
    DuplicateId. *)
Definition register (id : string) (c : sse_connection)
    : option (loc * sse_connection) :=
  match pending_responses c !! id with
  | Some _ => None
  | None => Some (Client.register_response_queue id c)
  end.

(** The text of [s] before the leftmost [sep], all of [s] if there is
    none. *)
Definition before (sep s : string) : string :=
  match PyStr.partition sep s with
  | Some (b, _) => b
  | None => s
  end.

(** The text of [s] after the leftmost [sep]. *)
Definition after (sep s : string) : option string :=
  snd <$> PyStr.partition sep s.

(** "The substring between 'session_id=' and the next '&'." *)
Definition session_id_between (reply_path : string) : option string :=
  before "&" <$> after "session_id=" reply_path.

(** The text that follows the leftmost 'session_id=' up to the next '&'
    or the next 'session_id=', whichever comes first. *)
Definition session_id_segment (reply_path : string) : option string :=
  (λ tail, before "&" (before "session_id=" tail)) <$> after "session_id=" reply_path.

(** What the loop leaves in its variables: either no endpoint, or the data
    of an event of type "endpoint" and the session identifier extracted
    from it. *)
Definition handshake_outcome (vars : Client.handshake_vars) : Prop :=
  (Client.hs_message_endpoint vars = None ∧ Client.hs_session_id vars = None)
  ∨ ∃ data,
      Client.hs_event_type vars = Some "endpoint"
      ∧ Client.hs_message_endpoint vars = Some data
      ∧ Client.hs_session_id vars = session_id_segment data.

(** The tools the bridge registers and serves. *)
Definition bridge_tools : list string :=
  ["blender_get_scene_info"; "blender_get_object_info";
   "blender_get_viewport_screenshot"; "blender_execute_code"].

(** The variables of the handshake before the first line is read. *)
Definition handshake_start : Client.handshake_vars :=
  Client.HandshakeVars None None None.

(** The transport errors among the messages of the log. *)
Definition is_transport_error (m : log_msg) : bool :=
  match m with
  | PostRequestFailedWithStatus _ | FailedToSendJsonrpcRequest _ => true
  | _ => false
  end.

Definition is_wait (e : effect) : bool :=
  match e with
  | QueueWait _ => true
  | _ => false
  end.

Definition is_post (e : effect) : bool :=
  match e with
  | HttpPost _ _ _ _ => true
  | _ => false
  end.

(** A tool result that reports an error. *)
Definition is_error_result (result : json) : bool :=
  match result with
  | JObj members =>
      match Py.assoc "isError" members with
      | Some (JBool true) => true
      | _ => false
      end
  | _ => false
  end.

(** Every slot the table refers to is an existing queue object. *)
Definition table_wf (c : sse_connection) : Prop :=
  ∀ id l, pending_responses c !! id = Some l → is_Some (queues c !! l).


Section WithJson.
Context `{JsonLib}.

(** The payload of one line of the stream (wire format of the
    specification): keep-alive lines start with a colon, a line labelled
    [data:] carries the value that follows the label, and the value has to
    be JSON text. *)
Definition line_data (raw : string) : option string :=
  let line := PyStr.strip raw in
  if PyStr.startswith ":" line then None
  else if PyStr.startswith "data:" line then
    Some (PyStr.strip (PyStr.drop 5 line))
  else None.

Definition line_payload (raw : string) : option json :=
  match line_data raw with
  | Some data =>
      match json_loads data with
      | Ret payload => Some payload
      | Raise _ => None
      end
  | None => None
  end.

(** The exception that [json.loads] raises on the value of a data line,
    when it is not the [JSONDecodeError] of a value that is not JSON. *)
Definition line_error (raw : string) : option exn :=
  match line_data raw with
  | Some data =>
      match json_loads data with
      | Ret _ => None
      | Raise e => if is_json_decode_error e then None else Some e
      end
  | None => None
  end.

Definition frame_payload (ev : read_event) : option json :=
  match ev with
  | ReadFails _ => None
  | Text raw | Garbled raw => line_payload raw
  end.


(** The line carries a payload that the reader hands to the Reverse-Call
    Queue. *)
Definition reverse_call_frame (ev : read_event) : option json :=
  match frame_payload ev with
  | Some payload =>
      match Py.contains "reverse" payload with
      | Ret true => Some payload
      | _ => None
      end
  | None => None
  end.


End WithJson.
End Spec.

(** ** The reader thread and the dispatch loop side by side *)

Module System.

(** One step of one of the two threads. *)
Inductive action : Type :=
| ReaderReads (ev : read_event)
| ListenerTurns (w : Bridge.turn_world).

Section WithJson.
Context `{JsonLib}.

(** The reader thread reads the next line only while its loop runs. *)
Definition reader_reads (c : sse_connection) : bool :=
  match thread c with
  | Running => negb (stop_event c)
  | _ => false
  end.

(** Runs the two threads in the order [schedule] gives. The result is the
    final state, the envelopes the reader decoded and the messages the
    dispatch loop dequeued, each oldest first. *)
Fixpoint run (schedule : list action) (b : Bridge.ReverseBlenderConnection)
    : Bridge.ReverseBlenderConnection * list json * list json :=
  match schedule with
  | [] => (b, [], [])
  | ReaderReads ev :: rest =>
      let c := Bridge.sse_connection_of b in
      let '(b', decoded, dequeued) :=
        run rest (Bridge.with_sse (Client.sse_reader_step ev c) b) in
      (b',
       (if reader_reads c then option_list (Spec.reverse_call_frame ev) else [])
         ++ decoded,
       dequeued)
  | ListenerTurns w :: rest =>
      let t := Bridge.listen_turn b w in
      let '(b', decoded, dequeued) := run rest (Bridge.after t) in
      (b', decoded, option_list (Bridge.dequeued t) ++ dequeued)
  end.

End WithJson.
End System.

(** ** Lines the reader thread survives *)

Module Stream.

(** The payload goes through the routing of the reader without an
    exception: the two membership tests are defined on it and its id, if
    it has one, can be looked up in a dictionary. *)
Definition survivable (payload : json) : bool :=
  match Py.contains "reverse" payload with
  | Ret true => true
  | Ret false =>
      match Py.contains "id" payload with
      | Ret false => true
      | Ret true =>
          match Py.getitem "id" payload with
          | Ret (JArr _) | Ret (JObj _) => false
          | Ret _ => true
          | Raise _ => false
          end
      | Raise _ => false
      end
  | Raise _ => false
  end.

Section WithJson.
Context `{JsonLib}.

(** The line is read and handled without ending the reader thread: it
    is not the end of the stream, the read does not raise, its payload,
    if it has one, is survivable, and if it has none, that is not
    because [json.loads] raised something else than a
    [JSONDecodeError]. *)
Definition harmless_line (raw : string) : bool :=
  match Spec.line_payload raw, Spec.line_error raw with
  | Some payload, _ => survivable payload
  | None, Some _ => false
  | None, None => true
  end.

Definition harmless (ev : read_event) : bool :=
  match ev with
  | ReadFails _ => false
  | Text EmptyString => false
  | Text raw | Garbled raw => harmless_line raw
  end.

End WithJson.
End Stream.

(** ** More of Python's built-ins on decoded values *)

(** Whether the float written [lexeme] is zero ([float(lexeme) == 0.0]). *)
Class FloatLib : Type := {
  float_is_zero : string -> bool
}.

Module Builtins.

(** [isinstance(v, dict)] *)
Definition is_dict (v : json) : bool :=
  match v with
  | JObj _ => true
  | _ => false
  end.

(** [len(v)] *)
Definition len (v : json) : res nat :=
  match v with
  | JStr s => Ret (String.length s)
  | JArr items => Ret (length items)
  | JObj members => Ret (length (remove_dups members.*1))
  | _ => Raise (Exn TypeError
                  ("object of type '" +:+ Py.type_name v +:+ "' has no len()"))
  end.

(** [v[0]]: the first element of a list, the first character of a string;
    the keys of a decoded dictionary are strings, so 0 is none of them. *)
Definition item0 (v : json) : res json :=
  match v with
  | JArr (x :: _) => Ret x
  | JArr [] => Raise (Exn IndexError "list index out of range")
  | JStr (String a _) => Ret (JStr (String a EmptyString))
  | JStr EmptyString => Raise (Exn IndexError "string index out of range")
  | JObj _ => Raise (Exn OtherError "0")
  | _ => Raise (Exn TypeError
                  ("'" +:+ Py.type_name v +:+ "' object is not subscriptable"))
  end.

(** The items [for x in v] goes through: the elements of a list, the
    keys of a dictionary, the characters of a string. *)
Definition iterate (v : json) : res (list json) :=
  match v with
  | JArr items => Ret items
  | JObj members => Ret (JStr <$> remove_dups members.*1)
  | JStr s => Ret ((λ a, JStr (String a EmptyString)) <$> list_ascii_of_string s)
  | _ => Raise (Exn TypeError
                  ("'" +:+ Py.type_name v +:+ "' object is not iterable"))
  end.

(** [next(iter(v.values()), None)] *)
Definition first_value (v : json) : res json :=
  match v with
  | JObj [] => Ret JNull
  | JObj ((_, x) :: _) => Ret x
  | _ => Raise (Exn AttributeError
                  ("'" +:+ Py.type_name v +:+ "' object has no attribute 'values'"))
  end.

Section WithFloat.
Context `{FloatLib}.

(** The truth value of [v], as [if v:] and [not v] take it. *)
Definition truth (v : json) : bool :=
  match v with
  | JNull => false
  | JBool b => b
  | JInt n => negb (n =? 0)%Z
  | JFloat lexeme => negb (float_is_zero lexeme)
  | JStr s => negb (bool_decide (s = EmptyString))
  | JArr items => negb (bool_decide (items = []))
  | JObj members => negb (bool_decide (members = []))
  end.

End WithFloat.
End Builtins.

(** ** Reading the configuration of the server *)

Module Config.

Section WithFloat.
Context `{FloatLib}.

(** [extract_server_url_from_config(config_json)] (and
    [extract_this_server_url_from_config] of [reverse_mcp.py]): the value
    returned, [JNull] for [None], and the exception that was logged, if
    one was caught. *)
Definition extract_server_url_from_config (config_json : json)
    : json * option exn :=
  let body :=
    mcp_servers ← Py.get "mcpServers" (JObj []) config_json;
    if negb (Builtins.truth mcp_servers) then Ret JNull
    else
      first_server ← Builtins.first_value mcp_servers;
      if negb (Builtins.truth first_server) then Ret JNull
      else Py.get "url" JNull first_server in
  match body with
  | Ret url => (url, None)
  | Raise e => (JNull, Some e)
  end.

(** Step 5 of [ReverseBlenderConnection.connect] (lines 72-76) and of
    [main_worker] (lines 604-609): the value of the authorization header
    after the step, [auth_header] being its value before. *)
Definition extract_authorization (auth_header : json) (config_json : json)
    : res json :=
  mcp_servers ← Py.get "mcpServers" (JObj []) config_json;
  if Builtins.truth mcp_servers then
    first_server ← Builtins.first_value mcp_servers;
    if Builtins.truth first_server then
      has_headers ← Py.contains "headers" first_server;
      if has_headers : bool then
        headers ← Py.getitem "headers" first_server;
        Py.get "Authorization" JNull headers
      else Ret auth_header
    else Ret auth_header
  else Ret auth_header.

End WithFloat.
End Config.

(** ** Registering the tools of the bridge *)

Module Registration.

Definition newline : string := String "010"%char EmptyString.

(** [BLENDER_TOOL_API_KEY] *)
Definition BLENDER_TOOL_API_KEY : string := "blender_mcp_reverse_auth_key_v1".

Record tool_spec : Type := ToolSpec {
  tool_name : string;
  readme : string;
  description : string;
  parameters : json
}.

Definition schema (properties : list (string * json)) (required : list json) : json :=
  JObj [("type", JStr "object"); ("properties", JObj properties);
        ("required", JArr required)].

(** The list [tools_to_register] of [_register_all_tools]. *)
Definition tools_to_register : list tool_spec :=
  [ToolSpec "blender_get_scene_info"
     ("Get detailed information about the current Blender scene." +:+ newline
      +:+ "- Use this to understand what's in the scene before making changes.")
     "Retrieves comprehensive information about the current Blender scene including object count, object names, types, locations, and materials. This tool should be called before performing any scene manipulation to understand the current state."
     (schema [] []);
   ToolSpec "blender_get_object_info"
     ("Get detailed information about a specific object." +:+ newline
      +:+ "- Use this to inspect object properties, transforms, and materials.")
     "Retrieves detailed information about a specific object in the Blender scene including its type, location, rotation, scale, visibility, materials, and mesh data (vertices, edges, polygons)."
     (schema
        [("object_name",
          JObj [("type", JStr "string");
                ("description", JStr "The name of the object to get information about")])]
        [JStr "object_name"]);
   ToolSpec "blender_get_viewport_screenshot"
     ("Capture a screenshot of the Blender 3D viewport." +:+ newline
      +:+ "- Use this to see what the scene looks like visually.")
     "Captures a screenshot of the current Blender 3D viewport and returns it as an image. The screenshot can be resized to a maximum dimension."
     (schema
        [("max_size",
          JObj [("type", JStr "integer");
                ("description",
                 JStr "Maximum size in pixels for the largest dimension (default: 800)");
                ("default", JInt 800)])]
        []);
   ToolSpec "blender_execute_code"
     ("Execute Python code in Blender." +:+ newline
      +:+ "- Use this for complex operations not covered by other tools.")
     "Executes arbitrary Python code in Blender's context. Has access to bpy module. Returns captured stdout. Use this for complex operations, creating objects, modifying materials, etc."
     (schema
        [("code",
          JObj [("type", JStr "string");
                ("description", JStr "The Python code to execute in Blender")])]
        [JStr "code"])].

(** The dictionary [registration_params] built for one tool. *)
Definition registration_params (t : tool_spec) : json :=
  JObj [("name", JStr "remote");
        ("arguments",
         JObj [("input",
                JObj [("operation", JStr "register");
                      ("tool_name", JStr (tool_name t));
                      ("readme", JStr (readme t));
                      ("description", JStr (description t));
                      ("parameters", parameters t);
                      ("callback_endpoint",
                       JStr ("blender-mcp://reverse-bridge/" +:+ tool_name t));
                      ("TOOL_API_KEY", JStr BLENDER_TOOL_API_KEY)])])].

(** How the registration of the tools ended: the value returned and the
    error that was logged. *)
Inductive registered : Type :=
| AllRegistered
| FailedToRegister (tool : string)
| UnexpectedRegistrationResponse (tool : string).

Definition returned_true (r : registered) : bool :=
  match r with
  | AllRegistered => true
  | _ => false
  end.

(** What the world does during the call that registers one tool. *)
Record call_world : Type := CallWorld {
  uuid4 : string;
  post : http_outcome;
  during_post : list read_event;
  during_wait : list read_event
}.

Section WithLibs.
Context `{JsonLib} `{FloatLib}.

(** The test made on the response of a registration (lines 342-350 of
    [_register_all_tools], lines 436-444 of [register_demo_tool] in
    [reverse_mcp.py]): true where the source reaches [continue] or
    [return True]. *)
Definition registration_acknowledged (response : json) : res bool :=
  has_result ← Py.contains "result" response;
  if has_result : bool then
    result ← Py.getitem "result" response;
    if Builtins.is_dict result then
      content ← Py.get "content" (JArr []) result;
      if Builtins.truth content then
        n ← Builtins.len content;
        if (0 <? n)%nat then
          first ← Builtins.item0 content;
          text ← Py.get "text" (JStr "") first;
          Py.contains "Successfully registered tool" text
        else Ret false
      else Ret false
    else Ret false
  else Ret false.

(** The loop of [_register_all_tools] over the tools that are left; the
    world of the call for the tool at position [i] is [worlds i]. *)
Fixpoint register_tools (tools : list tool_spec) (i : nat)
    (worlds : nat -> call_world) (c : sse_connection)
    : res registered * sse_connection * list effect :=
  match tools with
  | [] => (Ret AllRegistered, c, [])
  | t :: later =>
      let w := worlds i in
      let '(response, c1, eff) :=
        Client.send_jsonrpc_request c "tools/call" (registration_params t) 10
          (uuid4 w) (post w) (during_post w) (during_wait w) in
      match response with
      | None => (Ret (FailedToRegister (tool_name t)), c1, eff)
      | Some response =>
          if negb (Builtins.truth response) then
            (Ret (FailedToRegister (tool_name t)), c1, eff)
          else
            match registration_acknowledged response with
            | Raise e => (Raise e, c1, eff)
            | Ret true =>
                let '(r, c2, eff') := register_tools later (S i) worlds c1 in
                (r, c2, eff ++ eff')
            | Ret false =>
                (Ret (UnexpectedRegistrationResponse (tool_name t)), c1, eff)
            end
      end
  end.

(** What the loop of [_register_all_tools] makes of the response to the
    registration of [t] (lines 337-353): [None] where it reaches [continue]
    and goes on to the next tool, otherwise the way the function ends. *)
Definition verdict (t : tool_spec) (response : option json)
    : option (res registered) :=
  match response with
  | None => Some (Ret (FailedToRegister (tool_name t)))
  | Some response =>
      if negb (Builtins.truth response) then
        Some (Ret (FailedToRegister (tool_name t)))
      else
        match registration_acknowledged response with
        | Raise e => Some (Raise e)
        | Ret true => None
        | Ret false => Some (Ret (UnexpectedRegistrationResponse (tool_name t)))
        end
  end.

(** The calls that register [tools] one after the other if none of them
    ends the loop: the call for the tool at position [i] is made in the
    world [worlds i], on the connection that the call before it has left.
    Each is given with its response, the connection it leaves and its
    effects. *)
Fixpoint calls (tools : list tool_spec) (i : nat)
    (worlds : nat -> call_world) (c : sse_connection)
    : list (option json * sse_connection * list effect) :=
  match tools with
  | [] => []
  | t :: later =>
      let w := worlds i in
      let call :=
        Client.send_jsonrpc_request c "tools/call" (registration_params t) 10
          (uuid4 w) (post w) (during_post w) (during_wait w) in
      call :: calls later (S i) worlds call.1.2
  end.

(** The POST that registers tool [t] under the identifier [request_id]. *)
Definition registration_request (c : sse_connection) (request_id : string)
    (t : tool_spec) : effect :=
  let request_body :=
    json_dumps (Client.jsonrpc_request request_id "tools/call"
                  (registration_params t)) in
  HttpPost (server_url c) (message_endpoint c) request_body
    (Client.post_headers (auth_header c) request_body).

(** [self._register_all_tools()] on the connection of the bridge. *)
Definition _register_all_tools (worlds : nat -> call_world) (c : sse_connection)
    : res registered * sse_connection * list effect :=
  register_tools tools_to_register 0 worlds c.

End WithLibs.
End Registration.

(** ** Receiving the answer of Blender *)

(** The codecs of [bytes.decode]: [decode('utf-8')] gives the text or the
    [UnicodeDecodeError]; with [errors='ignore'] it drops what it cannot
    decode; every byte string is Latin-1. *)
Class BytesLib : Type := {
  utf8_decode : string -> res string;
  utf8_decode_ignore : string -> string;
  latin1_decode : string -> string
}.

Module Blender.

(** What one [sock.recv(buffer_size)] does. *)
Inductive recv_event : Type :=
| Received (chunk : string)
    (** the bytes received; none once the peer has closed *)
| RecvTimeout
    (** [socket.timeout] *)
| RecvRaises (e : exn).

(** What [sock.sendall(...)] does with the command. *)
Inductive sendall_outcome : Type :=
| Sent
| SendTimesOut
    (** [socket.timeout], where a timeout is set on the socket *)
| SendRaises (e : exn)
| SendBlocks
    (** the peer does not read and no timeout is set: the call does not
        return *).

(** [b''.join(chunks)] *)
Definition join (chunks : list string) : string :=
  foldr String.append EmptyString chunks.

Section WithLibs.
Context `{JsonLib} `{BytesLib}.

(** The code after the loop of [_receive_full_response] (lines 241-249). *)
Definition after_receive_loop (chunks : list string) : res string :=
  match chunks with
  | [] => Raise (Exn OtherError "No data received")
  | _ :: _ =>
      let data := join chunks in
      text ← utf8_decode data;
      match json_loads text with
      | Ret _ => Ret data
      | Raise e =>
          if is_json_decode_error e then
            Raise (Exn OtherError "Incomplete JSON response received")
          else Raise e
      end
  end.

(** The loop of [_receive_full_response] with the chunks received so far;
    [None] when the loop is still receiving after the last of [events]. *)
Fixpoint receive_loop (events : list recv_event) (chunks : list string)
    : option (res string) :=
  match events with
  | [] => None
  | RecvRaises e :: _ => Some (Raise e)
  | RecvTimeout :: _ => Some (after_receive_loop chunks)
  | Received chunk :: later =>
      if bool_decide (chunk = EmptyString) then
        match chunks with
        | [] =>
            Some (Raise (Exn OtherError
                           "Connection closed before receiving any data"))
        | _ :: _ => Some (after_receive_loop chunks)
        end
      else
        let chunks := chunks ++ [chunk] in
        let data := join chunks in
        match utf8_decode data with
        | Raise e => Some (Raise e)
        | Ret text =>
            match json_loads text with
            | Ret _ => Some (Ret data)
            | Raise e =>
                if is_json_decode_error e then receive_loop later chunks
                else Some (Raise e)
            end
        end
  end.

(** [self._receive_full_response(sock)] *)
Definition _receive_full_response (events : list recv_event)
    : option (res string) :=
  receive_loop events [].

(** The bytes are the text of a JSON value. *)
Definition complete (data : string) : Prop :=
  ∃ text v, utf8_decode data = Ret text ∧ json_loads text = Ret v.

(** The bytes are text, but not the text of a JSON value. *)
Definition incomplete (data : string) : Prop :=
  ∃ text e,
    utf8_decode data = Ret text
    ∧ json_loads text = Raise e ∧ is_json_decode_error e = true.

(** Lines 188-195 of [send_command], on a socket that is there: how the
    exchange ends, [None] when it does not end, because [sendall] blocks or
    the loop is still receiving after the last of [events]. The
    [socket.timeout] of a [recv] is caught inside [_receive_full_response];
    what it raises is not a [socket.timeout]. *)
Definition exchange (sent : sendall_outcome) (events : list recv_event)
    : option Bridge.blender_outcome :=
  match sent with
  | SendBlocks => None
  | SendTimesOut => Some Bridge.BlenderTimesOut
  | SendRaises e => Some (Bridge.BlenderFails e)
  | Sent =>
      match _receive_full_response events with
      | None => None
      | Some (Raise e) => Some (Bridge.BlenderFails e)
      | Some (Ret response_data) =>
          match text ← utf8_decode response_data; json_loads text with
          | Ret response => Some (Bridge.BlenderAnswers response)
          | Raise e => Some (Bridge.BlenderFails e)
          end
      end
  end.

End WithLibs.

(** The error raised when the loop is left without a complete answer. *)
Definition receive_error (received : list string) (stop : recv_event) : exn :=
  Exn OtherError
    match received, stop with
    | [], RecvTimeout => "No data received"
    | [], _ => "Connection closed before receiving any data"
    | _ :: _, _ => "Incomplete JSON response received"
    end.

End Blender.

(** ** Asking the native binary for the configuration *)

Module Discover.

(** What one [proc.stdout.read(1)] that returns does. *)
Inductive read1 : Type :=
| ReadByte (b : ascii)
| ReadNothing
    (** [b'']: the child has closed its output *)
| ReadRaises.

(** What comes after the reads that return, when none of them has made
    the loop end. *)
Inductive ending : Type :=
| TimeIsOver
    (** the five seconds have passed when the loop tests its condition *)
| ReadBlocks
    (** the child is silent and keeps its output open: the next
        [read(1)] does not return *).

(** What the operating system does for one call: whether the binary is
    there, what [subprocess.Popen] raises if it fails, the reads that
    return, in order, and what comes after them. *)
Record world : Type := World {
  binary_exists : bool;
  popen : option exn;
  reads : list read1;
  ending_of : ending
}.

(** The child process when the function is left. *)
Inductive child : Type :=
| NotStarted
| Stopped
    (** [proc.terminate()] was called, and [proc.kill()] if that failed *)
| LeftRunning
    (** neither was called *).

(** How a call ends: with a value, [JNull] for [None], with the
    exception that leaves the function, or not at all. *)
Inductive outcome : Type :=
| Returned (config : json) (process : child)
| Raised (kind : exn_kind)
| NeverReturns
    (** the function stays in [read(1)]; the child has not been stopped *).

(** [text[text.find('{'):]], [None] when [find] gives -1. *)
Fixpoint from_brace (text : string) : option string :=
  match text with
  | EmptyString => None
  | String a rest =>
      if Ascii.eqb a "{"%char then Some text else from_brace rest
  end.

Section WithLibs.
Context `{JsonLib} `{BytesLib} `{FloatLib}.

(** The text the loop makes of the bytes accumulated so far. *)
Definition loop_text (accumulated : string) : string :=
  match utf8_decode accumulated with
  | Ret text => text
  | Raise _ => latin1_decode accumulated
  end.

(** The loop [while time.time() - start_time < timeout] over the reads
    that return: whether it was left by [break], the value of
    [json_data] and the bytes accumulated. Whatever is raised while the
    bytes are decoded and parsed is passed over. *)
Fixpoint read_loop (reads : list read1) (accumulated : string)
    : bool * json * string :=
  match reads with
  | [] => (false, JNull, accumulated)
  | ReadByte b :: later =>
      let accumulated := accumulated +:+ String b EmptyString in
      match from_brace (loop_text accumulated) with
      | Some json_str =>
          match json_loads json_str with
          | Ret json_data => (true, json_data, accumulated)
          | Raise _ => read_loop later accumulated
          end
      | None => read_loop later accumulated
      end
  | ReadNothing :: later => read_loop later accumulated
  | ReadRaises :: later => read_loop later accumulated
  end.

(** What is done with the manifest before the binary is started:
    [inr None] where the function returns [None], the path otherwise. *)
Definition binary_path_of (manifest : json) (exists_ : bool)
    : exn_kind + option string :=
  match Py.get "path" JNull manifest with
  | Raise e => inl (exn_kind_of e)
  | Ret binary_path =>
      if negb (Builtins.truth binary_path) then inr None
      else
        match binary_path with
        | JStr path => if exists_ then inr (Some path) else inr None
        | _ => inl TypeError
        end
  end.

(** [discover_mcp_server_endpoint(manifest)] of [reverse_mcp_client.py].
    After the loop, a [JSONDecodeError] returns [None] at once and any
    other exception of [json.loads] returns [None] through the outer
    handler; neither way stops the child. *)
Definition discover_mcp_server_endpoint (manifest : json) (w : world) : outcome :=
  match binary_path_of manifest (binary_exists w) with
  | inl kind => Raised kind
  | inr None => Returned JNull NotStarted
  | inr (Some _) =>
      match popen w with
      | Some _ => Returned JNull NotStarted
      | None =>
          let '(broke, json_data, accumulated) :=
            read_loop (reads w) EmptyString in
          match broke, ending_of w with
          | false, ReadBlocks => NeverReturns
          | _, _ =>
              match json_data with
              | JNull =>
                  let text := utf8_decode_ignore accumulated in
                  match from_brace text with
                  | Some json_str =>
                      match json_loads json_str with
                      | Ret json_data => Returned json_data Stopped
                      | Raise _ => Returned JNull LeftRunning
                      end
                  | None => Returned JNull Stopped
                  end
              | _ => Returned json_data Stopped
              end
          end
      end
  end.

(** [discover_this_mcp_server_endpoint_by_running_native_binary(manifest)]
    of [reverse_mcp.py], where the reading is inside a [try] whose
    [finally] clause stops the child. *)
Definition discover_this_mcp_server_endpoint_by_running_native_binary
    (manifest : json) (w : world) : outcome :=
  match binary_path_of manifest (binary_exists w) with
  | inl kind => Raised kind
  | inr None => Returned JNull NotStarted
  | inr (Some _) =>
      match popen w with
      | Some _ => Returned JNull NotStarted
      | None =>
          let '(broke, json_data, accumulated) :=
            read_loop (reads w) EmptyString in
          match broke, ending_of w with
          | false, ReadBlocks => NeverReturns
          | _, _ =>
              match json_data with
              | JNull =>
                  let text := utf8_decode_ignore accumulated in
                  match from_brace text with
                  | Some json_str =>
                      match json_loads json_str with
                      | Ret json_data => Returned json_data Stopped
                      | Raise _ => Returned JNull Stopped
                      end
                  | None => Returned JNull Stopped
                  end
              | _ => Returned json_data Stopped
              end
          end
      end
  end.

(** The bytes the child has written when the reading ends. *)
Definition output (reads : list read1) : string :=
  foldr (λ r out, match r with
                  | ReadByte b => String b out
                  | _ => out
                  end) EmptyString reads.

(** The JSON document found in a text, if there is one: what
    [json.loads] makes of the text from its first brace on. *)
Definition document (text : string) : option json :=
  match from_brace text with
  | Some json_str =>
      match json_loads json_str with
      | Ret v => Some v
      | Raise _ => None
      end
  | None => None
  end.

End WithLibs.
End Discover.

(** ** Setting up the bridge *)

Module Setup.

(** The attributes of [ReverseBlenderConnection] that [connect] and
    [disconnect] assign: [None] is [None], and [stop_event] holds the
    state of the [threading.Event] once there is one. *)
Record attributes : Type := Attributes {
  sse_connection_of : option sse_connection;
  blender_sock : bool;
  stop_event : option bool
}.

(** [self.disconnect()]: the attributes afterwards, the connection
    dictionary as the reader thread now sees it, and what was closed. *)
Definition disconnect (a : attributes)
    : attributes * option sse_connection * list effect :=
  let stop_event :=
    match stop_event a with
    | Some _ => Some true
    | None => None
    end in
  match sse_connection_of a with
  | Some c =>
      (Attributes None false stop_event, Some (with_stop_event true c), [ConnClose])
  | None => (Attributes None false stop_event, None, [])
  end.

(** [any(tool.get('name') == 'remote' for tool in tools)] *)
Fixpoint any_named_remote (tools : list json) : res bool :=
  match tools with
  | [] => Ret false
  | tool :: later =>
      name ← Py.get "name" JNull tool;
      if Py.is_str "remote" name then Ret true else any_named_remote later
  end.

(** Lines 104-105 of [connect]. *)
Definition has_remote (tools_response : json) : res bool :=
  result ← Py.get "result" (JObj []) tools_response;
  tools ← Py.get "tools" (JArr []) result;
  items ← Builtins.iterate tools;
  any_named_remote items.

(** What the world does from step 7 of [connect] on. *)
Record world : Type := World {
  tools_list : Registration.call_world;
  blender_connect : option exn;
    (** what [blender_sock.connect] raises, if it fails *)
  registrations : nat -> Registration.call_world
}.

(** The error that [connect] logs before it returns [False]. *)
Inductive connect_error : Type :=
| CouldNotGetToolsList
| ServerDoesNotHaveRemoteTool
| CouldNotConnectToBlenderAddon (e : exn)
| FailedToRegisterBlenderTools (r : Registration.registered)
| ErrorSettingUpReverseMcpConnection (e : exn).

Record connected : Type := Connected {
  error : option connect_error;
    (** [None] where [connect] returns [True] *)
  attributes_after : attributes;
  connection_after : sse_connection;
    (** the connection dictionary, which the reader thread shares *)
  effects : list effect
}.

Section WithLibs.
Context `{JsonLib} `{FloatLib}.

(** [connect] abandons the attempt: it logs [err], calls [disconnect] and returns
    [False]. *)
Definition abandon (err : connect_error) (c : sse_connection) (sock : bool)
    (stop : option bool) (eff : list effect) : connected :=
  let '(a, c', eff') := disconnect (Attributes (Some c) sock stop) in
  Connected (Some err) a (default c c') (eff ++ eff').

(** Steps 7 to 10 of [ReverseBlenderConnection.connect], with the
    handler of its [try]; [c] is the connection that step 6 has stored,
    [sock] and [stop] are the attributes [blender_sock] and [stop_event]
    at that point ([None] on a new object). *)
Definition connect_from_step_7 (sock : bool) (stop : option bool)
    (c : sse_connection) (w : world) : connected :=
  let call := tools_list w in
  let '(tools_response, c1, eff1) :=
    Client.send_jsonrpc_request c "tools/list" (JObj []) 10
      (Registration.uuid4 call) (Registration.post call)
      (Registration.during_post call) (Registration.during_wait call) in
  match tools_response with
  | None => abandon CouldNotGetToolsList c1 sock stop eff1
  | Some tools_response =>
      if negb (Builtins.truth tools_response) then
        abandon CouldNotGetToolsList c1 sock stop eff1
      else
        match has_remote tools_response with
        | Raise e => abandon (ErrorSettingUpReverseMcpConnection e) c1 sock stop eff1
        | Ret false => abandon ServerDoesNotHaveRemoteTool c1 sock stop eff1
        | Ret true =>
            match blender_connect w with
            | Some e => abandon (CouldNotConnectToBlenderAddon e) c1 true stop eff1
            | None =>
                let '(r, c2, eff2) :=
                  Registration._register_all_tools (registrations w) c1 in
                match r with
                | Raise e =>
                    abandon (ErrorSettingUpReverseMcpConnection e) c2 true stop
                      (eff1 ++ eff2)
                | Ret Registration.AllRegistered =>
                    Connected None (Attributes (Some c2) true (Some false)) c2
                      (eff1 ++ eff2 ++ [ThreadStart])
                | Ret r =>
                    abandon (FailedToRegisterBlenderTools r) c2 true stop
                      (eff1 ++ eff2)
                end
            end
        end
  end.

End WithLibs.
End Setup.

(** ** Sample values for the further properties *)

Module Example.

(** Truth of a float for lexemes without exponent: zero when every digit
    is. *)
Definition float_lib : FloatLib := {|
  float_is_zero lexeme :=
    forallb (λ a, bool_decide (a ∈ ["0"; "."; "-"; "+"]%char))
      (list_ascii_of_string lexeme)
|}.

(** The codecs on ASCII text, where the three agree. *)
Definition bytes_lib : BytesLib := {|
  utf8_decode data := Ret data;
  utf8_decode_ignore data := data;
  latin1_decode data := data
|}.

(** A configuration with two servers. *)
Definition first_server : list (string * json) :=
  [("url", JStr "https://127.0.0.1:31173/sse");
   ("headers", JObj [("Authorization", JStr "Bearer t")])].

Definition config : json :=
  JObj [("mcpServers",
         JObj [("mypc", JObj first_server);
               ("other", JObj [("url", JStr "https://example.org/sse")])])].

(** A call of [blender_get_object_info] and an answer of Blender. *)
Definition object_info_input : json :=
  JObj [("params", JObj [("arguments", JObj [("object_name", JStr "Cube")])])].

Definition blender_answer : list (string * json) :=
  [("status", JStr "success"); ("result", JObj [("name", JStr "Cube")])].

Definition answering_world : Bridge.turn_world :=
  Bridge.TurnWorld (Bridge.BlenderAnswers (JObj blender_answer))
    (Ret "aGVsbG8=") (HttpStatus 202).

(** A call of the demo tool. *)
Definition echo_fields : list (string * json) :=
  [("tool", JStr "demo_tool_python"); ("call_id", JStr "c1");
   ("input", JObj [("params", JObj [("arguments", JObj [("message", JStr "hi")])])])].

Definition echo_call : json := JObj [("reverse", JObj echo_fields)].

(** An envelope whose "reverse" member is a number. *)
Definition number_envelope : json := JObj [("reverse", JInt 5)].

(** A stream that agrees with [Sample.handshake_ok] on its first ten
    lines and goes on with another endpoint. *)
Definition late_stream : nat -> read_event :=
  λ i, if (i <? 10)%nat then Sample.handshake_ok i
       else Sample.text_line "data: /late?session_id=z".

(** A manifest, and a child that writes a brace and a letter, closes its
    output and goes on running until the time is over. *)
Definition manifest : json := JObj [("path", JStr "/opt/aurafriday/shim")].

Definition braces_only : Discover.world :=
  Discover.World true None
    [Discover.ReadByte "{"%char; Discover.ReadByte "x"%char;
     Discover.ReadNothing; Discover.ReadNothing]
    Discover.TimeIsOver.

End Example.

(** * Properties *)

(** ** Strings *)

Section StringFacts.

Lemma startswith_cons a p s :
  PyStr.startswith (String a p) s = true →
  ∃ s', s = String a s' ∧ PyStr.startswith p s' = true.
Proof.
  destruct s as [|b s']; simpl; [done|].
  destruct (decide (a = b)) as [->|]; [|done]. eauto.
Qed.

Lemma append_cons a p x : String a p +:+ x = String a (p +:+ x).
Proof. reflexivity. Qed.

Lemma startswith_drop p s :
  PyStr.startswith p s = true → s = p +:+ PyStr.drop (String.length p) s.
Proof.
  revert s. induction p as [|a p IH]; intros s Hs; [by destruct s|].
  apply startswith_cons in Hs as (s' & -> & Hs). rewrite append_cons. simpl. f_equal. by apply IH.
Qed.

Lemma contains_partition sep s :
  PyStr.contains sep s = bool_decide (is_Some (PyStr.partition sep s)).
Proof.
  induction s as [|c s IH].
  - simpl. by destruct (PyStr.startswith sep "").
  - cbn [PyStr.contains PyStr.partition].
    destruct (PyStr.startswith sep (String c s)); [done|].
    rewrite IH. simpl. by destruct (PyStr.partition sep s) as [[??]|].
Qed.

Lemma partition_nonempty sep b a :
  sep ≠ "" → PyStr.partition sep "" = Some (b, a) → False.
Proof. intros Hsep. destruct sep; [done|]. simpl. done. Qed.

(** [s.split(sep)[0]] is the text before the leftmost separator. *)
Lemma split_head sep s :
  PyStr.split sep None s !! 0%nat = Some (Spec.before sep s).
Proof.
  unfold PyStr.split, Spec.before. simpl.
  by destruct (PyStr.partition sep s) as [[b a]|].
Qed.

(** [s.split(sep)[1]] is the text between the first two separators. *)
Lemma split_second sep s :
  sep ≠ "" →
  PyStr.split sep None s !! 1%nat = Spec.before sep <$> Spec.after sep s.
Proof.
  intros Hsep. unfold PyStr.split, Spec.after, Spec.before.
  cbn [PyStr.split_rounds].
  destruct (PyStr.partition sep s) as [[b a]|] eqn:Hp; [|done].
  destruct s as [|c s]; [by apply partition_nonempty in Hp|].
  simpl. by destruct (PyStr.partition sep a) as [[??]|].
Qed.

(** The value of a line labelled [data:] is what follows the label. *)
Lemma field_value_data line :
  PyStr.startswith "data:" line = true →
  Client.field_value line = Ret (PyStr.strip (PyStr.drop 5 line)).
Proof.
  intros Hs. apply startswith_drop in Hs. simpl String.length in Hs.
  generalize dependent (PyStr.drop 5 line). intros rest ->.
  unfold Client.field_value, PyStr.split. simpl.
  by destruct (String.length rest).
Qed.

End StringFacts.

(** ** The reader thread leaves the table alone *)

Section ReaderFrame.
Context `{JsonLib}.

(** Routing a payload changes nothing but the contents of the queues. *)
Lemma route_json_data_frame v c c' :
  Client.route_json_data v c = Ret c' →
  pending_responses c' = pending_responses c
  ∧ thread c' = thread c
  ∧ stop_event c' = stop_event c
  ∧ dom (queues c') = dom (queues c).
Proof.
  unfold Client.route_json_data, Client.queue_put. intros Hr.
  destruct (Py.contains "reverse" v) as [[]|]; simpl in Hr; simplify_eq; [done|].
  destruct (Py.contains "id" v) as [[]|]; simpl in Hr; simplify_eq; [|done].
  destruct (Py.getitem "id" v) as [request_id|]; simpl in Hr; simplify_eq.
  destruct (Client.pending_lookup request_id (pending_responses c)) as [[l|]|];
    simpl in Hr; simplify_eq; [|done].
  simpl. split_and!; try done. apply dom_alter_L.
Qed.

(** The routing raises no [JSONDecodeError]. *)
Lemma route_json_data_raises v c e :
  Client.route_json_data v c = Raise e → is_json_decode_error e = false.
Proof.
  unfold Client.route_json_data, Py.contains, Py.getitem, Client.pending_lookup.
  intros Hr.
  destruct v as [| | | |s|items|members]; simpl in Hr; simplify_eq; try done.
  - destruct (PyStr.contains "reverse" s); simpl in Hr; [done|].
    destruct (PyStr.contains "id" s); simpl in Hr; by simplify_eq.
  - destruct (existsb _ items); simpl in Hr; [done|].
    destruct (existsb _ items); simpl in Hr; by simplify_eq.
  - destruct (bool_decide (is_Some (Py.assoc "reverse" members))); simpl in Hr;
      [done|].
    destruct (bool_decide (is_Some (Py.assoc "id" members))); simpl in Hr; [|done].
    destruct (Py.assoc "id" members) as [request_id|]; simpl in Hr;
      [|by simplify_eq].
    destruct request_id; simpl in Hr; simplify_eq; try done.
    by destruct (pending_responses c !! s).
Qed.

(** A line either carries a payload, which is routed (an exception ends
    the thread), or a value on which [json.loads] raises something else
    than a [JSONDecodeError], which ends the thread, or is skipped. *)
Lemma sse_reader_line_payload raw c :
  Client.sse_reader_line raw c =
    match Spec.line_payload raw with
    | Some v =>
        match Client.route_json_data v c with
        | Ret c' => c'
        | Raise e => with_thread (Failed e) c
        end
    | None =>
        match Spec.line_error raw with
        | Some e => with_thread (Failed e) c
        | None => c
        end
    end.
Proof.
  unfold Client.sse_reader_line, Spec.line_payload, Spec.line_error, Spec.line_data.
  destruct (PyStr.startswith ":" (PyStr.strip raw)); [done|].
  destruct (PyStr.startswith "data:" (PyStr.strip raw)) eqn:Hd; [|done].
  rewrite (field_value_data _ Hd).
  destruct (json_loads _) as [v|e]; cbn [mbind res_bind].
  - destruct (Client.route_json_data v c) as [c'|e] eqn:Hr; [done|].
    by rewrite (route_json_data_raises _ _ _ Hr).
  - by destruct (is_json_decode_error e).
Qed.

Lemma line_payload_empty : Spec.line_payload "" = None.
Proof. reflexivity. Qed.

Lemma sse_reader_turn_payload ev c v :
  stop_event c = false →
  Spec.frame_payload ev = Some v →
  Client.sse_reader_turn ev c =
    match Client.route_json_data v c with
    | Ret c' => c'
    | Raise e => with_thread (Failed e) c
    end.
Proof.
  intros Hstop Hv. unfold Client.sse_reader_turn. rewrite Hstop.
  destruct ev as [raw|raw|e]; simpl in Hv; [| |done].
  - destruct raw as [|a raw]; [by rewrite line_payload_empty in Hv|].
    by rewrite sse_reader_line_payload, Hv.
  - by rewrite sse_reader_line_payload, Hv.
Qed.

(** A line without payload changes at most the state of the thread. *)
Lemma sse_reader_turn_no_payload ev c :
  Spec.frame_payload ev = None →
  Client.sse_reader_turn ev c = c
  ∨ ∃ t, Client.sse_reader_turn ev c = with_thread t c.
Proof.
  intros Hv. unfold Client.sse_reader_turn.
  destruct (stop_event c); [eauto|].
  destruct ev as [raw|raw|e]; simpl in Hv; [| |eauto].
  - destruct raw as [|a raw]; [eauto|].
    rewrite sse_reader_line_payload, Hv. destruct (Spec.line_error _); eauto.
  - rewrite sse_reader_line_payload, Hv. destruct (Spec.line_error _); eauto.
Qed.

(** One step of the reader keeps the table of pending requests and the
    set of queue objects. *)
Lemma sse_reader_step_frame ev c :
  pending_responses (Client.sse_reader_step ev c) = pending_responses c
  ∧ stop_event (Client.sse_reader_step ev c) = stop_event c
  ∧ dom (queues (Client.sse_reader_step ev c)) = dom (queues c).
Proof.
  unfold Client.sse_reader_step. destruct (thread c); [|done..].
  destruct (Spec.frame_payload ev) as [v|] eqn:Hv.
  - destruct (stop_event c) eqn:Hstop.
    { unfold Client.sse_reader_turn. by rewrite Hstop. }
    rewrite (sse_reader_turn_payload _ _ _ Hstop Hv).
    destruct (Client.route_json_data v c) as [c'|e] eqn:Hr; [|done].
    by apply route_json_data_frame in Hr as (-> & _ & -> & ->).
  - destruct (sse_reader_turn_no_payload _ c Hv) as [->|[t ->]]; done.
Qed.

Lemma sse_reader_thread_frame arrivals c :
  pending_responses (Client.sse_reader_thread arrivals c) = pending_responses c
  ∧ stop_event (Client.sse_reader_thread arrivals c) = stop_event c
  ∧ dom (queues (Client.sse_reader_thread arrivals c)) = dom (queues c).
Proof.
  revert c. induction arrivals as [|ev arrivals IH]; intros c; [done|].
  change (Client.sse_reader_thread (ev :: arrivals) c)
    with (Client.sse_reader_thread arrivals (Client.sse_reader_step ev c)).
  destruct (IH (Client.sse_reader_step ev c)) as (-> & -> & ->).
  apply sse_reader_step_frame.
Qed.

End ReaderFrame.

(** ** The Correlation Table *)

Section Table.
Context `{JsonLib}.

Lemma register_response_queue_new id c :
  queues c !! (Client.register_response_queue id c).1 = None.
Proof. apply not_elem_of_dom, is_fresh. Qed.

(** C8, as the code has it: registering never fails. A new, empty queue
    object is created and stored under the identifier, whether or not
    the identifier was already in the table, and every other entry and
    every other queue object stays as it was. *)
Theorem register_always_stores_a_new_empty_slot (id : string) (c : sse_connection) :
  ∃ l c',
    Client.register_response_queue id c = (l, c')
    ∧ queues c !! l = None
    ∧ pending_responses c' !! id = Some l
    ∧ queues c' !! l = Some []
    ∧ (∀ id', id' ≠ id → pending_responses c' !! id' = pending_responses c !! id')
    ∧ (∀ l', l' ≠ l → queues c' !! l' = queues c !! l').
Proof.
  eexists _, _. split; [reflexivity|]. simpl. split_and!.
  - apply not_elem_of_dom, is_fresh.
  - apply lookup_insert_eq.
  - apply lookup_insert_eq.
  - intros id' Hne. by apply lookup_insert_ne.
  - intros l' Hne. by apply lookup_insert_ne.
Qed.

(** C8, counterexample: on a connection where ["r1"] is pending on the
    queue object 0, the specification's [register] reports DuplicateId,
    whereas the code stores a new queue object under ["r1"]: the
    existing slot is replaced and nothing is reported. *)
Lemma register_replaces_a_pending_slot :
  pending_responses Sample.busy_connection !! "r1" = Some 0%nat
  ∧ Spec.register "r1" Sample.busy_connection = None
  ∧ pending_responses (Client.register_response_queue "r1" Sample.busy_connection).2
      !! "r1" = Some 1%nat.
Proof. vm_compute. done. Qed.

(** Removing after registering gives the table back when the identifier
    was not in it. *)
Lemma pop_after_register id c arrivals :
  pending_responses
    (Client.pop_pending id
       (Client.sse_reader_thread arrivals (Client.register_response_queue id c).2))
  = delete id (pending_responses c).
Proof.
  unfold Client.pop_pending, with_pending_responses at 1.
  cbn [pending_responses].
  destruct (sse_reader_thread_frame arrivals
    (Client.register_response_queue id c).2) as (-> & _).
  apply delete_insert_eq.
Qed.

End Table.

(** ** Sending *)

Section Sending.
Context `{JsonLib}.

(** What [send_tool_reply] does: one POST of the reply, then at most a
    log entry and the closing of the POST connection; the connection
    dictionary is handed back as it was. *)
Lemma send_tool_reply_shape
    (c : sse_connection) (call_id result : json) (post : http_outcome) :
  let body :=
    json_dumps (JObj [("jsonrpc", JStr "2.0"); ("id", call_id);
                      ("method", JStr "tools/reply");
                      ("params", JObj [("result", result)])]) in
  ∃ ok rest,
    Client.send_tool_reply c call_id result post
      = (ok, c,
         HttpPost (server_url c) (message_endpoint c) body
           (Client.post_headers (auth_header c) body) :: rest)
    ∧ Forall (λ e, Spec.is_post e = false ∧ Spec.is_wait e = false) rest
    ∧ (ok = true ↔ post = HttpStatus 202).
Proof.
  intros body. unfold Client.send_tool_reply.
  destruct post as [e|status].
  - eexists _, _. split; [reflexivity|]. split; [by repeat constructor|done].
  - case_bool_decide as Hs.
    + eexists _, _. split; [reflexivity|]. split; [by repeat constructor|].
      split; [done|]. intros [=]. done.
    + eexists _, _. split; [reflexivity|]. split; [by repeat constructor|].
      split; [|done]. intros _. f_equal. by destruct (decide (status = 202%Z)).
Qed.

(** C4: [send_tool_reply(callId, result)] makes exactly one POST, to the
    message endpoint of the connection; its body is the serialization of
    [{"jsonrpc": "2.0", "id": callId, "method": "tools/reply", "params":
    {"result": result}}] with [callId] as it was received; the connection,
    and with it the Correlation Table and every result slot, is left as
    it was, and the call does not wait on any queue. *)
Theorem send_tool_reply_is_fire_and_forget
    (c : sse_connection) (call_id result : json) (post : http_outcome) :
  let body :=
    json_dumps (JObj [("jsonrpc", JStr "2.0"); ("id", call_id);
                      ("method", JStr "tools/reply");
                      ("params", JObj [("result", result)])]) in
  ∃ ok rest,
    Client.send_tool_reply c call_id result post
      = (ok, c,
         HttpPost (server_url c) (message_endpoint c) body
           (Client.post_headers (auth_header c) body) :: rest)
    ∧ Forall (λ e, Spec.is_post e = false ∧ Spec.is_wait e = false) rest
    ∧ (ok = true ↔ post = HttpStatus 202)
    ∧ pending_responses (Client.send_tool_reply c call_id result post).1.2
      = pending_responses c
    ∧ queues (Client.send_tool_reply c call_id result post).1.2 = queues c.
Proof.
  intros body.
  destruct (send_tool_reply_shape c call_id result post)
    as (ok & rest & Hreply & Hrest & Hok).
  exists ok, rest. rewrite Hreply. done.
Qed.

(** C3: when the POST raises or is answered with a status other than
    202, [send_jsonrpc_request] returns the failure value [None] with the
    transport error in the log, it does not wait on the result slot
    (whatever lines would have arrived afterwards play no part), and the
    table has no entry for the request identifier when it returns. *)
Theorem transport_error_returns_without_waiting
    (c : sse_connection) (method : string) (params : json) (timeout_seconds : Q)
    (uuid4 : string) (post : http_outcome) (during_post during_wait : list read_event) :
  post ≠ HttpStatus 202 →
  ∃ c' effects m,
    Client.send_jsonrpc_request c method params timeout_seconds uuid4 post
      during_post during_wait = (None, c', effects)
    ∧ LogError m ∈ effects
    ∧ Spec.is_transport_error m = true
    ∧ Forall (λ e, Spec.is_wait e = false) effects
    ∧ (∀ later, Client.send_jsonrpc_request c method params timeout_seconds uuid4
                  post during_post later = (None, c', effects))
    ∧ pending_responses c' !! uuid4 = None
    ∧ pending_responses c' = delete uuid4 (pending_responses c).
Proof.
  intros Hpost. unfold Client.send_jsonrpc_request.
  destruct (Client.register_response_queue uuid4 c) as [l c1] eqn:Hreg.
  assert (c1 = (Client.register_response_queue uuid4 c).2) as Hc1 by by rewrite Hreg.
  destruct post as [e|status].
  - eexists _, _, _. split; [reflexivity|].
    split; [apply list_elem_of_In; simpl; eauto|]. split; [done|].
    split; [by repeat constructor|]. split; [done|].
    rewrite Hc1, pop_after_register. split; [apply lookup_delete_eq|done].
  - case_bool_decide as Hs; [|by destruct Hpost; f_equal; destruct (decide (status = 202%Z))].
    eexists _, _, _. split; [reflexivity|].
    split; [apply list_elem_of_In; simpl; eauto|]. split; [done|].
    split; [by repeat constructor|]. split; [done|].
    rewrite Hc1, pop_after_register. split; [apply lookup_delete_eq|done].
Qed.

End Sending.

(** ** Waiting for a reply *)

Section Waiting.
Context `{JsonLib}.







End Waiting.

(** ** The table refers to existing queue objects *)

Section TableWf.
Context `{JsonLib}.

Lemma table_wf_connect url auth get stream c :
  Client.returned (Client.connect_to_sse_endpoint url auth get stream) = Some c →
  Spec.table_wf c.
Proof.
  unfold Client.connect_to_sse_endpoint. intros Hc id l.
  destruct get as [e|status]; [done|].
  case_bool_decide; [done|].
  destruct (Client.read_endpoint_event _ _ _ _) as [[vars|e] n]; [|done].
  destruct (_ || _); [done|].
  injection Hc as <-. cbn [pending_responses]. by rewrite lookup_empty.
Qed.

Lemma table_wf_frame c c' :
  pending_responses c' ⊆ pending_responses c →
  dom (queues c) ⊆ dom (queues c') →
  Spec.table_wf c → Spec.table_wf c'.
Proof.
  intros Hp Hq Hwf id l Hl.
  apply elem_of_dom, Hq, elem_of_dom. apply (Hwf id).
  by eapply lookup_weaken.
Qed.

Lemma table_wf_reader arrivals c :
  Spec.table_wf c → Spec.table_wf (Client.sse_reader_thread arrivals c).
Proof.
  destruct (sse_reader_thread_frame arrivals c) as (Hp & _ & Hq).
  apply table_wf_frame; [by rewrite Hp|by rewrite Hq].
Qed.

Lemma table_wf_register id c :
  Spec.table_wf c → Spec.table_wf (Client.register_response_queue id c).2.
Proof.
  intros Hwf id' l. simpl. intros Hl.
  destruct (decide (id' = id)) as [->|Hne].
  - rewrite lookup_insert_eq in Hl. simplify_eq. rewrite lookup_insert_eq. eauto.
  - rewrite lookup_insert_ne in Hl by done. apply Hwf in Hl as [q Hq].
    rewrite lookup_insert_ne; [eauto|].
    intros Heq. pose proof (is_fresh (dom (queues c))) as Hfresh.
    apply not_elem_of_dom in Hfresh. congruence.
Qed.

Lemma table_wf_queue_get l c :
  Spec.table_wf c → Spec.table_wf (Client.queue_get l c).2.
Proof.
  unfold Client.queue_get. destruct (queues c !! l) as [[|item rest]|] eqn:Hl; try done.
  apply table_wf_frame; simpl; [done|]. rewrite dom_insert_L. set_solver.
Qed.

Lemma table_wf_pop id c :
  Spec.table_wf c → Spec.table_wf (Client.pop_pending id c).
Proof. apply table_wf_frame; simpl; [apply delete_subseteq|done]. Qed.

(** Every call of [send_jsonrpc_request] keeps the table well formed. *)
Lemma table_wf_send_jsonrpc_request c method params t uuid4 post dp dw :
  Spec.table_wf c →
  Spec.table_wf
    (Client.send_jsonrpc_request c method params t uuid4 post dp dw).1.2.
Proof.
  intros Hwf. unfold Client.send_jsonrpc_request.
  pose proof (table_wf_register uuid4 c Hwf) as H1.
  destruct (Client.register_response_queue uuid4 c) as [l c1]. simpl in H1.
  apply (table_wf_reader dp) in H1.
  destruct post as [e|status]; [by apply table_wf_pop|].
  case_bool_decide; [by apply table_wf_pop|].
  destruct (Client.negative t); [by apply table_wf_pop|].
  apply (table_wf_reader dw), (table_wf_queue_get l) in H1.
  destruct (Client.queue_get l _) as [[response|] c4]; by apply table_wf_pop.
Qed.

End TableWf.

(** ** The handshake *)

Section Handshake.

(** The extraction never raises, and it gives the text after the leftmost
    ['session_id='] cut at the next ['session_id='] and at the next ['&']. *)
Lemma extract_session_id_segment data :
  Client.extract_session_id data = Ret (Spec.session_id_segment data).
Proof.
  unfold Client.extract_session_id, Spec.session_id_segment.
  rewrite contains_partition, (split_second "session_id=") by done.
  unfold Spec.after.
  destruct (PyStr.partition "session_id=" data) as [[b a]|]; [|done].
  rewrite bool_decide_eq_true_2 by eauto. cbn [fmap option_fmap option_map snd].
  by rewrite split_head.
Qed.

(** With a single ['session_id='] the segment is the text up to the next
    ['&']. *)
Lemma session_id_segment_between data tail :
  Spec.after "session_id=" data = Some tail →
  PyStr.contains "session_id=" tail = false →
  Spec.session_id_segment data = Spec.session_id_between data.
Proof.
  unfold Spec.session_id_segment, Spec.session_id_between. intros -> Hc.
  rewrite contains_partition in Hc. apply bool_decide_eq_false in Hc.
  simpl. do 2 f_equal. unfold Spec.before.
  destruct (PyStr.partition "session_id=" tail) as [[??]|]; [|done].
  destruct Hc. eauto.
Qed.

Lemma session_id_segment_contains data sid :
  Spec.session_id_segment data = Some sid →
  PyStr.contains "session_id=" data = true.
Proof.
  unfold Spec.session_id_segment, Spec.after. rewrite contains_partition.
  destruct (PyStr.partition "session_id=" data); [|done].
  intros _. apply bool_decide_eq_true. eauto.
Qed.

Lemma read_endpoint_event_outcome rounds stream pos vars vars' n :
  Client.hs_message_endpoint vars = None →
  Client.hs_session_id vars = None →
  Client.read_endpoint_event rounds stream pos vars = (Ret vars', n) →
  Spec.handshake_outcome vars'.
Proof.
  revert pos vars. induction rounds as [|rounds IH]; intros pos vars Hm Hs Hr.
  { simpl in Hr. simplify_eq. by left. }
  cbn [Client.read_endpoint_event] in Hr.
  destruct (Client.readline_strict (stream pos)) as [raw|e]; [|done].
  cbv zeta in Hr.
  destruct (PyStr.startswith "event:" (PyStr.strip raw)).
  { destruct (Client.field_value (PyStr.strip raw)) as [event_type|e]; [|done].
    by eapply IH in Hr. }
  destruct (PyStr.startswith "data:" (PyStr.strip raw)).
  { destruct (Client.field_value (PyStr.strip raw)) as [data|e]; [|done].
    case_bool_decide as Hev; [|by eapply IH in Hr].
    rewrite extract_session_id_segment in Hr.
    destruct (Spec.session_id_segment data) as [sid|] eqn:Hsid;
      simplify_eq; right; exists data; simpl; by rewrite ?Hs. }
  case_bool_decide.
  - rewrite Hm in Hr. simpl in Hr. by eapply IH in Hr.
  - by eapply IH in Hr.
Qed.

(** The loop reads at most [rounds] lines. *)
Lemma read_endpoint_event_lines rounds stream (pos : nat) vars :
  (pos ≤ (Client.read_endpoint_event rounds stream pos vars).2 ≤ pos + rounds)%nat.
Proof.
  revert pos vars. induction rounds as [|rounds IH]; intros pos vars;
    cbn [Client.read_endpoint_event]; [simpl; lia|].
  repeat case_match; simpl;
    try match goal with
        | |- context [Client.read_endpoint_event rounds stream (S pos) ?v] =>
            specialize (IH (S pos) v)
        end; lia.
Qed.

(** What the loop does is decided by the lines it reads. *)
Lemma read_endpoint_event_ext rounds stream stream' (pos : nat) vars :
  (∀ i, (pos ≤ i < pos + rounds)%nat → stream i = stream' i) →
  Client.read_endpoint_event rounds stream pos vars
  = Client.read_endpoint_event rounds stream' pos vars.
Proof.
  revert pos vars. induction rounds as [|rounds IH]; intros pos vars Hsame; [done|].
  cbn [Client.read_endpoint_event]. rewrite <-(Hsame pos) by lia.
  repeat case_match; try done; apply IH; intros i Hi; apply Hsame; lia.
Qed.

End Handshake.

(** ** Connecting *)

Section Connecting.

(** When the ten lines bring no endpoint, the connection is closed and
    nothing is returned. *)
Lemma connect_without_endpoint url auth stream vars n :
  Client.read_endpoint_event 10 stream 0 Spec.handshake_start = (Ret vars, n) →
  Client.hs_message_endpoint vars = None →
  Client.connect_to_sse_endpoint url auth (HttpStatus 200) stream
  = Client.ConnectResult None
      [HttpGet url (Client.sse_headers auth);
       LogError CouldNotExtractMessageEndpoint; ConnClose] n.
Proof.
  intros Hr Hm. unfold Client.connect_to_sse_endpoint.
  rewrite bool_decide_eq_false_2 by (intros Hne; by apply Hne).
  change (Client.HandshakeVars None None None) with Spec.handshake_start.
  by rewrite Hr, Hm.
Qed.

(** The handshake never reads more than ten lines, and the lines after
    the tenth have no part in its result. *)
Lemma connect_reads_ten_lines url auth get stream stream' :
  (∀ i, (i < 10)%nat → stream i = stream' i) →
  (Client.lines_read (Client.connect_to_sse_endpoint url auth get stream) ≤ 10)%nat
  ∧ Client.connect_to_sse_endpoint url auth get stream
    = Client.connect_to_sse_endpoint url auth get stream'.
Proof.
  intros Hsame. unfold Client.connect_to_sse_endpoint.
  rewrite <-(read_endpoint_event_ext 10 stream stream') by (intros; apply Hsame; lia).
  split; [|done].
  pose proof (read_endpoint_event_lines 10 stream 0 (Client.HandshakeVars None None None)).
  destruct get as [e|status]; [simpl; lia|].
  case_bool_decide; [simpl; lia|].
  destruct (Client.read_endpoint_event _ _ _ _) as [[vars|e] n]; [|simpl in *; lia].
  destruct (_ || _); simpl in *; lia.
Qed.

(** C9, at the failing input: when a read of the handshake raises (the
    line is not UTF-8, or the socket times out), [connect_to_sse_endpoint]
    returns [None] and starts no reader thread, but it leaves through the
    handler of the whole function, and [conn.close()] is not called. *)
Theorem handshake_read_error_skips_close
    (url auth : string) (stream : nat -> read_event) (e : exn) (n : nat) :
  Client.read_endpoint_event 10 stream 0 Spec.handshake_start = (Raise e, n) →
  Client.connect_to_sse_endpoint url auth (HttpStatus 200) stream
  = Client.ConnectResult None
      [HttpGet url (Client.sse_headers auth); LogError (FailedToConnectToSse e)] n
  ∧ ConnClose ∉ Client.connect_effects
                  (Client.connect_to_sse_endpoint url auth (HttpStatus 200) stream).
Proof.
  intros Hr. unfold Client.connect_to_sse_endpoint.
  rewrite bool_decide_eq_false_2 by (intros Hne; by apply Hne).
  change (Client.HandshakeVars None None None) with Spec.handshake_start.
  rewrite Hr. split; [done|]. simpl.
  intros Hin. apply list_elem_of_In in Hin. simpl in Hin.
  destruct Hin as [?|[?|[]]]; done.
Qed.

(** C10, as the code has it: a connection is returned only for an
    endpoint event whose data contains ['session_id='], and its session
    identifier is the text after the leftmost ['session_id='] up to the
    next ['&'] or the next ['session_id='], whichever comes first; when
    ['session_id='] occurs once, that is the text between ['session_id=']
    and the next ['&']. An endpoint event whose data has no
    ['session_id='] makes the handshake fail: the connection is closed and
    [None] is returned, although the reply path was received. *)
Theorem handshake_needs_a_session_id
    (url auth : string) (get : http_outcome) (stream : nat -> read_event) :
  (∀ c, Client.returned (Client.connect_to_sse_endpoint url auth get stream) = Some c →
     PyStr.contains "session_id=" (message_endpoint c) = true
     ∧ Spec.session_id_segment (message_endpoint c) = Some (session_id c)
     ∧ (∀ tail, Spec.after "session_id=" (message_endpoint c) = Some tail →
          PyStr.contains "session_id=" tail = false →
          Spec.session_id_between (message_endpoint c) = Some (session_id c)))
  ∧ (∀ vars n data,
       Client.read_endpoint_event 10 stream 0 Spec.handshake_start = (Ret vars, n) →
       Client.hs_message_endpoint vars = Some data →
       PyStr.contains "session_id=" data = false →
       Client.connect_to_sse_endpoint url auth (HttpStatus 200) stream
       = Client.ConnectResult None
           [HttpGet url (Client.sse_headers auth);
            LogError CouldNotExtractMessageEndpoint; ConnClose] n).
Proof.
  split.
  - intros c. unfold Client.connect_to_sse_endpoint.
    destruct get as [e|status]; [done|].
    case_bool_decide; [done|].
    destruct (Client.read_endpoint_event _ _ _ _) as [[vars|e] n] eqn:Hr; [|done].
    apply read_endpoint_event_outcome in Hr as [[Hm Hs]|(data & _ & Hm & Hs)]; [| |done..].
    { by rewrite Hm. }
    rewrite Hm, Hs.
    destruct (Spec.session_id_segment data) as [sid|] eqn:Hsid;
      [|by rewrite orb_true_r].
    destruct (_ || _); [done|]. intros [= <-]. simpl.
    split; [by eapply session_id_segment_contains|]. split; [done|].
    intros tail Htail Hone.
    by rewrite <-(session_id_segment_between _ _ Htail Hone).
  - intros vars n data Hr Hm Hno. unfold Client.connect_to_sse_endpoint.
    rewrite bool_decide_eq_false_2 by (intros Hne; by apply Hne).
    change (Client.HandshakeVars None None None) with Spec.handshake_start.
    rewrite Hr.
    apply read_endpoint_event_outcome in Hr as [[Hm' _]|(data' & _ & Hm' & Hs)];
      [congruence| |done..].
    rewrite Hm' in Hm. simplify_eq. rewrite Hs.
    destruct (Spec.session_id_segment data) as [sid|] eqn:Hsid.
    { apply session_id_segment_contains in Hsid. congruence. }
    by rewrite orb_true_r.
Qed.

(** C10, counterexample: for the endpoint data
    [/m?session_id=asession_id=b] the text between ['session_id='] and the
    next ['&'] (there is none, so the end of the string) is
    [asession_id=b], and the connection that is returned has the session
    identifier [a]. *)
Lemma session_id_stops_at_the_next_session_id :
  Client.returned
    (Client.connect_to_sse_endpoint "http://127.0.0.1:31173/sse" "Bearer t"
       (HttpStatus 200) Sample.handshake_two_session_ids)
  = Some (SseConnection "a" "/m?session_id=asession_id=b"
            "http://127.0.0.1:31173/sse" "Bearer t" Running false [] ∅ ∅)
  ∧ Spec.session_id_between "/m?session_id=asession_id=b" = Some "asession_id=b".
Proof. split; reflexivity. Qed.

End Connecting.

Section GivingUp.

Lemma field_value_event line :
  PyStr.startswith "event:" line = true →
  Client.field_value line = Ret (PyStr.strip (PyStr.drop 6 line)).
Proof.
  intros Hs. apply startswith_drop in Hs. simpl String.length in Hs.
  generalize dependent (PyStr.drop 6 line). intros rest ->.
  unfold Client.field_value, PyStr.split. simpl.
  by destruct (String.length rest).
Qed.

(** As long as no line labelled [data:] is read, the loop goes through
    all its rounds and finds no endpoint. *)
Lemma read_endpoint_event_no_data rounds stream (pos : nat) vars :
  (∀ i, (pos ≤ i < pos + rounds)%nat →
     ∃ raw, stream i = Text raw
            ∧ PyStr.startswith "data:" (PyStr.strip raw) = false) →
  Client.hs_message_endpoint vars = None →
  ∃ vars',
    Client.read_endpoint_event rounds stream pos vars = (Ret vars', (pos + rounds)%nat)
    ∧ Client.hs_message_endpoint vars' = None.
Proof.
  revert pos vars. induction rounds as [|rounds IH]; intros pos vars Hlines Hm.
  { exists vars. simpl. by rewrite Nat.add_0_r. }
  cbn [Client.read_endpoint_event].
  destruct (Hlines pos) as (raw & -> & Hdata); [lia|].
  cbn [Client.readline_strict]. cbv zeta. rewrite Hdata.
  assert (∀ vars0, Client.hs_message_endpoint vars0 = None →
            ∃ vars',
              Client.read_endpoint_event rounds stream (S pos) vars0
              = (Ret vars', (pos + S rounds)%nat)
              ∧ Client.hs_message_endpoint vars' = None) as Hnext.
  { intros vars0 Hm0.
    destruct (IH (S pos) vars0) as (vars' & Hr & Hm'); [|done|].
    - intros i Hi. apply Hlines. lia.
    - exists vars'. rewrite Hr. split; [|done]. f_equal. lia. }
  destruct (PyStr.startswith "event:" (PyStr.strip raw)) eqn:Hevent.
  { rewrite (field_value_event _ Hevent). by apply Hnext. }
  case_bool_decide; [|by apply Hnext].
  rewrite Hm. simpl. by apply Hnext.
Qed.

(** A stream whose first ten lines are read without error and have no
    [data:] label makes the handshake fail after exactly ten lines; the
    connection is closed, nothing is returned and no reader thread is
    started. *)
Lemma connect_gives_up_after_ten_lines url auth stream :
  (∀ i, (i < 10)%nat →
     ∃ raw, stream i = Text raw
            ∧ PyStr.startswith "data:" (PyStr.strip raw) = false) →
  Client.connect_to_sse_endpoint url auth (HttpStatus 200) stream
  = Client.ConnectResult None
      [HttpGet url (Client.sse_headers auth);
       LogError CouldNotExtractMessageEndpoint; ConnClose] 10.
Proof.
  intros Hlines.
  destruct (read_endpoint_event_no_data 10 stream 0 Spec.handshake_start)
    as (vars & Hr & Hm); [|done|].
  - intros i Hi. apply Hlines. lia.
  - by apply (connect_without_endpoint _ _ _ vars).
Qed.

End GivingUp.

(** ** The stream reader *)

Section Reader.
Context `{JsonLib}.

(** C1, as the code has it: for every decoded payload that is a JSON
    object, a payload with a "reverse" member is appended to the
    Reverse-Call Queue, whether or not it has an id; otherwise a payload
    whose "id" member is a string is a reply and goes to the Correlation
    Table, where it is put on the slot registered under that id or dropped
    if there is none; an id that is a number, a boolean or null matches
    no entry and the payload is dropped; an object with neither member is
    dropped. *)
Theorem object_payload_routing (members : list (string * json)) (c : sse_connection) :
  (Spec.classify (JObj members) = Spec.ReverseCallFrame →
     Client.route_json_data (JObj members) c = Ret (Spec.enqueue (JObj members) c))
  ∧ (Spec.classify (JObj members) = Spec.ReplyFrame →
     ∀ id, Py.assoc "id" members = Some (JStr id) →
       Client.route_json_data (JObj members) c
       = Ret (Spec.fulfill id (JObj members) c))
  ∧ (Spec.classify (JObj members) = Spec.ReplyFrame →
     ∀ x, Py.assoc "id" members = Some x →
       x = JNull ∨ (∃ b, x = JBool b) ∨ (∃ n, x = JInt n) ∨ (∃ f, x = JFloat f) →
       Client.route_json_data (JObj members) c = Ret c)
  ∧ (Spec.classify (JObj members) = Spec.Unrecognized →
     Client.route_json_data (JObj members) c = Ret c).
Proof.
  unfold Spec.classify, Client.route_json_data, Py.has_field, Py.contains, Py.getitem.
  destruct (bool_decide (is_Some (Py.assoc "reverse" members))); simpl.
  { split_and!; done. }
  destruct (Py.assoc "id" members) as [x|] eqn:Hid; simpl.
  - split_and!; try done.
    + intros _ id [= ->]. simpl. unfold Spec.fulfill, Client.queue_put.
      by destruct (pending_responses c !! id).
    + intros _ y [= <-] [->|[[b ->]|[[n ->]|[f ->]]]]; done.
  - split_and!; done.
Qed.

(** What can become of a decoded payload: it is dropped, appended to the
    Reverse-Call Queue or put on the slot of a pending request, unless one
    of the tests raises. *)
Lemma route_json_data_outcomes v c :
  Client.route_json_data v c = Ret c
  ∨ Client.route_json_data v c = Ret (Spec.enqueue v c)
  ∨ (∃ id, Client.route_json_data v c = Ret (Spec.fulfill id v c))
  ∨ (∃ e, Client.route_json_data v c = Raise e).
Proof.
  unfold Client.route_json_data.
  destruct (Py.contains "reverse" v) as [[]|e]; simpl; [by eauto| |by eauto 6].
  destruct (Py.contains "id" v) as [[]|e]; simpl; [|by eauto|by eauto 6].
  destruct (Py.getitem "id" v) as [request_id|e]; simpl; [|by eauto 6].
  destruct request_id as [| | | |s| |]; simpl; try by eauto 6.
  right. right. left. exists s. unfold Spec.fulfill, Client.queue_put.
  by destruct (pending_responses c !! s).
Qed.

(** Once the thread has ended, the lines that follow are not read. *)
Lemma sse_reader_thread_ended arrivals c :
  thread c ≠ Running → Client.sse_reader_thread arrivals c = c.
Proof.
  intros Hended. induction arrivals as [|ev arrivals IH]; [done|].
  change (Client.sse_reader_thread (ev :: arrivals) c)
    with (Client.sse_reader_thread arrivals (Client.sse_reader_step ev c)).
  unfold Client.sse_reader_step. by destruct (thread c).
Qed.

(** Keep-alive lines, lines without the [data:] label and values that
    [json.loads] rejects as not being JSON text are skipped: the
    connection and the thread stay as they are. *)
Lemma sse_reader_skips_a_line_without_payload raw c :
  raw ≠ "" → thread c = Running → stop_event c = false →
  Spec.line_payload raw = None → Spec.line_error raw = None →
  Client.sse_reader_step (Text raw) c = c.
Proof.
  intros Hraw Hrun Hstop Hnone Herror.
  unfold Client.sse_reader_step, Client.sse_reader_turn.
  rewrite Hrun, Hstop. destruct raw; [done|].
  by rewrite sse_reader_line_payload, Hnone, Herror.
Qed.

(** C6, at the failing input: a line whose payload is a JSON number ends
    the reader thread with a [TypeError], nothing is delivered, and the
    lines that follow are never read. *)
Theorem number_payload_ends_the_reader
    (raw : string) (n : Z) (later : list read_event) (c : sse_connection) :
  thread c = Running → stop_event c = false →
  Spec.line_payload raw = Some (JInt n) →
  Client.sse_reader_thread (Text raw :: later) c
  = with_thread
      (Failed (Exn TypeError "argument of type 'int' is not iterable")) c.
Proof.
  intros Hrun Hstop Hraw.
  change (Client.sse_reader_thread (Text raw :: later) c)
    with (Client.sse_reader_thread later (Client.sse_reader_step (Text raw) c)).
  unfold Client.sse_reader_step. rewrite Hrun.
  rewrite (sse_reader_turn_payload _ _ (JInt n) Hstop) by done.
  by apply sse_reader_thread_ended.
Qed.

End Reader.

(** C1, counterexample: the JSON string ["reverse"] has no "reverse"
    field and no id, so the classification of the specification drops it;
    the reader appends it to the Reverse-Call Queue, because [in] on a
    string is the substring test. *)
Lemma string_payload_is_enqueued :
  Spec.classify (JStr "reverse") = Spec.Unrecognized
  ∧ Client.route_json_data (JStr "reverse") Sample.fresh_connection
    = Ret (Spec.enqueue (JStr "reverse") Sample.fresh_connection)
  ∧ Client.route_json_data (JStr "reverse") Sample.fresh_connection
    ≠ Ret Sample.fresh_connection
  ∧ reverse_queue
      (Client.sse_reader_thread (H := Sample.lib)
         [Sample.data_line (JStr "reverse")] Sample.fresh_connection)
    = [JStr "reverse"].
Proof. split_and!; try reflexivity. discriminate. Qed.

(** ** The dispatch loops *)

Section Dispatch.
Context `{JsonLib}.

(** The table of the bridge has the four registered tools and no other. *)
Lemma tool_mapping_domain b input_data m s v :
  Bridge.tool_mapping b input_data = Ret m →
  Bridge.mapping_assoc s m = Some v →
  s ∈ Spec.bridge_tools.
Proof.
  unfold Bridge.tool_mapping. intros Hm.
  destruct (Bridge.tool_argument input_data "object_name" JNull); [|done].
  destruct (Bridge.tool_argument input_data "max_size" (JInt 800)); [|done].
  destruct (Bridge.tool_argument input_data "code" JNull); [|done].
  simpl in Hm. injection Hm as <-. unfold Spec.bridge_tools. simpl.
  repeat (case_decide; [subst; set_solver|]). done.
Qed.

(** A tool name outside the table gets an error result; Blender is not
    contacted and nothing is posted by the handler. *)
Lemma handle_unregistered_tool b tool_name input_data w :
  (∀ s, tool_name = JStr s → s ∉ Spec.bridge_tools) →
  ∃ text log,
    Bridge._handle_tool_call b tool_name input_data w
      = (text_result text true, b, log)
    ∧ Forall (λ e, Spec.is_post e = false) log.
Proof.
  intros Hunknown. unfold Bridge._handle_tool_call, Bridge.handle_tool_call_body.
  destruct (Bridge.tool_mapping b input_data) as [m|e] eqn:Hm.
  2: { eexists _, _. split; [reflexivity|]. by repeat constructor. }
  destruct (Bridge.mapping_lookup tool_name m) as [[[command_type params]|]|e] eqn:Hl.
  - exfalso. destruct tool_name as [| | | |s| |]; simpl in Hl; simplify_eq.
    by eapply Hunknown, tool_mapping_domain.
  - eexists _, _. split; [reflexivity|]. constructor.
  - eexists _, _. split; [reflexivity|]. by repeat constructor.
Qed.

(** C5, as the code has it. The dispatch loop of the bridge
    ([_listen_for_reverse_calls]) answers every reverse-call envelope
    whose tool name is not one of its registered tools: it takes the
    envelope from the queue and posts one [tools/reply] that carries the
    call id of the envelope and a synthesized tool result with [isError]
    true. The worker of the demo script ([main_worker]) takes such an
    envelope from the queue, prints a warning and posts nothing. *)
Theorem unknown_tool_is_answered_by_the_bridge_only
    (msg : json) (fields : list (string * json)) :
  Py.getitem "reverse" msg = Ret (JObj fields) →
  let tool_name := default JNull (Py.assoc "tool" fields) in
  let call_id := default JNull (Py.assoc "call_id" fields) in
  (∀ b w rest,
     (∀ s, tool_name = JStr s → s ∉ Spec.bridge_tools) →
     Bridge.stop_event b = false →
     reverse_queue (Bridge.sse_connection_of b) = msg :: rest →
     ∃ result log tail,
       let c := Bridge.sse_connection_of b in
       let body := json_dumps (Client.reply_request call_id result) in
       Spec.is_error_result result = true
       ∧ Forall (λ e, Spec.is_post e = false) log
       ∧ Forall (λ e, Spec.is_post e = false ∧ Spec.is_wait e = false) tail
       ∧ Bridge.listen_turn b w
         = Bridge.Turn (Bridge.with_sse (with_reverse_queue rest c) b) (Some msg)
             (log ++ HttpPost (server_url c) (message_endpoint c) body
                       (Client.post_headers (auth_header c) body) :: tail)
             true)
  ∧ (∀ c reply_post rest,
       tool_name ≠ JStr "demo_tool_python" →
       reverse_queue c = msg :: rest →
       Demo.main_worker_turn c reply_post
       = Demo.Turn (with_reverse_queue rest c) (Some msg)
           [LogError (UnknownToolWarning tool_name)] true).
Proof.
  intros Hrev tool_name call_id.
  assert (Py.has_field "reverse" msg = true) as Hfield.
  { destruct msg as [| | | | | |members]; simpl in Hrev; try done.
    simpl. destruct (Py.assoc "reverse" members); [|done].
    apply bool_decide_eq_true. eauto. }
  split.
  - intros b w rest Hunknown Hstop Hqueue.
    unfold Bridge.listen_turn. rewrite Hstop, Hqueue, Hfield, Hrev. simpl.
    fold tool_name call_id.
    set (b1 := Bridge.with_sse _ b).
    destruct (handle_unregistered_tool b1 tool_name
                (default JNull (Py.assoc "input" fields)) w Hunknown)
      as (text & log & -> & Hlog).
    destruct (send_tool_reply_shape
                (Bridge.sse_connection_of b1) call_id (text_result text true)
                (Bridge.reply_post w)) as (ok & tail & Hreply & Htail & Hok).
    rewrite Hreply. exists (text_result text true), log, tail.
    split; [done|]. split; [done|]. split; [done|]. subst b1. by destruct b.
  - intros c reply_post rest Hdemo Hqueue.
    unfold Demo.main_worker_turn. rewrite Hqueue, Hfield, Hrev. simpl.
    fold tool_name call_id.
    destruct tool_name as [| | | |s| |] eqn:Htool; simpl; try done.
    case_bool_decide; [|done]. by subst.
Qed.

End Dispatch.

(** C5, counterexample: the demo worker takes the reverse call for the
    tool [no_such_tool] from the queue and sends no reply; the only thing
    it does is print the warning. *)
Lemma demo_worker_leaves_unknown_tool_unanswered :
  Demo.main_worker_turn (H := Sample.lib)
    (with_reverse_queue [Sample.unknown_call] Sample.fresh_connection)
    (HttpStatus 202)
  = Demo.Turn Sample.fresh_connection (Some Sample.unknown_call)
      [LogError (UnknownToolWarning (JStr "no_such_tool"))] true
  ∧ filter (λ e, Spec.is_post e = true)
      (Demo.turn_effects
         (Demo.main_worker_turn (H := Sample.lib)
            (with_reverse_queue [Sample.unknown_call] Sample.fresh_connection)
            (HttpStatus 202))) = [].
Proof. split; reflexivity. Qed.

(** ** The Reverse-Call Queue *)

Section Fifo.
Context `{JsonLib}.

(** The reader adds the envelope of the line it reads at the back of the
    queue and touches nothing else of it. *)
Lemma sse_reader_step_queue ev c :
  reverse_queue (Client.sse_reader_step ev c)
  = reverse_queue c
    ++ (if System.reader_reads c then option_list (Spec.reverse_call_frame ev) else []).
Proof.
  unfold Client.sse_reader_step, System.reader_reads.
  destruct (thread c); [|by rewrite app_nil_r..].
  destruct (stop_event c) eqn:Hstop; simpl.
  { unfold Client.sse_reader_turn. rewrite Hstop. simpl. by rewrite app_nil_r. }
  unfold Spec.reverse_call_frame.
  destruct (Spec.frame_payload ev) as [v|] eqn:Hv.
  - rewrite (sse_reader_turn_payload _ _ _ Hstop Hv).
    unfold Client.route_json_data.
    destruct (Py.contains "reverse" v) as [[]|]; simpl;
      [done| |by rewrite app_nil_r].
    rewrite app_nil_r.
    destruct (Py.contains "id" v) as [[]|]; simpl; [|done..].
    destruct (Py.getitem "id" v) as [request_id|]; simpl; [|done].
    by destruct (Client.pending_lookup request_id (pending_responses c)) as [[l|]|].
  - rewrite app_nil_r.
    by destruct (sse_reader_turn_no_payload _ c Hv) as [->|[t ->]].
Qed.

(** Handling a tool call leaves the connection to the server alone. *)
Lemma handle_tool_call_sse b tool_name input_data w :
  Bridge.sse_connection_of (Bridge._handle_tool_call b tool_name input_data w).1.2
  = Bridge.sse_connection_of b.
Proof.
  unfold Bridge._handle_tool_call, Bridge.handle_tool_call_body.
  destruct (Bridge.tool_mapping b input_data) as [m|e]; [|done].
  destruct (Bridge.mapping_lookup tool_name m) as [[[command_type params]|]|e];
    [|done..].
  assert (Bridge.sse_connection_of
            (Bridge.send_command b command_type params (Bridge.blender w)).1.2
          = Bridge.sse_connection_of b) as Hsend.
  { unfold Bridge.send_command. destruct (negb (Bridge.blender_sock b)); [done|].
    destruct (Bridge.blender w) as [response| |e]; [|done..].
    by destruct (_ ≫= _). }
  destruct (Bridge.send_command b command_type params (Bridge.blender w))
    as [[[blender_result|e] b'] eff]; simpl in *; [|done].
  destruct (Py.is_str _ tool_name); [|done].
  by destruct (Bridge.screenshot w).
Qed.

(** The dispatch loop takes the message at the front of the queue and
    touches nothing else of it. *)
Lemma listen_turn_queue b w :
  option_list (Bridge.dequeued (Bridge.listen_turn b w))
    ++ reverse_queue (Bridge.sse_connection_of (Bridge.after (Bridge.listen_turn b w)))
  = reverse_queue (Bridge.sse_connection_of b).
Proof.
  unfold Bridge.listen_turn.
  destruct (Bridge.stop_event b); [done|].
  destruct (reverse_queue (Bridge.sse_connection_of b)) as [|msg rest] eqn:Hq;
    [simpl; by rewrite Hq|].
  destruct (Py.has_field "reverse" msg); [|done].
  destruct (_ ≫= _) as [[[tool_name call_id] input_data]|e]; [|done].
  pose proof (handle_tool_call_sse
    (Bridge.with_sse (with_reverse_queue rest (Bridge.sse_connection_of b)) b)
    tool_name input_data w) as Hsse.
  destruct (Bridge._handle_tool_call _ tool_name input_data w) as [[result b2] eff].
  simpl in Hsse.
  destruct (send_tool_reply_shape (Bridge.sse_connection_of b2)
              call_id result (Bridge.reply_post w)) as (ok & tail & -> & _).
  simpl. by rewrite Hsse.
Qed.

(** Handling a tool call leaves the stop flag of the bridge alone. *)
Lemma handle_tool_call_stop b tool_name input_data w :
  Bridge.stop_event (Bridge._handle_tool_call b tool_name input_data w).1.2
  = Bridge.stop_event b.
Proof.
  unfold Bridge._handle_tool_call, Bridge.handle_tool_call_body.
  destruct (Bridge.tool_mapping b input_data) as [m|e]; [|done].
  destruct (Bridge.mapping_lookup tool_name m) as [[[command_type params]|]|e];
    [|done..].
  assert (Bridge.stop_event
            (Bridge.send_command b command_type params (Bridge.blender w)).1.2
          = Bridge.stop_event b) as Hsend.
  { unfold Bridge.send_command. destruct (negb (Bridge.blender_sock b)); [done|].
    destruct (Bridge.blender w) as [response| |e]; [|done..].
    by destruct (_ ≫= _). }
  destruct (Bridge.send_command b command_type params (Bridge.blender w))
    as [[[blender_result|e] b'] eff]; simpl in *; [|done].
  destruct (Py.is_str _ tool_name); [|done].
  by destruct (Bridge.screenshot w).
Qed.

(** While the stop flag is clear, a turn of the dispatch loop on a queue
    that is not empty takes the message at its front, whatever the
    message is and whatever becomes of the call, and the loop goes on;
    on an empty queue the turn changes nothing. *)
Lemma listen_turn_head b w :
  Bridge.stop_event b = false →
  let t := Bridge.listen_turn b w in
  Bridge.dequeued t = head (reverse_queue (Bridge.sse_connection_of b))
  ∧ reverse_queue (Bridge.sse_connection_of (Bridge.after t))
    = tail (reverse_queue (Bridge.sse_connection_of b))
  ∧ Bridge.looping t = true
  ∧ Bridge.stop_event (Bridge.after t) = false.
Proof.
  intros Hstop. unfold Bridge.listen_turn. rewrite Hstop.
  destruct (reverse_queue (Bridge.sse_connection_of b)) as [|msg rest] eqn:Hq;
    [simpl; by rewrite Hq|].
  destruct (Py.has_field "reverse" msg); [|done].
  destruct (_ ≫= _) as [[[tool_name call_id] input_data]|e]; [|done].
  pose proof (handle_tool_call_sse
    (Bridge.with_sse (with_reverse_queue rest (Bridge.sse_connection_of b)) b)
    tool_name input_data w) as Hsse.
  pose proof (handle_tool_call_stop
    (Bridge.with_sse (with_reverse_queue rest (Bridge.sse_connection_of b)) b)
    tool_name input_data w) as Hflag.
  destruct (Bridge._handle_tool_call _ tool_name input_data w) as [[result b2] eff].
  simpl in Hsse, Hflag.
  destruct (send_tool_reply_shape (Bridge.sse_connection_of b2)
              call_id result (Bridge.reply_post w)) as (ok & tail & -> & _).
  simpl. by rewrite Hsse, Hflag.
Qed.

(** The lines the reader handles before the dispatch loop takes a turn:
    the envelopes decoded are what the reader has added to the queue. *)
Lemma run_reader_first arrivals rest b :
  let c := Bridge.sse_connection_of b in
  let c1 := Client.sse_reader_thread arrivals c in
  ∃ decoded,
    reverse_queue c1 = reverse_queue c ++ decoded
    ∧ System.run ((System.ReaderReads <$> arrivals) ++ rest) b
      = let '(b', later, dequeued) := System.run rest (Bridge.with_sse c1 b) in
        (b', decoded ++ later, dequeued).
Proof.
  revert b. induction arrivals as [|ev arrivals IH]; intros b.
  - exists []. simpl. rewrite app_nil_r. split; [done|].
    replace (Bridge.with_sse (Bridge.sse_connection_of b) b) with b by by destruct b.
    by destruct (System.run rest b) as [[b' later] dequeued].
  - cbn [fmap list_fmap app System.run].
    change (list_fmap _ _ System.ReaderReads arrivals)
      with (System.ReaderReads <$> arrivals).
    destruct (IH (Bridge.with_sse
                    (Client.sse_reader_step ev (Bridge.sse_connection_of b)) b))
      as (decoded & Hq & ->).
    cbn [Bridge.sse_connection_of Bridge.with_sse] in *.
    change (Client.sse_reader_thread (ev :: arrivals) (Bridge.sse_connection_of b))
      with (Client.sse_reader_thread arrivals
              (Client.sse_reader_step ev (Bridge.sse_connection_of b))).
    eexists. split.
    { rewrite Hq, sse_reader_step_queue, <-app_assoc. reflexivity. }
    destruct (System.run rest _) as [[b' later] dequeued].
    by rewrite app_assoc.
Qed.

(** The dispatch loop on its own, while the stop flag is clear: one
    message leaves the queue at every turn, from the front. *)
Lemma run_listener_only worlds b :
  Bridge.stop_event b = false →
  let q := reverse_queue (Bridge.sse_connection_of b) in
  let b' := (Bridge._listen_for_reverse_calls worlds b).1 in
  System.run (System.ListenerTurns <$> worlds) b
    = (b', [], take (length worlds) q)
  ∧ reverse_queue (Bridge.sse_connection_of b') = drop (length worlds) q
  ∧ Bridge.stop_event b' = false.
Proof.
  revert b. induction worlds as [|w worlds IH]; intros b Hstop.
  { simpl. by rewrite drop_0. }
  cbn [fmap list_fmap System.run Bridge._listen_for_reverse_calls length].
  change (list_fmap _ _ System.ListenerTurns worlds)
    with (System.ListenerTurns <$> worlds).
  destruct (listen_turn_head b w Hstop) as (Hd & Hq & Hloop & Hstop').
  rewrite Hloop.
  destruct (IH (Bridge.after (Bridge.listen_turn b w)) Hstop') as (Hrun & Hq' & Hs').
  rewrite Hrun, Hd, Hq.
  destruct (Bridge._listen_for_reverse_calls worlds _) as [b'' eff] eqn:Hl.
  cbn [fst] in *. rewrite Hq in Hq'.
  rewrite Hq'.
  destruct (reverse_queue (Bridge.sse_connection_of b)) as [|msg rest]; simpl.
  - by rewrite take_nil, drop_nil.
  - done.
Qed.

(** C7: the dispatch loop dequeues the reverse calls in the order in
    which the reader decoded them. However the turns of the reader
    thread and of the dispatch loop follow each other, the messages
    dequeued, followed by those still in the Reverse-Call Queue, are the
    messages that were in the queue at the start followed by the
    envelopes the reader decoded, in the order of their lines. And the
    loop does take them: when the reader has handled any number of lines
    before the loop ([_listen_for_reverse_calls], with its stop flag
    clear) takes [n] turns, the loop dequeues the first [n] messages of
    the queue the reader has built, front first, one at each turn and
    whatever becomes of the calls, and leaves the others in the queue. *)
Theorem reverse_calls_are_dequeued_in_decoding_order :
  (∀ (schedule : list System.action) (b : Bridge.ReverseBlenderConnection),
     ∃ b' decoded dequeued,
       System.run schedule b = (b', decoded, dequeued)
       ∧ dequeued ++ reverse_queue (Bridge.sse_connection_of b')
         = reverse_queue (Bridge.sse_connection_of b) ++ decoded)
  ∧ (∀ (arrivals : list read_event) (worlds : list Bridge.turn_world)
       (b : Bridge.ReverseBlenderConnection),
       Bridge.stop_event b = false →
       let c := Bridge.sse_connection_of b in
       let c1 := Client.sse_reader_thread arrivals c in
       let b' := (Bridge._listen_for_reverse_calls worlds (Bridge.with_sse c1 b)).1 in
       ∃ decoded,
         reverse_queue c1 = reverse_queue c ++ decoded
         ∧ System.run
             ((System.ReaderReads <$> arrivals) ++ (System.ListenerTurns <$> worlds))
             b
           = (b', decoded, take (length worlds) (reverse_queue c ++ decoded))
         ∧ reverse_queue (Bridge.sse_connection_of b')
           = drop (length worlds) (reverse_queue c ++ decoded)).
Proof.
  split.
  - intros schedule. induction schedule as [|[ev|w] schedule IH]; intros b.
    + eexists _, _, _. split; [reflexivity|]. simpl. by rewrite app_nil_r.
    + cbn [System.run].
      destruct (IH (Bridge.with_sse
                      (Client.sse_reader_step ev (Bridge.sse_connection_of b)) b))
        as (b' & decoded & dequeued & -> & Hq).
      eexists _, _, _. split; [reflexivity|].
      rewrite Hq. simpl. by rewrite sse_reader_step_queue, <-app_assoc.
    + cbn [System.run].
      destruct (IH (Bridge.after (Bridge.listen_turn b w)))
        as (b' & decoded & dequeued & -> & Hq).
      eexists _, _, _. split; [reflexivity|].
      rewrite <-app_assoc, Hq, app_assoc. by rewrite listen_turn_queue.
  - intros arrivals worlds b Hstop c c1 b'.
    destruct (run_reader_first arrivals (System.ListenerTurns <$> worlds) b)
      as (decoded & Hq & Hrun).
    fold c c1 in Hq, Hrun. exists decoded. split; [done|].
    destruct (run_listener_only worlds (Bridge.with_sse c1 b) Hstop)
      as (Hturns & Hrest & _).
    cbn [Bridge.sse_connection_of Bridge.with_sse] in Hturns, Hrest.
    fold b' in Hturns, Hrest. rewrite Hq in Hturns, Hrest.
    rewrite Hrun, Hturns. by rewrite app_nil_r.
Qed.

End Fifo.

(** ** The theorems at concrete inputs *)

Section Instances.
Import Sample.


(** Scenario A: the reply for the pending request is returned and the
    entry is removed. *)
Example scenario_A :
  Client.send_jsonrpc_request fresh_connection "tools/list" (JObj []) 10 "r1"
    (HttpStatus 202) [] [data_line reply_r1]
  = (Some reply_r1, with_queues {[0%nat := []]} fresh_connection,
     [HttpPost (server_url fresh_connection) (message_endpoint fresh_connection)
        (dumps (Client.jsonrpc_request "r1" "tools/list" (JObj [])))
        (Client.post_headers "Bearer t"
           (dumps (Client.jsonrpc_request "r1" "tools/list" (JObj []))));
      PostConnClose; QueueWait 10]).
Proof. vm_compute. reflexivity. Qed.

(** Two reverse calls arrive before the dispatch loop takes its first
    turn; they are dequeued in the order of their lines. *)
Example two_calls_before_the_first_turn :
  System.run
    [System.ReaderReads (data_line unknown_call);
     System.ReaderReads (data_line both_fields);
     System.ListenerTurns quiet_world; System.ListenerTurns quiet_world]
    (bridge fresh_connection)
  = (bridge fresh_connection, [unknown_call; both_fields],
     [unknown_call; both_fields]).
Proof. vm_compute. reflexivity. Qed.



Lemma transport_error_returns_without_waiting_witness :
  HttpStatus 500 ≠ HttpStatus 202
  ∧ ∃ c' effects m,
      Client.send_jsonrpc_request fresh_connection "tools/list" (JObj []) 10 "r1"
        (HttpStatus 500) [] [data_line reply_r1] = (None, c', effects)
      ∧ LogError m ∈ effects
      ∧ Spec.is_transport_error m = true
      ∧ Forall (λ e, Spec.is_wait e = false) effects
      ∧ (∀ later,
           Client.send_jsonrpc_request fresh_connection "tools/list" (JObj []) 10
             "r1" (HttpStatus 500) [] later = (None, c', effects))
      ∧ pending_responses c' !! "r1" = None
      ∧ pending_responses c' = delete "r1" (pending_responses fresh_connection).
Proof.
  assert (HttpStatus 500 ≠ HttpStatus 202) as Hne by discriminate.
  split; [exact Hne|].
  exact (transport_error_returns_without_waiting fresh_connection "tools/list"
           (JObj []) 10 "r1" (HttpStatus 500) [] [data_line reply_r1] Hne).
Defined.

Lemma object_payload_routing_witness :
  Client.route_json_data both_fields busy_connection
    = Ret (Spec.enqueue both_fields busy_connection)
  ∧ Client.route_json_data reply_r1 busy_connection
    = Ret (Spec.fulfill "r1" reply_r1 busy_connection)
  ∧ Client.route_json_data notification busy_connection = Ret busy_connection.
Proof.
  split; [|split].
  - exact (proj1 (object_payload_routing
             [("id", JStr "r1"); ("reverse", JObj [("tool", JStr "demo_tool")])]
             busy_connection) eq_refl).
  - exact (proj1 (proj2 (object_payload_routing
             [("jsonrpc", JStr "2.0"); ("id", JStr "r1"); ("result", JObj [])]
             busy_connection)) eq_refl "r1" eq_refl).
  - exact (proj2 (proj2 (proj2 (object_payload_routing
             [("jsonrpc", JStr "2.0"); ("method", JStr "ping")]
             busy_connection))) eq_refl).
Defined.

Lemma number_payload_ends_the_reader_witness :
  thread fresh_connection = Running
  ∧ stop_event fresh_connection = false
  ∧ Spec.line_payload ("data: 5" +:+ nl) = Some (JInt 5)
  ∧ Client.sse_reader_thread
      [Text ("data: 5" +:+ nl); data_line unknown_call] fresh_connection
    = with_thread
        (Failed (Exn TypeError "argument of type 'int' is not iterable"))
        fresh_connection.
Proof.
  split; [reflexivity|]. split; [reflexivity|]. split; [reflexivity|].
  exact (number_payload_ends_the_reader ("data: 5" +:+ nl) 5
           [data_line unknown_call] fresh_connection eq_refl eq_refl eq_refl).
Defined.

Lemma register_always_stores_a_new_empty_slot_witness :
  ∃ l c',
    Client.register_response_queue "r1" busy_connection = (l, c')
    ∧ queues busy_connection !! l = None
    ∧ pending_responses c' !! "r1" = Some l
    ∧ queues c' !! l = Some []
    ∧ (∀ id', id' ≠ "r1" →
         pending_responses c' !! id' = pending_responses busy_connection !! id')
    ∧ (∀ l', l' ≠ l → queues c' !! l' = queues busy_connection !! l').
Proof. exact (register_always_stores_a_new_empty_slot "r1" busy_connection). Defined.

Lemma handshake_read_error_skips_close_witness :
  Client.read_endpoint_event 10 handshake_garbled 0 Spec.handshake_start
    = (Raise (Exn UnicodeDecodeError "'utf-8' codec can't decode byte"), 1%nat)
  ∧ Client.connect_to_sse_endpoint "http://127.0.0.1:31173/sse" "Bearer t"
      (HttpStatus 200) handshake_garbled
    = Client.ConnectResult None
        [HttpGet "http://127.0.0.1:31173/sse" (Client.sse_headers "Bearer t");
         LogError (FailedToConnectToSse
                     (Exn UnicodeDecodeError "'utf-8' codec can't decode byte"))]
        1
  ∧ ConnClose ∉ Client.connect_effects
                  (Client.connect_to_sse_endpoint "http://127.0.0.1:31173/sse"
                     "Bearer t" (HttpStatus 200) handshake_garbled).
Proof.
  split; [reflexivity|].
  exact (handshake_read_error_skips_close "http://127.0.0.1:31173/sse" "Bearer t"
           handshake_garbled _ 1 eq_refl).
Defined.

Lemma handshake_needs_a_session_id_witness :
  (PyStr.contains "session_id=" "/messages/?session_id=abc123" = true
   ∧ Spec.session_id_segment "/messages/?session_id=abc123" = Some "abc123"
   ∧ Spec.session_id_between "/messages/?session_id=abc123" = Some "abc123")
  ∧ Client.connect_to_sse_endpoint "http://127.0.0.1:31173/sse" "Bearer t"
      (HttpStatus 200) handshake_without_session
    = Client.ConnectResult None
        [HttpGet "http://127.0.0.1:31173/sse" (Client.sse_headers "Bearer t");
         LogError CouldNotExtractMessageEndpoint; ConnClose] 2.
Proof.
  split.
  - destruct (proj1 (handshake_needs_a_session_id "http://127.0.0.1:31173/sse"
                       "Bearer t" (HttpStatus 200) handshake_ok)
                (SseConnection "abc123" "/messages/?session_id=abc123"
                   "http://127.0.0.1:31173/sse" "Bearer t" Running false [] ∅ ∅)
                eq_refl) as (Hc & Hs & Hb).
    split; [exact Hc|]. split; [exact Hs|].
    exact (Hb "abc123" eq_refl eq_refl).
  - exact (proj2 (handshake_needs_a_session_id "http://127.0.0.1:31173/sse"
                    "Bearer t" (HttpStatus 200) handshake_without_session)
             (Client.HandshakeVars (Some "endpoint") (Some "/messages/") None)
             2%nat "/messages/" eq_refl eq_refl eq_refl).
Defined.

Lemma unknown_tool_is_answered_by_the_bridge_only_witness :
  Py.getitem "reverse" unknown_call
    = Ret (JObj [("tool", JStr "no_such_tool"); ("call_id", JStr "abc123");
                 ("input", JObj [("message", JStr "hi")])])
  ∧ (∃ result log tail,
       Spec.is_error_result result = true
       ∧ Forall (λ e, Spec.is_post e = false) log
       ∧ Forall (λ e, Spec.is_post e = false ∧ Spec.is_wait e = false) tail
       ∧ Bridge.listen_turn
           (bridge (with_reverse_queue [unknown_call] fresh_connection)) quiet_world
         = Bridge.Turn (bridge fresh_connection) (Some unknown_call)
             (log ++ HttpPost (server_url fresh_connection)
                       (message_endpoint fresh_connection)
                       (dumps (Client.reply_request (JStr "abc123") result))
                       (Client.post_headers "Bearer t"
                          (dumps (Client.reply_request (JStr "abc123") result)))
                     :: tail)
             true)
  ∧ Demo.main_worker_turn (with_reverse_queue [unknown_call] fresh_connection)
      (HttpStatus 202)
    = Demo.Turn fresh_connection (Some unknown_call)
        [LogError (UnknownToolWarning (JStr "no_such_tool"))] true.
Proof.
  pose proof (unknown_tool_is_answered_by_the_bridge_only unknown_call
                [("tool", JStr "no_such_tool"); ("call_id", JStr "abc123");
                 ("input", JObj [("message", JStr "hi")])] eq_refl) as [Hbridge Hdemo].
  split; [reflexivity|]. split.
  - assert (∀ s, JStr "no_such_tool" = JStr s → s ∉ Spec.bridge_tools) as Hunknown.
    { intros s [= <-] Hin. apply list_elem_of_In in Hin. simpl in Hin.
      repeat destruct Hin as [Hin|Hin]; try discriminate Hin. exact Hin. }
    exact (Hbridge (bridge (with_reverse_queue [unknown_call] fresh_connection))
             quiet_world [] Hunknown eq_refl eq_refl).
  - assert (JStr "no_such_tool" ≠ JStr "demo_tool_python") as Hne by discriminate.
    exact (Hdemo (with_reverse_queue [unknown_call] fresh_connection)
             (HttpStatus 202) [] Hne eq_refl).
Defined.

End Instances.

(** * Further properties of the engine *)

(** ** What the reader thread never does *)

Section ReaderInvariants.
Context `{JsonLib}.

(** The routing raises exactly on the payloads that are not survivable. *)
Lemma route_json_data_survivable v c :
  Stream.survivable v = true ↔ ∃ c', Client.route_json_data v c = Ret c'.
Proof.
  assert (∀ e, (false = true ↔ ∃ c', @Raise sse_connection e = Ret c')) as Hno.
  { intros e. split; [done|]. by intros [c' ?]. }
  assert (∀ c0 : sse_connection, (true = true ↔ ∃ c', Ret c0 = Ret c')) as Hyes.
  { intros c0. split; [eauto|done]. }
  unfold Stream.survivable, Client.route_json_data.
  destruct (Py.contains "reverse" v) as [[]|e]; simpl; [by apply Hyes| |by apply Hno].
  destruct (Py.contains "id" v) as [[]|e]; simpl; [|by apply Hyes|by apply Hno].
  destruct (Py.getitem "id" v) as [request_id|e]; simpl; [|by apply Hno].
  destruct request_id as [| | | |s| |]; simpl;
    try (by apply Hno); try (by apply Hyes).
  destruct (pending_responses c !! s); by apply Hyes.
Qed.

(** A routed payload lands at the back of one queue; nothing is taken
    from any queue. *)
Lemma route_json_data_appends v c c' l q :
  Client.route_json_data v c = Ret c' →
  queues c !! l = Some q →
  ∃ q', queues c' !! l = Some (q ++ q').
Proof.
  unfold Client.route_json_data, Client.queue_put. intros Hr Hq.
  destruct (Py.contains "reverse" v) as [[]|]; simpl in Hr; simplify_eq.
  { exists []. by rewrite app_nil_r. }
  destruct (Py.contains "id" v) as [[]|]; simpl in Hr; simplify_eq.
  2: { exists []. by rewrite app_nil_r. }
  destruct (Py.getitem "id" v) as [request_id|]; simpl in Hr; simplify_eq.
  destruct (Client.pending_lookup request_id (pending_responses c)) as [[l'|]|];
    simpl in Hr; simplify_eq.
  2: { exists []. by rewrite app_nil_r. }
  simpl. destruct (decide (l' = l)) as [->|Hne].
  - exists [v]. by rewrite lookup_alter_eq, Hq.
  - exists []. by rewrite lookup_alter_ne, app_nil_r.
Qed.

Lemma sse_reader_step_appends ev c l q :
  queues c !! l = Some q →
  ∃ q', queues (Client.sse_reader_step ev c) !! l = Some (q ++ q').
Proof.
  intros Hq. unfold Client.sse_reader_step.
  assert (∃ q', queues c !! l = Some (q ++ q')) as Hsame.
  { exists []. by rewrite app_nil_r. }
  destruct (thread c); [|done..].
  destruct (Spec.frame_payload ev) as [v|] eqn:Hv.
  - destruct (stop_event c) eqn:Hstop.
    { unfold Client.sse_reader_turn. by rewrite Hstop. }
    rewrite (sse_reader_turn_payload _ _ _ Hstop Hv).
    destruct (Client.route_json_data v c) as [c'|e] eqn:Hr; [|done].
    by eapply route_json_data_appends.
  - by destruct (sse_reader_turn_no_payload _ c Hv) as [->|[t ->]].
Qed.

Lemma sse_reader_step_addresses ev c :
  session_id (Client.sse_reader_step ev c) = session_id c
  ∧ message_endpoint (Client.sse_reader_step ev c) = message_endpoint c
  ∧ server_url (Client.sse_reader_step ev c) = server_url c
  ∧ auth_header (Client.sse_reader_step ev c) = auth_header c.
Proof.
  unfold Client.sse_reader_step. destruct (thread c); [|done..].
  destruct (Spec.frame_payload ev) as [v|] eqn:Hv.
  - destruct (stop_event c) eqn:Hstop.
    { unfold Client.sse_reader_turn. by rewrite Hstop. }
    rewrite (sse_reader_turn_payload _ _ _ Hstop Hv).
    unfold Client.route_json_data, Client.queue_put.
    destruct (Py.contains "reverse" v) as [[]|]; simpl; [done| |done].
    destruct (Py.contains "id" v) as [[]|]; simpl; [|done..].
    destruct (Py.getitem "id" v) as [request_id|]; simpl; [|done].
    by destruct (Client.pending_lookup request_id (pending_responses c)) as [[?|]|].
  - by destruct (sse_reader_turn_no_payload _ c Hv) as [->|[t ->]].
Qed.

(** The reader thread does not change where the connection posts to. *)
Lemma sse_reader_thread_addresses arrivals c :
  session_id (Client.sse_reader_thread arrivals c) = session_id c
  ∧ message_endpoint (Client.sse_reader_thread arrivals c) = message_endpoint c
  ∧ server_url (Client.sse_reader_thread arrivals c) = server_url c
  ∧ auth_header (Client.sse_reader_thread arrivals c) = auth_header c.
Proof.
  revert c. induction arrivals as [|ev arrivals IH]; intros c; [done|].
  change (Client.sse_reader_thread (ev :: arrivals) c)
    with (Client.sse_reader_thread arrivals (Client.sse_reader_step ev c)).
  destruct (IH (Client.sse_reader_step ev c)) as (-> & -> & -> & ->).
  apply sse_reader_step_addresses.
Qed.

(** Nothing is taken from the Reverse-Call Queue by the reader. *)
Lemma sse_reader_thread_reverse_queue arrivals c :
  reverse_queue c `prefix_of` reverse_queue (Client.sse_reader_thread arrivals c).
Proof.
  revert c. induction arrivals as [|ev arrivals IH]; intros c; [done|].
  change (Client.sse_reader_thread (ev :: arrivals) c)
    with (Client.sse_reader_thread arrivals (Client.sse_reader_step ev c)).
  etrans; [|apply IH]. rewrite sse_reader_step_queue. by apply prefix_app_r.
Qed.

(** Nothing is taken from a queue object by the reader. *)
Lemma sse_reader_thread_slots arrivals c l q :
  queues c !! l = Some q →
  ∃ q', queues (Client.sse_reader_thread arrivals c) !! l = Some (q ++ q').
Proof.
  revert c q. induction arrivals as [|ev arrivals IH]; intros c q Hq.
  { exists []. by rewrite app_nil_r. }
  change (Client.sse_reader_thread (ev :: arrivals) c)
    with (Client.sse_reader_thread arrivals (Client.sse_reader_step ev c)).
  destruct (sse_reader_step_appends ev c l q Hq) as [q1 Hq1].
  destruct (IH _ _ Hq1) as [q2 Hq2]. exists (q1 ++ q2).
  by rewrite Hq2, app_assoc.
Qed.

(** X1. Whatever lines arrive, including lines that end it, the reader
    thread leaves the table of pending requests, the stop flag and the
    addresses of the connection as they are, creates and deletes no queue
    object, and only ever adds at the back of a queue: what was in the
    Reverse-Call Queue or in a result slot stays there, in the same
    order. *)
Theorem reader_only_appends (arrivals : list read_event) (c : sse_connection) :
  let c' := Client.sse_reader_thread arrivals c in
  pending_responses c' = pending_responses c
  ∧ stop_event c' = stop_event c
  ∧ (session_id c', message_endpoint c', server_url c', auth_header c')
    = (session_id c, message_endpoint c, server_url c, auth_header c)
  ∧ dom (queues c') = dom (queues c)
  ∧ reverse_queue c `prefix_of` reverse_queue c'
  ∧ ∀ l q, queues c !! l = Some q → ∃ q', queues c' !! l = Some (q ++ q').
Proof.
  intros c'. subst c'.
  destruct (sse_reader_thread_frame arrivals c) as (Hp & Hs & Hd).
  destruct (sse_reader_thread_addresses arrivals c) as (-> & -> & -> & ->).
  split_and!; try done.
  - apply sse_reader_thread_reverse_queue.
  - apply sse_reader_thread_slots.
Qed.

(** A line that was read ends the thread exactly when its payload is
    not survivable. *)
Lemma sse_reader_line_running raw c :
  thread c = Running →
  thread (Client.sse_reader_line raw c) = Running
  ↔ Stream.harmless_line raw = true.
Proof.
  intros Hrun. rewrite sse_reader_line_payload. unfold Stream.harmless_line.
  destruct (Spec.line_payload raw) as [v|]; [|by destruct (Spec.line_error raw)].
  rewrite (route_json_data_survivable v c).
  destruct (Client.route_json_data v c) as [c'|e] eqn:Hr.
  - apply route_json_data_frame in Hr as (_ & -> & _). split; [eauto|done].
  - simpl. split; [done|]. by intros [c' ?].
Qed.


(** X2. While it runs, the reader thread survives a line exactly when the
    line is harmless: the read succeeds, the stream has not ended,
    [json.loads] raises nothing but a [JSONDecodeError] on the value of a
    data line, and the payload, if the line has one, is survivable, that
    is, the test ['reverse' in payload] is defined and true, or it is
    false and the test ['id' in payload] is defined and false, or the
    payload is an object whose "id" is neither a list nor an object.
    Every other line ends the thread: a data line on which [json.loads]
    raises another exception (the [ValueError] of an integer with too
    many digits, a [RecursionError]), a number, [true], [null], a list or
    a string with "id" but without "reverse" in it, an object whose "id"
    is a list or an object. *)
Theorem reader_survives_exactly_the_harmless_lines
    (ev : read_event) (c : sse_connection) :
  thread c = Running → stop_event c = false →
  (thread (Client.sse_reader_step ev c) = Running ↔ Stream.harmless ev = true).
Proof.
  intros Hrun Hstop. unfold Client.sse_reader_step, Client.sse_reader_turn.
  rewrite Hrun, Hstop. unfold Stream.harmless.
  destruct ev as [raw|raw|e]; [|by apply sse_reader_line_running|done].
  destruct raw as [|a raw]; [done|]. by apply sse_reader_line_running.
Qed.

(** X3. A turn of the reader loop that begins with the stop flag set
    reads and routes nothing: the thread ends there, and the queues, the
    table and the Reverse-Call Queue stay as they were, whatever lines
    follow. *)
Theorem stopped_reader_routes_nothing (arrivals : list read_event) (c : sse_connection) :
  stop_event c = true →
  Client.sse_reader_thread arrivals c
  = match thread c, arrivals with
    | Running, _ :: _ => with_thread Finished c
    | _, _ => c
    end.
Proof.
  intros Hstop. destruct arrivals as [|ev arrivals]; [by destruct (thread c)|].
  change (Client.sse_reader_thread (ev :: arrivals) c)
    with (Client.sse_reader_thread arrivals (Client.sse_reader_step ev c)).
  unfold Client.sse_reader_step.
  destruct (thread c) eqn:Hthread.
  - unfold Client.sse_reader_turn. rewrite Hstop.
    by apply sse_reader_thread_ended.
  - apply sse_reader_thread_ended. by rewrite Hthread.
  - apply sse_reader_thread_ended. by rewrite Hthread.
Qed.

End ReaderInvariants.

(** ** Calls and their replies *)

Section Calls.
Context `{JsonLib}.



(** What a call leaves behind, whatever its outcome. *)
Lemma send_jsonrpc_request_frame
    (c : sse_connection) (method : string) (params : json) (timeout_seconds : Q)
    (uuid4 : string) (post : http_outcome) (during_post during_wait : list read_event) :
  let r := Client.send_jsonrpc_request c method params timeout_seconds uuid4 post
             during_post during_wait in
  pending_responses r.1.2 = delete uuid4 (pending_responses c)
  ∧ stop_event r.1.2 = stop_event c
  ∧ reverse_queue c `prefix_of` reverse_queue r.1.2
  ∧ (is_Some r.1.1 →
     post = HttpStatus 202 ∧ Client.negative timeout_seconds = false).
Proof.
  unfold Client.send_jsonrpc_request.
  destruct (Client.register_response_queue uuid4 c) as [l c1] eqn:Hreg.
  assert (c1 = (Client.register_response_queue uuid4 c).2) as Hc1 by by rewrite Hreg.
  assert (pending_responses c1 = <[uuid4 := l]> (pending_responses c)
          ∧ stop_event c1 = stop_event c ∧ reverse_queue c1 = reverse_queue c)
    as (Hp1 & Hs1 & Hq1).
  { unfold Client.register_response_queue in Hreg. by simplify_eq. }
  destruct (sse_reader_thread_frame during_post c1) as (Hp2 & Hs2 & _).
  pose proof (sse_reader_thread_reverse_queue during_post c1) as Hq2.
  set (c2 := Client.sse_reader_thread during_post c1) in *.
  destruct (sse_reader_thread_frame during_wait c2) as (Hp3 & Hs3 & _).
  pose proof (sse_reader_thread_reverse_queue during_wait c2) as Hq3.
  set (c3 := Client.sse_reader_thread during_wait c2) in *.
  assert (∀ c0, pending_responses c0 = <[uuid4 := l]> (pending_responses c) →
            stop_event c0 = stop_event c →
            reverse_queue c `prefix_of` reverse_queue c0 →
            pending_responses (Client.pop_pending uuid4 c0)
            = delete uuid4 (pending_responses c)
            ∧ stop_event (Client.pop_pending uuid4 c0) = stop_event c
            ∧ reverse_queue c `prefix_of` reverse_queue (Client.pop_pending uuid4 c0))
    as Hpop.
  { intros c0 Hp0 Hs0 Hq0. simpl. by rewrite Hp0, delete_insert_eq. }
  assert (pending_responses c2 = <[uuid4 := l]> (pending_responses c)) as Hp2'
    by by rewrite Hp2.
  assert (stop_event c2 = stop_event c) as Hs2' by by rewrite Hs2.
  assert (reverse_queue c `prefix_of` reverse_queue c2) as Hq2' by by rewrite <-Hq1.
  destruct post as [e|status]; cbn [fst snd].
  { destruct (Hpop c2) as (? & ? & ?); [done..|]. split_and!; try done; by intros [??]. }
  case_bool_decide as Hstatus; cbn [fst snd].
  { destruct (Hpop c2) as (? & ? & ?); [done..|]. split_and!; try done; by intros [??]. }
  assert (status = 202%Z) as -> by by destruct (decide (status = 202%Z)).
  destruct (Client.negative timeout_seconds); cbn [fst snd].
  { destruct (Hpop c2) as (? & ? & ?); [done..|]. split_and!; try done; by intros [??]. }
  assert (pending_responses c3 = <[uuid4 := l]> (pending_responses c)) as Hp3'
    by by rewrite Hp3.
  assert (stop_event c3 = stop_event c) as Hs3' by by rewrite Hs3.
  assert (reverse_queue c `prefix_of` reverse_queue c3) as Hq3' by by etrans.
  unfold Client.queue_get.
  destruct (queues c3 !! l) as [[|item rest]|]; cbn [fst snd];
    (edestruct Hpop as (? & ? & ?); [| | |split_and!; [eassumption..|done]]); done.
Qed.

(** X4. Whatever the outcome of a call (a reply, a time-out, a POST that
    fails, a negative time), when [send_jsonrpc_request] returns the
    table is the table of before the call without the identifier of the
    call; the stop flag is untouched, nothing has been taken from the
    Reverse-Call Queue, and a reply is only ever returned when the POST
    was answered with 202 and the time given is not negative. *)
Theorem call_always_removes_its_entry
    (c : sse_connection) (method : string) (params : json) (timeout_seconds : Q)
    (uuid4 : string) (post : http_outcome) (during_post during_wait : list read_event) :
  let r := Client.send_jsonrpc_request c method params timeout_seconds uuid4 post
             during_post during_wait in
  pending_responses r.1.2 = delete uuid4 (pending_responses c)
  ∧ stop_event r.1.2 = stop_event c
  ∧ reverse_queue c `prefix_of` reverse_queue r.1.2
  ∧ (is_Some r.1.1 →
     post = HttpStatus 202 ∧ Client.negative timeout_seconds = false).
Proof. apply send_jsonrpc_request_frame. Qed.


End Calls.

(** ** The bridge and Blender *)

Section BridgeCalls.
Context `{JsonLib}.


(** The handler always produces a tool result, posts nothing itself and
    leaves the connection to the server alone. *)
Lemma handle_tool_call_result b tool_name input_data w :
  ∃ result b' log,
    Bridge._handle_tool_call b tool_name input_data w = (result, b', log)
    ∧ ((∃ text is_error, result = text_result text is_error)
       ∨ ∃ image_data, result = image_result image_data)
    ∧ Forall (λ e, Spec.is_post e = false ∧ Spec.is_wait e = false) log
    ∧ Bridge.sse_connection_of b' = Bridge.sse_connection_of b.
Proof.
  pose proof (handle_tool_call_sse b tool_name input_data w) as Hsse.
  revert Hsse.
  unfold Bridge._handle_tool_call, Bridge.handle_tool_call_body.
  destruct (Bridge.tool_mapping b input_data) as [m|e].
  2: { intros _. eexists _, _, _. split; [reflexivity|].
       split; [eauto|]. split; [by repeat constructor|done]. }
  destruct (Bridge.mapping_lookup tool_name m) as [[[command_type params]|]|e].
  2,3: intros _; eexists _, _, _; (split; [reflexivity|]);
       (split; [eauto|]); (split; [by repeat constructor|done]).
  assert (∀ r b' eff,
            Bridge.send_command b command_type params (Bridge.blender w) = (r, b', eff) →
            Forall (λ e, Spec.is_post e = false ∧ Spec.is_wait e = false) eff) as Heff.
  { unfold Bridge.send_command. intros r b' eff.
    destruct (negb (Bridge.blender_sock b)); [by intros [= <- <- <-]|].
    destruct (Bridge.blender w) as [response| |e];
      [|intros [= <- <- <-]; by repeat constructor..].
    destruct (_ ≫= _); intros [= <- <- <-]; by repeat constructor. }
  destruct (Bridge.send_command b command_type params (Bridge.blender w))
    as [[[blender_result|e] b'] eff] eqn:Hsend; simpl;
    specialize (Heff _ _ _ eq_refl).
  - destruct (Py.is_str _ tool_name).
    + destruct (Bridge.screenshot w); intros Hsse;
        eexists _, _, _; (split; [reflexivity|]); eauto 10.
    + intros Hsse. eexists _, _, _. split; [reflexivity|]. eauto 10.
  - intros Hsse. eexists _, _, _. split; [reflexivity|]. split; [eauto|].
    split; [|done]. apply Forall_app. split; [done|]. by repeat constructor.
Qed.

(** X6. The dispatch loop of the bridge answers every envelope whose
    "reverse" member is an object, whatever the tool, in every turn whose
    exchange with Blender ends, however it ends (an answer, a timeout of
    [sendall], an exception while sending, receiving or decoding): it takes
    the envelope from the queue, posts exactly one [tools/reply] whose id is
    the call id of the envelope and whose result is a tool result, and keeps
    looping. The table of pending requests is not used. An exchange that
    does not end ([Blender.exchange] gives [None]: [sendall] blocks, or the
    receive loop goes on for ever) is outside the statement: the turn does
    not return then and nothing is posted. *)
Theorem bridge_answers_every_envelope `{BytesLib}
    (b : Bridge.ReverseBlenderConnection) (w : Bridge.turn_world)
    (sent : Blender.sendall_outcome) (events : list Blender.recv_event)
    (msg : json) (fields : list (string * json)) (rest : list json) :
  Blender.exchange sent events = Some (Bridge.blender w) →
  Bridge.stop_event b = false →
  reverse_queue (Bridge.sse_connection_of b) = msg :: rest →
  Py.getitem "reverse" msg = Ret (JObj fields) →
  ∃ result b' log tail,
    let c := Bridge.sse_connection_of b in
    let body :=
      json_dumps (Client.reply_request (default JNull (Py.assoc "call_id" fields))
                    result) in
    ((∃ text is_error, result = text_result text is_error)
     ∨ ∃ image_data, result = image_result image_data)
    ∧ Forall (λ e, Spec.is_post e = false ∧ Spec.is_wait e = false) (log ++ tail)
    ∧ Bridge.listen_turn b w
      = Bridge.Turn b' (Some msg)
          (log ++ HttpPost (server_url c) (message_endpoint c) body
                    (Client.post_headers (auth_header c) body) :: tail)
          true
    ∧ Bridge.sse_connection_of b' = with_reverse_queue rest c.
Proof.
  intros _ Hstop Hqueue Hrev.
  assert (Py.has_field "reverse" msg = true) as Hfield.
  { destruct msg as [| | | | | |members]; simpl in Hrev; try done.
    simpl. destruct (Py.assoc "reverse" members); [|done].
    apply bool_decide_eq_true. eauto. }
  unfold Bridge.listen_turn. rewrite Hstop, Hqueue, Hfield, Hrev. simpl.
  set (b1 := Bridge.with_sse _ b).
  destruct (handle_tool_call_result b1 (default JNull (Py.assoc "tool" fields))
              (default JNull (Py.assoc "input" fields)) w)
    as (result & b2 & log & -> & Hresult & Hlog & Hsse).
  destruct (send_tool_reply_shape (Bridge.sse_connection_of b2)
              (default JNull (Py.assoc "call_id" fields)) result (Bridge.reply_post w))
    as (ok & tail & -> & Htail & _).
  exists result, (Bridge.with_sse (Bridge.sse_connection_of b2) b2), log, tail.
  split; [done|]. split; [by apply Forall_app|].
  rewrite Hsse. subst b1. simpl. done.
Qed.

(** The table of the bridge, once the arguments of the call are known. *)
Lemma tool_mapping_arguments b input_data args :
  Py.get "params" (JObj []) input_data ≫= Py.get "arguments" (JObj [])
    = Ret (JObj args) →
  Bridge.tool_mapping b input_data
  = Ret [("blender_get_scene_info", ("get_scene_info", JObj []));
         ("blender_get_object_info",
          ("get_object_info",
           JObj [("name", default JNull (Py.assoc "object_name" args))]));
         ("blender_get_viewport_screenshot",
          ("get_viewport_screenshot",
           JObj [("max_size", default (JInt 800) (Py.assoc "max_size" args));
                 ("filepath",
                  JStr ("/tmp/blender_screenshot_reverse_" +:+ Bridge.self_id b
                        +:+ ".png"));
                 ("format", JStr "png")]));
         ("blender_execute_code",
          ("execute_code", JObj [("code", default JNull (Py.assoc "code" args))]))].
Proof.
  intros Hargs. unfold Bridge.tool_mapping, Bridge.tool_argument.
  destruct (Py.get "params" (JObj []) input_data) as [params|]; [|done].
  cbn [mbind res_bind] in *. rewrite Hargs. done.
Qed.

(** A command that Blender answers with a dictionary whose status is not
    "error" gives the "result" member of the answer. *)
Lemma send_command_success b command_type params w response :
  Bridge.blender_sock b = true →
  w = Bridge.BlenderAnswers (JObj response) →
  Py.assoc "status" response ≠ Some (JStr "error") →
  Bridge.send_command b command_type params w
  = (Ret (default (JObj []) (Py.assoc "result" response)), b,
     [BlenderCommand
        (json_dumps (JObj [("type", JStr command_type); ("params", params)]))]).
Proof.
  intros Hsock -> Hstatus. unfold Bridge.send_command. rewrite Hsock. simpl.
  destruct (Py.assoc "status" response) as [status|]; simpl; [|done].
  destruct status as [| | | |s| |]; simpl; try done.
  case_bool_decide; [by subst|done].
Qed.

(** X7. A call of one of the three text tools is forwarded to Blender as
    one command whose type and parameters are those of the table (the
    object name and the code are taken from [params.arguments] of the
    input, [None] when missing); when Blender answers with a dictionary
    whose status is not "error", the tool result is the indented JSON text
    of the "result" member of the answer (of [{}] when there is none),
    with [isError] false, and the socket stays connected. *)
Theorem bridge_forwards_a_text_tool
    (b : Bridge.ReverseBlenderConnection) (input_data : json) (w : Bridge.turn_world)
    (args response : list (string * json))
    (tool command_type : string) (params : json) :
  Bridge.blender_sock b = true →
  Py.get "params" (JObj []) input_data ≫= Py.get "arguments" (JObj [])
    = Ret (JObj args) →
  Bridge.blender w = Bridge.BlenderAnswers (JObj response) →
  Py.assoc "status" response ≠ Some (JStr "error") →
  (tool, command_type, params)
    ∈ [("blender_get_scene_info", "get_scene_info", JObj []);
       ("blender_get_object_info", "get_object_info",
        JObj [("name", default JNull (Py.assoc "object_name" args))]);
       ("blender_execute_code", "execute_code",
        JObj [("code", default JNull (Py.assoc "code" args))])] →
  Bridge._handle_tool_call b (JStr tool) input_data w
  = (text_result
       (json_dumps_indent (default (JObj []) (Py.assoc "result" response))) false,
     b,
     [BlenderCommand
        (json_dumps (JObj [("type", JStr command_type); ("params", params)]))]).
Proof.
  intros Hsock Hargs Hblender Hstatus Htool.
  unfold Bridge._handle_tool_call, Bridge.handle_tool_call_body.
  rewrite (tool_mapping_arguments _ _ _ Hargs).
  pose proof (λ ct p, send_command_success b ct p _ _ Hsock Hblender Hstatus)
    as Hsend.
  apply list_elem_of_In in Htool. simpl in Htool.
  destruct Htool as [[= <- <- <-]|[[= <- <- <-]|[[= <- <- <-]|[]]]];
    simpl; by rewrite Hsend.
Qed.

(** X8. The screenshot tool sends the command [get_viewport_screenshot]
    with the requested size (800 when none is given), a file path made
    from the identity of the bridge and the format png; when Blender
    answers, the result is the image read from that path, base64 encoded,
    and when the file cannot be read it is an error result, not an
    exception. *)
Theorem bridge_screenshot_reads_the_file
    (b : Bridge.ReverseBlenderConnection) (input_data : json) (w : Bridge.turn_world)
    (args response : list (string * json)) :
  Bridge.blender_sock b = true →
  Py.get "params" (JObj []) input_data ≫= Py.get "arguments" (JObj [])
    = Ret (JObj args) →
  Bridge.blender w = Bridge.BlenderAnswers (JObj response) →
  Py.assoc "status" response ≠ Some (JStr "error") →
  Bridge._handle_tool_call b (JStr "blender_get_viewport_screenshot") input_data w
  = (match Bridge.screenshot w with
     | Ret image_data => image_result image_data
     | Raise e => text_result ("Error reading screenshot: " +:+ exn_text e) true
     end,
     b,
     [BlenderCommand
        (json_dumps
           (JObj [("type", JStr "get_viewport_screenshot");
                  ("params",
                   JObj [("max_size", default (JInt 800) (Py.assoc "max_size" args));
                         ("filepath",
                          JStr ("/tmp/blender_screenshot_reverse_"
                                +:+ Bridge.self_id b +:+ ".png"));
                         ("format", JStr "png")])]))]).
Proof.
  intros Hsock Hargs Hblender Hstatus.
  unfold Bridge._handle_tool_call, Bridge.handle_tool_call_body.
  rewrite (tool_mapping_arguments _ _ _ Hargs). simpl.
  rewrite (send_command_success b _ _ _ _ Hsock Hblender Hstatus).
  by destruct (Bridge.screenshot w).
Qed.



(** X19. The table of the tools is built before the tool name is looked
    at, and building it reads [params.arguments] of the input three
    times. So when the input of a call, its "params" or the "arguments"
    of these is not a dictionary, every call is answered with the
    [AttributeError] as an error result: also a call of
    [blender_get_scene_info], which takes no argument, and a call of a
    tool that is not registered, which is not told "Unknown tool".
    Nothing is sent to Blender and the socket is left as it is. *)
Theorem call_without_arguments_fails_before_the_tool_is_looked_up
    (b : Bridge.ReverseBlenderConnection) (tool_name input_data : json)
    (w : Bridge.turn_world) :
  (∀ args,
     Py.get "params" (JObj []) input_data ≫= Py.get "arguments" (JObj [])
       ≠ Ret (JObj args)) →
  ∃ e,
    exn_kind_of e = AttributeError
    ∧ Bridge._handle_tool_call b tool_name input_data w
      = (text_result ("Error: " +:+ exn_text e) true, b,
         [LogError (ErrorHandlingToolCall e)]).
Proof.
  intros Hargs.
  assert (∀ k dflt v e, Py.get k dflt v = Raise e → exn_kind_of e = AttributeError)
    as Hkind.
  { intros k dflt v e. destruct v; simpl; intros; by simplify_eq. }
  unfold Bridge._handle_tool_call, Bridge.handle_tool_call_body,
    Bridge.tool_mapping, Bridge.tool_argument.
  destruct (Py.get "params" (JObj []) input_data) as [params|e] eqn:Hparams.
  2: { exists e. split; [by eapply Hkind|done]. }
  cbn [mbind res_bind] in *.
  destruct (Py.get "arguments" (JObj []) params) as [arguments|e] eqn:Harguments.
  2: { exists e. split; [by eapply Hkind|done]. }
  cbn [mbind res_bind].
  destruct (Py.get "object_name" JNull arguments) as [object_name|e] eqn:Hname.
  2: { exists e. split; [by eapply Hkind|done]. }
  destruct arguments; try done. by destruct (Hargs members).
Qed.

End BridgeCalls.

(** ** Messages the dispatch loops do not answer *)

Section Unanswered.
Context `{JsonLib}.

(** X10. A payload that is not a JSON object but on which the test
    ['reverse' in payload] is true (a string that contains "reverse", a
    list with the element "reverse") is put on the Reverse-Call Queue by
    the reader and then taken from it and dropped by either dispatch
    loop: nothing is posted or logged, no handler runs, and the loop goes
    on. *)
Theorem payload_that_is_not_an_object_is_enqueued_then_dropped
    (ev : read_event) (payload : json) (c : sse_connection) :
  thread c = Running → stop_event c = false → reverse_queue c = [] →
  Spec.frame_payload ev = Some payload →
  (∀ members, payload ≠ JObj members) →
  Py.contains "reverse" payload = Ret true →
  Client.sse_reader_step ev c = with_reverse_queue [payload] c
  ∧ (∀ b w,
       Bridge.stop_event b = false →
       Bridge.sse_connection_of b = Client.sse_reader_step ev c →
       Bridge.listen_turn b w = Bridge.Turn (Bridge.with_sse c b) (Some payload) [] true)
  ∧ (∀ reply_post,
       Demo.main_worker_turn (Client.sse_reader_step ev c) reply_post
       = Demo.Turn c (Some payload) [] true).
Proof.
  intros Hrun Hstop Hempty Hpayload Hnot Hrev.
  assert (Client.sse_reader_step ev c = with_reverse_queue [payload] c) as Hstep.
  { unfold Client.sse_reader_step. rewrite Hrun.
    rewrite (sse_reader_turn_payload _ _ _ Hstop Hpayload).
    unfold Client.route_json_data. rewrite Hrev. simpl. by rewrite Hempty. }
  assert (Py.has_field "reverse" payload = false) as Hfield.
  { destruct payload; try done. by destruct (Hnot members). }
  assert (with_reverse_queue [] (with_reverse_queue [payload] c) = c) as Hback.
  { destruct c. simpl in *. by subst. }
  rewrite Hstep. split; [done|]. split.
  - intros b w Hbstop Hsse. unfold Bridge.listen_turn.
    rewrite Hbstop, Hsse. simpl. by rewrite Hfield, Hback.
  - intros reply_post. unfold Demo.main_worker_turn. simpl.
    by rewrite Hfield, Hback.
Qed.

(** X11. An envelope whose "reverse" member is not an object (a number, a
    string, a list, null) is never answered. The bridge takes it from the
    queue, logs the [AttributeError] and goes on with the next message;
    the worker of the demo script leaves its loop on the same exception,
    and its [finally] clause sets the stop flag of the connection, so the
    reader thread stops as well. *)
Theorem envelope_without_an_object_is_not_answered
    (msg reverse_data : json) (rest : list json) :
  Py.getitem "reverse" msg = Ret reverse_data →
  (∀ fields, reverse_data ≠ JObj fields) →
  let e := Exn AttributeError
             ("'" +:+ Py.type_name reverse_data +:+ "' object has no attribute 'get'") in
  (∀ b w,
     Bridge.stop_event b = false →
     reverse_queue (Bridge.sse_connection_of b) = msg :: rest →
     Bridge.listen_turn b w
     = Bridge.Turn
         (Bridge.with_sse (with_reverse_queue rest (Bridge.sse_connection_of b)) b)
         (Some msg) [LogError (ErrorInReverseCallListener e)] true)
  ∧ (∀ c reply_post,
       reverse_queue c = msg :: rest →
       Demo.main_worker_turn c reply_post
       = Demo.Turn (with_stop_event true (with_reverse_queue rest c)) (Some msg)
           [] false).
Proof.
  intros Hrev Hnot e.
  assert (Py.has_field "reverse" msg = true) as Hfield.
  { destruct msg as [| | | | | |members]; simpl in Hrev; try done.
    simpl. destruct (Py.assoc "reverse" members); [|done].
    apply bool_decide_eq_true. eauto. }
  assert (Py.get "tool" JNull reverse_data = Raise e) as Hget.
  { destruct reverse_data; try done. by destruct (Hnot members). }
  split.
  - intros b w Hstop Hqueue. unfold Bridge.listen_turn.
    rewrite Hstop, Hqueue, Hfield, Hrev. cbn [mbind res_bind]. by rewrite Hget.
  - intros c reply_post Hqueue. unfold Demo.main_worker_turn.
    rewrite Hqueue, Hfield, Hrev. cbn [mbind res_bind]. by rewrite Hget.
Qed.

(** X12. The worker of the demo script answers a call of
    [demo_tool_python] whose input has dictionaries (or nothing) under
    [params] and [arguments] with the text "Echo: " followed by the
    message, "(no message provided)" standing for a missing message, never
    with an error; when the input is missing or is not a dictionary, the
    worker sends nothing, leaves its loop and sets the stop flag. *)
Theorem demo_worker_echoes_or_stops
    (msg : json) (fields : list (string * json)) (rest : list json)
    (c : sse_connection) (reply_post : http_outcome) :
  reverse_queue c = msg :: rest →
  Py.getitem "reverse" msg = Ret (JObj fields) →
  Py.assoc "tool" fields = Some (JStr "demo_tool_python") →
  let input_data := default JNull (Py.assoc "input" fields) in
  let call_id := default JNull (Py.assoc "call_id" fields) in
  (∀ args,
     Py.get "params" (JObj []) input_data ≫= Py.get "arguments" (JObj [])
       = Ret (JObj args) →
     let message := default (JStr "(no message provided)") (Py.assoc "message" args) in
     let body :=
       json_dumps (Client.reply_request call_id
                     (text_result ("Echo: " +:+ py_str message) false)) in
     ∃ tail,
       Demo.main_worker_turn c reply_post
       = Demo.Turn (with_reverse_queue rest c) (Some msg)
           (HttpPost (server_url c) (message_endpoint c) body
              (Client.post_headers (auth_header c) body) :: tail)
           true
       ∧ Forall (λ e, Spec.is_post e = false ∧ Spec.is_wait e = false) tail)
  ∧ ((∀ members, input_data ≠ JObj members) →
     Demo.main_worker_turn c reply_post
     = Demo.Turn (with_stop_event true (with_reverse_queue rest c)) (Some msg)
         [] false).
Proof.
  intros Hqueue Hrev Htool input_data call_id.
  assert (Py.has_field "reverse" msg = true) as Hfield.
  { destruct msg as [| | | | | |members]; simpl in Hrev; try done.
    simpl. destruct (Py.assoc "reverse" members); [|done].
    apply bool_decide_eq_true. eauto. }
  unfold Demo.main_worker_turn. rewrite Hqueue, Hfield, Hrev. simpl.
  rewrite Htool. simpl. fold input_data call_id. split.
  - intros args Hargs. unfold Demo.handle_echo_request.
    destruct (Py.get "params" (JObj []) input_data) as [params|]; [|done].
    cbn [mbind res_bind] in *. rewrite Hargs. simpl.
    destruct (send_tool_reply_shape (with_reverse_queue rest c) call_id
                (text_result
                   ("Echo: " +:+ py_str (default (JStr "(no message provided)")
                                           (Py.assoc "message" args))) false)
                reply_post)
      as (ok & tail & -> & Htail & _).
    exists tail. done.
  - intros Hnot. unfold Demo.handle_echo_request.
    destruct input_data; try done. by destruct (Hnot members).
Qed.

End Unanswered.

(** ** More on the handshake *)

Section HandshakeBounds.

(** As long as no event of type "endpoint" is announced, data lines are
    skipped and the loop goes through all its rounds. *)
Lemma read_endpoint_event_no_endpoint rounds stream (pos : nat) vars :
  (∀ i, (pos ≤ i < pos + rounds)%nat →
     ∃ raw, stream i = Text raw
            ∧ (PyStr.startswith "event:" (PyStr.strip raw) = true →
               PyStr.strip (PyStr.drop 6 (PyStr.strip raw)) ≠ "endpoint")) →
  Client.hs_message_endpoint vars = None →
  Client.hs_event_type vars ≠ Some "endpoint" →
  ∃ vars',
    Client.read_endpoint_event rounds stream pos vars = (Ret vars', (pos + rounds)%nat)
    ∧ Client.hs_message_endpoint vars' = None.
Proof.
  revert pos vars. induction rounds as [|rounds IH]; intros pos vars Hlines Hm Hev.
  { exists vars. simpl. by rewrite Nat.add_0_r. }
  cbn [Client.read_endpoint_event].
  destruct (Hlines pos) as (raw & -> & Hevent); [lia|].
  cbn [Client.readline_strict]. cbv zeta.
  assert (∀ vars0, Client.hs_message_endpoint vars0 = None →
            Client.hs_event_type vars0 ≠ Some "endpoint" →
            ∃ vars',
              Client.read_endpoint_event rounds stream (S pos) vars0
              = (Ret vars', (pos + S rounds)%nat)
              ∧ Client.hs_message_endpoint vars' = None) as Hnext.
  { intros vars0 Hm0 Hev0.
    destruct (IH (S pos) vars0) as (vars' & Hr & Hm'); [|done..|].
    - intros i Hi. apply Hlines. lia.
    - exists vars'. rewrite Hr. split; [|done]. f_equal. lia. }
  destruct (PyStr.startswith "event:" (PyStr.strip raw)) eqn:Hstarts.
  { rewrite (field_value_event _ Hstarts). apply Hnext; [done|]. simpl.
    intros [= Heq]. by apply Hevent. }
  destruct (PyStr.startswith "data:" (PyStr.strip raw)) eqn:Hdata.
  { rewrite (field_value_data _ Hdata).
    rewrite bool_decide_eq_false_2 by done. by apply Hnext. }
  case_bool_decide; [|by apply Hnext].
  rewrite Hm. simpl. by apply Hnext.
Qed.

(** X13. The handshake reads at most ten lines of the stream, and the
    lines after the tenth have no part in what [connect_to_sse_endpoint]
    returns or does. *)
Theorem handshake_reads_at_most_ten_lines
    (url auth : string) (get : http_outcome) (stream stream' : nat -> read_event) :
  (∀ i, (i < 10)%nat → stream i = stream' i) →
  (Client.lines_read (Client.connect_to_sse_endpoint url auth get stream) ≤ 10)%nat
  ∧ Client.connect_to_sse_endpoint url auth get stream
    = Client.connect_to_sse_endpoint url auth get stream'.
Proof. apply connect_reads_ten_lines. Qed.

(** X14. When the GET is answered with 200 and the first ten lines are
    read without error but none of them is labelled [data:], or none of
    them announces the event type "endpoint", the handshake gives up
    after exactly ten lines: the error is logged, the connection is
    closed, [None] is returned and no reader thread is started. *)
Theorem handshake_gives_up_after_ten_lines
    (url auth : string) (stream : nat -> read_event) :
  (∀ i, (i < 10)%nat →
     ∃ raw, stream i = Text raw
            ∧ PyStr.startswith "data:" (PyStr.strip raw) = false)
  ∨ (∀ i, (i < 10)%nat →
       ∃ raw, stream i = Text raw
              ∧ (PyStr.startswith "event:" (PyStr.strip raw) = true →
                 PyStr.strip (PyStr.drop 6 (PyStr.strip raw)) ≠ "endpoint")) →
  Client.connect_to_sse_endpoint url auth (HttpStatus 200) stream
  = Client.ConnectResult None
      [HttpGet url (Client.sse_headers auth);
       LogError CouldNotExtractMessageEndpoint; ConnClose] 10.
Proof.
  intros [Hlines|Hlines]; [by apply connect_gives_up_after_ten_lines|].
  destruct (read_endpoint_event_no_endpoint 10 stream 0 Spec.handshake_start)
    as (vars & Hr & Hm); [|done..|].
  - intros i Hi. apply Hlines. lia.
  - by apply (connect_without_endpoint _ _ _ vars).
Qed.

(** X15. [connect_to_sse_endpoint] returns a connection only when the GET
    was answered with 200, and then the connection has a message endpoint
    and a session identifier that are not empty, the URL and the header it
    was given, an empty Reverse-Call Queue, an empty table, a running
    reader thread and a stop flag that is not set; the connection has not
    been closed. When it returns [None], no reader thread has been
    started. *)
Theorem connect_returns_a_ready_connection_or_nothing
    (url auth : string) (get : http_outcome) (stream : nat -> read_event) :
  let r := Client.connect_to_sse_endpoint url auth get stream in
  (∀ c, Client.returned r = Some c →
     get = HttpStatus 200
     ∧ session_id c ≠ "" ∧ message_endpoint c ≠ ""
     ∧ c = SseConnection (session_id c) (message_endpoint c) url auth Running false
             [] ∅ ∅
     ∧ Client.connect_effects r = [HttpGet url (Client.sse_headers auth); ThreadStart])
  ∧ (Client.returned r = None → ThreadStart ∉ Client.connect_effects r).
Proof.
  unfold Client.connect_to_sse_endpoint.
  assert (∀ l : list effect, Forall (λ e, e ≠ ThreadStart) l → ThreadStart ∉ l)
    as Hnot.
  { intros l Hall Hin. eapply Forall_forall in Hall; [|exact Hin]. done. }
  destruct get as [e|status].
  { split; [done|]. intros _. apply Hnot. by repeat constructor. }
  case_bool_decide as Hstatus.
  { split; [done|]. intros _. apply Hnot. by repeat constructor. }
  assert (status = 200%Z) as -> by by destruct (decide (status = 200%Z)).
  destruct (Client.read_endpoint_event _ _ _ _) as [[vars|e] n].
  2: { split; [done|]. intros _. apply Hnot. by repeat constructor. }
  destruct (Client.hs_message_endpoint vars) as [[|a ep]|];
    destruct (Client.hs_session_id vars) as [[|a' sid]|]; simpl;
    try (split; [done|]; intros _; apply Hnot; by repeat constructor).
  split; [|done]. by intros c [= <-].
Qed.

End HandshakeBounds.

(** ** The configuration of the server *)

Section ConfigFacts.
Context `{FloatLib}.

(** X16. Only the first entry of [mcpServers] is consulted. When the first
    server is a dictionary, the URL that [extract_server_url_from_config]
    returns is its "url" member, [None] when it has none, whatever the
    later servers hold; and step 5 sets the authorization header from the
    "headers" member of that first server alone: a first server with
    headers but no "Authorization" among them sets the header to [None],
    one without headers leaves the header as it was. *)
Theorem only_the_first_server_is_consulted
    (config : json) (name : string) (members : list (string * json))
    (others : list (string * json)) :
  Py.get "mcpServers" (JObj []) config
    = Ret (JObj ((name, JObj members) :: others)) →
  Config.extract_server_url_from_config config
    = (default JNull (Py.assoc "url" members), None)
  ∧ ∀ auth_header,
      Config.extract_authorization auth_header config
      = match Py.assoc "headers" members with
        | Some headers => Py.get "Authorization" JNull headers
        | None => Ret auth_header
        end.
Proof.
  intros Hservers.
  unfold Config.extract_server_url_from_config, Config.extract_authorization.
  rewrite Hservers. cbn [mbind res_bind].
  cbn [Builtins.truth Builtins.first_value]. rewrite bool_decide_eq_false_2 by done.
  cbn [negb mbind res_bind].
  destruct (decide (members = [])) as [->|Hmembers]; [done|].
  assert (Builtins.truth (JObj members) = true) as ->.
  { simpl. by rewrite bool_decide_eq_false_2. }
  cbn [negb]. split; [done|]. intros auth_header.
  cbn [Py.contains Py.getitem mbind res_bind].
  destruct (Py.assoc "headers" members) as [headers|] eqn:Hheaders.
  - by rewrite bool_decide_eq_true_2.
  - rewrite bool_decide_eq_false_2; [done|]. by intros [? ?].
Qed.

End ConfigFacts.

(** ** Registering the tools *)

Section RegistrationFacts.
Context `{JsonLib} `{FloatLib}.

(** X17. A registration counts as acknowledged exactly when the response
    is an object whose "result" is an object whose "content" is a list
    whose first item is an object whose "text" (the empty string when it
    has none) has "Successfully registered tool" in it. Nothing else of
    the response is looked at: not "error", not the "isError" member of
    the result, not the later items of the content. *)
Theorem registration_is_acknowledged_by_the_first_text (response : json) :
  Registration.registration_acknowledged response = Ret true
  ↔ ∃ members result first others item,
      response = JObj members
      ∧ Py.assoc "result" members = Some (JObj result)
      ∧ Py.assoc "content" result = Some (JArr (first :: others))
      ∧ first = JObj item
      ∧ Py.contains "Successfully registered tool"
          (default (JStr "") (Py.assoc "text" item)) = Ret true.
Proof.
  unfold Registration.registration_acknowledged. split.
  - destruct response as [| | | |s|items|members]; simpl; try done.
    + by destruct (PyStr.contains "result" s).
    + by destruct (existsb (Py.is_str "result") items).
    + destruct (Py.assoc "result" members) as [result|] eqn:Hresult.
      2: { rewrite bool_decide_eq_false_2; [done|]. by intros [? ?]. }
      rewrite bool_decide_eq_true_2 by eauto.
      destruct result as [| | | | | |result]; simpl; try done.
      destruct (Py.assoc "content" result) as [content|] eqn:Hcontent; simpl; [|done].
      destruct content as [|b|n|lexeme|s|items|ms]; simpl; try done.
      * by destruct b.
      * by destruct (negb (n =? 0)%Z).
      * by destruct (negb (float_is_zero lexeme)).
      * destruct s as [|a s]; [done|]. simpl. done.
      * destruct items as [|first others]; [done|]. simpl.
        destruct first as [| | | | | |item]; simpl; try done.
        intros Htext. by exists members, result, (JObj item), others, item.
      * destruct ms as [|m ms]; [done|]. cbn -[remove_dups].
        by case_match.
  - intros (members & result & first & others & item & -> & Hresult & Hcontent & -> & Htext).
    simpl. rewrite Hresult. rewrite bool_decide_eq_true_2 by eauto. simpl.
    by rewrite Hcontent.
Qed.

(** A call posts its request first, and nothing else. *)
Lemma send_jsonrpc_request_effects c method params timeout_seconds uuid4 post
    during_post during_wait :
  let r := Client.send_jsonrpc_request c method params timeout_seconds uuid4 post
             during_post during_wait in
  let request_body := json_dumps (Client.jsonrpc_request uuid4 method params) in
  List.filter Spec.is_post r.2
  = [HttpPost (server_url c) (message_endpoint c) request_body
       (Client.post_headers (auth_header c) request_body)]
  ∧ session_id r.1.2 = session_id c
  ∧ message_endpoint r.1.2 = message_endpoint c
  ∧ server_url r.1.2 = server_url c
  ∧ auth_header r.1.2 = auth_header c.
Proof.
  unfold Client.send_jsonrpc_request.
  destruct (Client.register_response_queue uuid4 c) as [l c1] eqn:Hreg.
  assert (session_id c1 = session_id c ∧ message_endpoint c1 = message_endpoint c
          ∧ server_url c1 = server_url c ∧ auth_header c1 = auth_header c)
    as (Ha1 & Ha2 & Ha3 & Ha4).
  { unfold Client.register_response_queue in Hreg. by simplify_eq. }
  destruct (sse_reader_thread_addresses during_post c1) as (Hb1 & Hb2 & Hb3 & Hb4).
  set (c2 := Client.sse_reader_thread during_post c1) in *.
  destruct (sse_reader_thread_addresses during_wait c2) as (Hc1 & Hc2 & Hc3 & Hc4).
  set (c3 := Client.sse_reader_thread during_wait c2) in *.
  rewrite Ha2, Ha3, Ha4.
  destruct post as [e|status]; cbn [fst snd].
  { simpl. by rewrite Hb1, Hb2, Hb3, Hb4. }
  case_bool_decide; cbn [fst snd].
  { simpl. by rewrite Hb1, Hb2, Hb3, Hb4. }
  destruct (Client.negative timeout_seconds); cbn [fst snd].
  { simpl. by rewrite Hb1, Hb2, Hb3, Hb4. }
  unfold Client.queue_get.
  destruct (queues c3 !! l) as [[|item rest]|]; simpl;
    by rewrite Hc1, Hc2, Hc3, Hc4, Hb1, Hb2, Hb3, Hb4.
Qed.

(** The loop over the tools that are left: the requests posted are those
    of the first [k] of them, in order, each under its own identifier. *)
Lemma register_tools_requests tools i worlds c :
  ∃ r c' effects k,
    Registration.register_tools tools i worlds c = (r, c', effects)
    ∧ (k ≤ length tools)%nat
    ∧ List.filter Spec.is_post effects
      = imap (λ j t, Registration.registration_request c
                       (Registration.uuid4 (worlds (i + j)%nat)) t)
          (take k tools)
    ∧ match r with
      | Ret Registration.AllRegistered => k = length tools
      | Ret (Registration.FailedToRegister name)
      | Ret (Registration.UnexpectedRegistrationResponse name) =>
          (0 < k)%nat ∧ Registration.tool_name <$> tools !! pred k = Some name
      | Raise _ => (0 < k)%nat
      end
    ∧ pending_responses c' ⊆ pending_responses c
    ∧ message_endpoint c' = message_endpoint c
    ∧ server_url c' = server_url c
    ∧ auth_header c' = auth_header c.
Proof.
  revert i c. induction tools as [|t later IH]; intros i c.
  { exists (Ret Registration.AllRegistered), c, [], 0%nat. by split_and!. }
  cbn [Registration.register_tools]. cbv zeta.
  pose proof (send_jsonrpc_request_effects c "tools/call"
                (Registration.registration_params t) 10
                (Registration.uuid4 (worlds i)) (Registration.post (worlds i))
                (Registration.during_post (worlds i))
                (Registration.during_wait (worlds i)))
    as (Hposts & _ & Hm & Hu & Ha).
  pose proof (send_jsonrpc_request_frame c "tools/call"
                (Registration.registration_params t) 10
                (Registration.uuid4 (worlds i)) (Registration.post (worlds i))
                (Registration.during_post (worlds i))
                (Registration.during_wait (worlds i))) as (Hp & _).
  destruct (Client.send_jsonrpc_request _ _ _ _ _ _ _ _) as [[response c1] eff].
  cbn [fst snd] in *.
  assert (pending_responses c1 ⊆ pending_responses c) as Hsub.
  { rewrite Hp. apply delete_subseteq. }
  assert (imap (λ j t0, Registration.registration_request c
                          (Registration.uuid4 (worlds (i + j)%nat)) t0)
            (take 1 (t :: later))
          = List.filter Spec.is_post eff) as Hone.
  { rewrite Hposts. simpl. by rewrite Nat.add_0_r. }
  assert (∀ r, match r with
               | Ret Registration.AllRegistered => False
               | Ret (Registration.FailedToRegister name)
               | Ret (Registration.UnexpectedRegistrationResponse name) =>
                   name = Registration.tool_name t
               | Raise _ => True
               end →
            ∃ r0 c' effects k,
              (r, c1, eff) = (r0, c', effects)
              ∧ (k ≤ length (t :: later))%nat
              ∧ List.filter Spec.is_post effects
                = imap (λ j t0, Registration.registration_request c
                                  (Registration.uuid4 (worlds (i + j)%nat)) t0)
                    (take k (t :: later))
              ∧ match r0 with
                | Ret Registration.AllRegistered => k = length (t :: later)
                | Ret (Registration.FailedToRegister name)
                | Ret (Registration.UnexpectedRegistrationResponse name) =>
                    (0 < k)%nat
                    ∧ Registration.tool_name <$> (t :: later) !! pred k = Some name
                | Raise _ => (0 < k)%nat
                end
              ∧ pending_responses c' ⊆ pending_responses c
              ∧ message_endpoint c' = message_endpoint c
              ∧ server_url c' = server_url c
              ∧ auth_header c' = auth_header c) as Hstop.
  { intros r Hr. exists r, c1, eff, 1%nat. split; [done|]. split; [simpl; lia|].
    split; [done|]. split; [|done].
    destruct r as [[| |]|]; [done|subst; simpl; split; (lia || done)..|lia]. }
  destruct response as [response|]; [|by apply Hstop].
  destruct (negb (Builtins.truth response)); [by apply Hstop|].
  destruct (Registration.registration_acknowledged response) as [[]|e];
    [|by apply Hstop..].
  destruct (IH (S i) c1) as (r & c2 & eff' & k & -> & Hk & Hposts' & Hr & Hsub' & Hm' & Hu' & Ha').
  exists r, c2, (eff ++ eff'), (S k). split; [done|]. split; [simpl; lia|].
  split.
  { rewrite List.filter_app, Hposts, Hposts'. cbn [take]. rewrite imap_cons.
    rewrite Nat.add_0_r. unfold Registration.registration_request at 3.
    cbn [app]. f_equal. apply imap_ext. intros j t0 _. simpl.
    unfold Registration.registration_request. rewrite Hm, Hu, Ha.
    by replace (i + S j)%nat with (S (i + j)) by lia. }
  split.
  { destruct r as [[| |]|]; simpl in *; [by f_equal|..|lia].
    - destruct Hr as [Hk' Hr]. split; [lia|]. by destruct k; [lia|].
    - destruct Hr as [Hk' Hr]. split; [lia|]. by destruct k; [lia|]. }
  split; [by etrans|]. by rewrite Hm', Hu', Ha'.
Qed.

(** A call starts no thread. *)
Lemma send_jsonrpc_request_no_thread c method params timeout_seconds uuid4 post
    during_post during_wait :
  Forall (λ e, e ≠ ThreadStart)
    (Client.send_jsonrpc_request c method params timeout_seconds uuid4 post
       during_post during_wait).2.
Proof.
  unfold Client.send_jsonrpc_request.
  destruct (Client.register_response_queue uuid4 c) as [l c1].
  destruct post as [e|status]; [by repeat constructor|].
  case_bool_decide; [by repeat constructor|].
  destruct (Client.negative timeout_seconds); [by repeat constructor|].
  destruct (Client.queue_get _ _) as [[response|] c4]; by repeat constructor.
Qed.

Lemma register_tools_quiet tools i worlds c :
  let r := Registration.register_tools tools i worlds c in
  stop_event r.1.2 = stop_event c ∧ Forall (λ e, e ≠ ThreadStart) r.2.
Proof.
  revert i c. induction tools as [|t later IH]; intros i c; [done|].
  cbn [Registration.register_tools]. cbv zeta.
  pose proof (send_jsonrpc_request_no_thread c "tools/call"
                (Registration.registration_params t) 10
                (Registration.uuid4 (worlds i)) (Registration.post (worlds i))
                (Registration.during_post (worlds i))
                (Registration.during_wait (worlds i))) as Hquiet.
  pose proof (send_jsonrpc_request_frame c "tools/call"
                (Registration.registration_params t) 10
                (Registration.uuid4 (worlds i)) (Registration.post (worlds i))
                (Registration.during_post (worlds i))
                (Registration.during_wait (worlds i))) as (_ & Hstop & _).
  destruct (Client.send_jsonrpc_request _ _ _ _ _ _ _ _) as [[response c1] eff].
  cbn [fst snd] in *.
  destruct response as [response|]; [|done].
  destruct (negb (Builtins.truth response)); [done|].
  destruct (Registration.registration_acknowledged response) as [[]|e]; [|done..].
  specialize (IH (S i) c1).
  destruct (Registration.register_tools later (S i) worlds c1) as [[r c2] eff'].
  cbn [fst snd] in *. destruct IH as [-> Hquiet']. split; [done|].
  by apply Forall_app.
Qed.

(** The loop over the tools that are left ends with the first call that
    is not acknowledged, and with the last call where all are. *)
Lemma register_tools_calls tools i worlds c :
  let calls := Registration.calls tools i worlds c in
  Registration.register_tools tools i worlds c
  = match list_find (λ call, is_Some (Registration.verdict call.1 call.2.1.1))
            (zip tools calls) with
    | Some (n, (t, (response, c', _))) =>
        (default (Ret Registration.AllRegistered) (Registration.verdict t response),
         c', concat (snd <$> take (S n) calls))
    | None =>
        (Ret Registration.AllRegistered, default c (snd ∘ fst <$> last calls),
         concat (snd <$> calls))
    end.
Proof.
  revert i c. induction tools as [|t later IH]; intros i c; [done|].
  cbn [Registration.register_tools Registration.calls]. cbv zeta.
  specialize (IH (S i)).
  destruct (Client.send_jsonrpc_request c "tools/call"
              (Registration.registration_params t) 10
              (Registration.uuid4 (worlds i)) (Registration.post (worlds i))
              (Registration.during_post (worlds i))
              (Registration.during_wait (worlds i)))
    as [[response c1] eff] eqn:Hcall.
  specialize (IH c1). cbn [fst snd zip zip_with list_find].
  destruct (decide (is_Some (Registration.verdict t response))) as [[v Hv]|Hgo].
  - cbn [fmap option_fmap option_map prod_map take fmap list_fmap concat snd].
    rewrite Hv, app_nil_r. cbn [default].
    unfold Registration.verdict in Hv.
    destruct response as [response|]; [|by simplify_eq].
    destruct (negb (Builtins.truth response)); [by simplify_eq|].
    by destruct (Registration.registration_acknowledged response) as [[]|e];
      simplify_eq.
  - assert (Registration.verdict t response = None) as Hv.
    { destruct (Registration.verdict t response); [|done]. destruct Hgo. eauto. }
    unfold Registration.verdict in Hv.
    destruct response as [response|]; [|done].
    destruct (negb (Builtins.truth response)); [done|].
    destruct (Registration.registration_acknowledged response) as [[]|e];
      [|done..].
    rewrite IH. clear IH.
    destruct (list_find _ _) as [[n [t' [[response' c'] eff']]]|]; simpl.
    + done.
    + rewrite last_cons.
      by destruct (last (Registration.calls later (S i) worlds c1)).
Qed.

Lemma calls_length tools i worlds c :
  length (Registration.calls tools i worlds c) = length tools.
Proof.
  revert i c. induction tools as [|t later IH]; intros i c; [done|].
  simpl. by rewrite IH.
Qed.

(** The requests of the first [k] calls are those of the first [k] tools,
    in order, each under its own identifier. *)
Lemma calls_requests tools i worlds c k :
  List.filter Spec.is_post
    (concat (snd <$> take k (Registration.calls tools i worlds c)))
  = imap (λ j t, Registration.registration_request c
                   (Registration.uuid4 (worlds (i + j)%nat)) t)
      (take k tools).
Proof.
  revert i c k. induction tools as [|t later IH]; intros i c k.
  { cbn [Registration.calls]. by rewrite !take_nil. }
  destruct k as [|k]; [done|].
  cbn [Registration.calls take fmap list_fmap concat]. cbv zeta.
  pose proof (send_jsonrpc_request_effects c "tools/call"
                (Registration.registration_params t) 10
                (Registration.uuid4 (worlds i)) (Registration.post (worlds i))
                (Registration.during_post (worlds i))
                (Registration.during_wait (worlds i)))
    as (Hposts & _ & Hm & Hu & Ha).
  cbv zeta in *.
  rewrite List.filter_app, Hposts, IH, imap_cons, Nat.add_0_r.
  unfold Registration.registration_request at 2. cbn [app]. f_equal.
  apply imap_ext. intros j t0 _. simpl.
  unfold Registration.registration_request. rewrite Hm, Hu, Ha.
  by replace (i + S j)%nat with (S (i + j)) by lia.
Qed.

(** X18. [_register_all_tools] registers the four tools in the order of
    its list, each by one call on the connection the call before it has
    left, and the first call that is not acknowledged ends it. With
    [calls] the four calls as they go when none ends the loop, and
    [verdict] what the loop makes of a response ([None]: go on): if the
    call for the tool at position [n] is the first whose verdict is not to
    go on, the function ends as that verdict says (the tool named in the
    error is that one; no response or a falsy one is "Failed to register
    tool", any other that is not an acknowledgement is "Unexpected
    registration response"), on the connection that call has left, its
    effects are those of the calls up to that one and the requests posted
    are exactly those of the tools up to that one, none for a later tool.
    If the four calls are acknowledged it returns [True], the effects are
    those of the four calls and the four requests were posted. In every
    case it leaves no entry of its own in the table of pending requests
    and the addresses of the connection as they were. *)
Theorem registration_stops_at_the_first_failure
    (worlds : nat -> Registration.call_world) (c : sse_connection) :
  let tools := Registration.tools_to_register in
  let calls := Registration.calls tools 0 worlds c in
  let requests (k : nat) :=
    imap (λ j t, Registration.registration_request c
                   (Registration.uuid4 (worlds j)) t)
      (take k tools) in
  let r := Registration._register_all_tools worlds c in
  length calls = 4%nat
  ∧ match list_find (λ call, is_Some (Registration.verdict call.1 call.2.1.1))
            (zip tools calls) with
    | Some (n, (t, (response, c', _))) =>
        Registration.verdict t response = Some r.1.1
        ∧ r.1.2 = c'
        ∧ r.2 = concat (snd <$> take (S n) calls)
        ∧ List.filter Spec.is_post r.2 = requests (S n)
    | None =>
        r.1.1 = Ret Registration.AllRegistered
        ∧ snd ∘ fst <$> last calls = Some r.1.2
        ∧ r.2 = concat (snd <$> calls)
        ∧ List.filter Spec.is_post r.2 = requests 4%nat
    end
  ∧ pending_responses r.1.2 ⊆ pending_responses c
  ∧ (message_endpoint r.1.2, server_url r.1.2, auth_header r.1.2)
    = (message_endpoint c, server_url c, auth_header c).
Proof.
  intros tools calls requests r.
  assert (length calls = 4%nat) as Hlen by apply calls_length.
  split; [done|]. split.
  - subst r. unfold Registration._register_all_tools.
    rewrite register_tools_calls. fold tools. fold calls.
    destruct (list_find _ _) as [[n [t [[response c'] eff]]]|] eqn:Hfind;
      cbn [fst snd].
    + apply list_find_Some in Hfind as (_ & [v Hv] & _). cbn [fst snd] in Hv.
      rewrite Hv. cbn [default]. split; [done|]. split; [done|]. split; [done|].
      subst requests. cbv beta. subst calls.
      by rewrite calls_requests.
    + split; [done|]. split.
      { destruct (last calls) as [[[response c'] eff]|] eqn:Hlast; [done|].
        apply last_None in Hlast. by rewrite Hlast in Hlen. }
      split; [done|].
      subst requests. cbv beta.
      rewrite <- (take_ge calls 4) at 1 by lia. subst calls.
      by rewrite calls_requests.
  - destruct (register_tools_requests tools 0 worlds c)
      as (r0 & c0 & effects & k & Hrun & _ & _ & _ & Hsub & Hm & Hu & Ha).
    subst r. unfold Registration._register_all_tools. fold tools.
    rewrite Hrun. cbn [fst snd]. by rewrite Hm, Hu, Ha.
Qed.

End RegistrationFacts.

(** ** The answer of Blender *)

Section Receiving.
Context `{JsonLib} `{BytesLib}.

(** After the loop, chunks that did not make a JSON text still do not. *)
Lemma after_receive_loop_incomplete chunks :
  Blender.incomplete (Blender.join chunks) →
  chunks ≠ [] →
  Blender.after_receive_loop chunks
  = Raise (Exn OtherError "Incomplete JSON response received").
Proof.
  intros (text & e & Hdecode & Hloads & He) Hne.
  destruct chunks as [|chunk chunks]; [done|].
  unfold Blender.after_receive_loop. rewrite Hdecode. simpl.
  by rewrite Hloads, He.
Qed.

Lemma receive_loop_returns events chunks data :
  chunks = [] ∨ Blender.incomplete (Blender.join chunks) →
  Blender.receive_loop events chunks = Some (Ret data)
  ↔ ∃ received rest,
      events = (Blender.Received <$> received) ++ rest
      ∧ received ≠ []
      ∧ Forall (λ chunk, chunk ≠ EmptyString) received
      ∧ data = Blender.join (chunks ++ received)
      ∧ Blender.complete data
      ∧ ∀ k, (0 < k < length received)%nat →
          Blender.incomplete (Blender.join (chunks ++ take k received)).
Proof.
  revert chunks. induction events as [|ev events IH]; intros chunks Hinv.
  { split; [done|]. intros (received & rest & Hev & Hne & _).
    destruct received; [done|]. done. }
  assert (∀ r, (∃ e, r = @Raise string e) →
            Some r = Some (Ret data) → False) as Hraise.
  { intros r [e ->]. done. }
  assert (∀ received rest,
            ev :: events = (Blender.Received <$> received) ++ rest →
            received ≠ [] →
            ∃ chunk received', received = chunk :: received'
              ∧ ev = Blender.Received chunk
              ∧ events = (Blender.Received <$> received') ++ rest) as Hhead.
  { intros [|chunk received'] rest Hev Hne; [done|].
    simpl in Hev. simplify_eq. eauto. }
  assert (Blender.after_receive_loop chunks ≠ Ret data) as Hafter.
  { destruct Hinv as [->|Hinc]; [done|].
    destruct chunks as [|c0 chunks0] eqn:Hchunks; [done|].
    by rewrite after_receive_loop_incomplete. }
  destruct ev as [chunk| |e]; cbn [Blender.receive_loop].
  - case_bool_decide as Hempty.
    { split.
      - destruct chunks; [done|]. intros [= Hr]. by destruct Hafter.
      - intros (received & rest & Hev & Hne & Hall & _).
        destruct (Hhead _ _ Hev Hne) as (chunk' & received' & -> & [= <-] & _).
        by apply Forall_cons_1 in Hall as [? _]. }
    cbv zeta.
    destruct (utf8_decode (Blender.join (chunks ++ [chunk]))) as [text|e] eqn:Hdecode.
    2: { split; [done|]. intros (received & rest & Hev & Hne & Hall & -> & Hdata & Hinc).
         destruct (Hhead _ _ Hev Hne) as (chunk' & received' & -> & [= <-] & _).
         destruct received' as [|chunk2 received'].
         - destruct Hdata as (text & v & Hd & _). by rewrite Hd in Hdecode.
         - destruct (Hinc 1%nat) as (text & e' & Hd & _); [simpl; lia|].
           simpl in Hd. by rewrite Hd in Hdecode. }
    destruct (json_loads text) as [v|e] eqn:Hloads;
      [|destruct (is_json_decode_error e) eqn:He].
    + split.
      * intros [= <-]. exists [chunk], events. split; [done|]. split; [done|].
        split; [by constructor|]. split; [done|]. split; [by exists text, v|].
        intros k Hk. simpl in Hk. lia.
      * intros (received & rest & Hev & Hne & Hall & -> & Hdata & Hinc).
        destruct (Hhead _ _ Hev Hne) as (chunk' & received' & -> & [= <-] & _).
        destruct received' as [|chunk2 received']; [done|].
        destruct (Hinc 1%nat) as (text' & e' & Hd & Hl & _); [simpl; lia|].
        simpl in Hd. rewrite Hd in Hdecode. simplify_eq. congruence.
    + rewrite IH by (right; by exists text, e). split.
      * intros (received & rest & -> & Hne & Hall & -> & Hdata & Hinc).
        exists (chunk :: received), rest. split; [done|]. split; [done|].
        split; [by constructor|]. rewrite <-app_assoc in Hdata |- *.
        split; [done|]. split; [done|].
        intros [|k] Hk; [lia|]. simpl in Hk. destruct k as [|k].
        { simpl. by exists text, e. }
        specialize (Hinc (S k)). rewrite <-app_assoc in Hinc. apply Hinc. lia.
      * intros (received & rest & Hev & Hne & Hall & -> & Hdata & Hinc).
        destruct (Hhead _ _ Hev Hne) as (chunk' & received' & -> & [= <-] & ->).
        apply Forall_cons_1 in Hall as [_ Hall].
        destruct received' as [|chunk2 received'].
        { destruct Hdata as (text' & v & Hd & Hl). rewrite Hd in Hdecode.
          simplify_eq. congruence. }
        exists (chunk2 :: received'), rest. split; [done|]. split; [done|].
        split; [done|]. rewrite <-app_assoc. split; [done|]. split; [done|].
        intros k Hk. specialize (Hinc (S k)). rewrite <-app_assoc.
        apply Hinc. simpl in *. lia.
    + split; [done|].
      intros (received & rest & Hev & Hne & Hall & -> & Hdata & Hinc).
      destruct (Hhead _ _ Hev Hne) as (chunk' & received' & -> & [= <-] & _).
      destruct received' as [|chunk2 received'].
      * destruct Hdata as (text' & v & Hd & Hl). rewrite Hd in Hdecode.
        simplify_eq. congruence.
      * destruct (Hinc 1%nat) as (text' & e' & Hd & Hl & He'); [simpl; lia|].
        simpl in Hd. rewrite Hd in Hdecode. simplify_eq. congruence.
  - split; [by intros [= ?]|].
    intros (received & rest & Hev & Hne & _).
    by destruct (Hhead _ _ Hev Hne) as (? & ? & _ & ? & _).
  - split; [done|].
    intros (received & rest & Hev & Hne & _).
    by destruct (Hhead _ _ Hev Hne) as (? & ? & _ & ? & _).
Qed.

(** X20. [_receive_full_response] returns bytes exactly when some chunks
    have arrived, none of them empty, whose concatenation is the text of
    a JSON value while no shorter run of them is: it returns that
    concatenation at once, and reads nothing of what follows. What it
    returns always decodes and parses again in [send_command]. *)
Theorem receive_returns_the_first_complete_prefix
    (events : list Blender.recv_event) (data : string) :
  Blender._receive_full_response events = Some (Ret data)
  ↔ ∃ received rest,
      events = (Blender.Received <$> received) ++ rest
      ∧ received ≠ []
      ∧ Forall (λ chunk, chunk ≠ EmptyString) received
      ∧ data = Blender.join received
      ∧ Blender.complete data
      ∧ ∀ k, (0 < k < length received)%nat →
          Blender.incomplete (Blender.join (take k received)).
Proof. apply receive_loop_returns. by left. Qed.

Lemma receive_loop_stopped received stop rest chunks :
  chunks = [] ∨ Blender.incomplete (Blender.join chunks) →
  stop = Blender.RecvTimeout ∨ stop = Blender.Received EmptyString →
  Forall (λ chunk, chunk ≠ EmptyString) received →
  (∀ k, (0 < k ≤ length received)%nat →
     Blender.incomplete (Blender.join (chunks ++ take k received))) →
  Blender.receive_loop ((Blender.Received <$> received) ++ stop :: rest) chunks
  = Some (Raise (Blender.receive_error (chunks ++ received) stop)).
Proof.
  intros Hinv Hstop Hall. revert chunks Hinv.
  induction Hall as [|chunk received Hchunk Hall IH]; intros chunks Hinv Hinc.
  - simpl. rewrite app_nil_r.
    destruct Hinv as [->|Hincomplete].
    { by destruct Hstop as [->| ->]. }
    destruct chunks as [|c0 chunks0] eqn:Hchunks.
    { by destruct Hstop as [->| ->]. }
    rewrite <-Hchunks in *.
    assert (Blender.after_receive_loop chunks
            = Raise (Blender.receive_error chunks stop)) as Hafter.
    { rewrite after_receive_loop_incomplete by (done || by subst).
      subst chunks. by destruct stop. }
    destruct Hstop as [->| ->]; simpl; [by rewrite Hafter|].
    subst chunks. by rewrite <-Hafter.
  - cbn [fmap list_fmap app Blender.receive_loop].
    rewrite bool_decide_eq_false_2 by done. cbv zeta.
    destruct (Hinc 1%nat) as (text & e & Hd & Hl & He); [simpl; lia|].
    cbn [take] in Hd. rewrite take_0 in Hd. rewrite Hd, Hl, He.
    change (list_fmap _ _ Blender.Received received)
      with (Blender.Received <$> received).
    rewrite IH.
    + by rewrite <-app_assoc.
    + right. by exists text, e.
    + intros k Hk. specialize (Hinc (S k)). rewrite <-app_assoc.
      apply Hinc. simpl. lia.
Qed.

(** X21. The second test of the bytes, after the loop, never succeeds.
    When the time-out or the close of the peer comes after chunks no run
    of which was the text of a JSON value, [_receive_full_response]
    raises: "Incomplete JSON response received" when something had
    arrived, and otherwise "No data received" after a time-out and
    "Connection closed before receiving any data" after a close. What
    follows the time-out or the close is not read. *)
Theorem receive_after_the_loop_always_raises
    (received : list string) (stop : Blender.recv_event)
    (rest : list Blender.recv_event) :
  stop = Blender.RecvTimeout ∨ stop = Blender.Received EmptyString →
  Forall (λ chunk, chunk ≠ EmptyString) received →
  (∀ k, (0 < k ≤ length received)%nat →
     Blender.incomplete (Blender.join (take k received))) →
  Blender._receive_full_response ((Blender.Received <$> received) ++ stop :: rest)
  = Some (Raise (Blender.receive_error received stop)).
Proof.
  intros Hstop Hall Hinc. unfold Blender._receive_full_response.
  by rewrite receive_loop_stopped by (done || by left).
Qed.

End Receiving.

(** ** Discovering the server *)

Section Discovery.
Context `{JsonLib} `{BytesLib} `{FloatLib}.

(** X22. The two copies of the discovery function return the same value
    (or raise the same kind of exception, or both stay in a read that
    does not return) for the same manifest and the same behaviour of the
    child, and they differ in one thing only. The copy of the demo script
    has stopped the child whenever it returns after having started it.
    The copy of the package has stopped it whenever it returns a
    configuration or found no brace in the output, but leaves the child
    as it is when the output has a brace and the text from there on is
    not JSON. *)
Theorem discovery_copies_differ_only_in_stopping_the_child
    (manifest : json) (w : Discover.world) :
  let package := Discover.discover_mcp_server_endpoint manifest w in
  let demo :=
    Discover.discover_this_mcp_server_endpoint_by_running_native_binary manifest w in
  match package, demo with
  | Discover.Returned config process, Discover.Returned config' process' =>
      config = config'
      ∧ process' ≠ Discover.LeftRunning
      ∧ (process = process'
         ∨ (process = Discover.LeftRunning ∧ process' = Discover.Stopped
            ∧ config = JNull
            ∧ Discover.document
                (utf8_decode_ignore
                   (Discover.read_loop (Discover.reads w) EmptyString).2) = None
            ∧ Discover.from_brace
                (utf8_decode_ignore
                   (Discover.read_loop (Discover.reads w) EmptyString).2) ≠ None))
  | Discover.Raised kind, Discover.Raised kind' => kind = kind'
  | Discover.NeverReturns, Discover.NeverReturns =>
      Discover.ending_of w = Discover.ReadBlocks
  | _, _ => False
  end.
Proof.
  unfold Discover.discover_mcp_server_endpoint,
    Discover.discover_this_mcp_server_endpoint_by_running_native_binary,
    Discover.document.
  destruct (Discover.binary_path_of manifest (Discover.binary_exists w))
    as [kind|[path|]]; [done| |by auto].
  destruct (Discover.popen w); [by auto|].
  destruct (Discover.read_loop (Discover.reads w) EmptyString)
    as [[broke json_data] accumulated]. cbn [snd].
  assert (match
            match json_data with
            | JNull =>
                match Discover.from_brace (utf8_decode_ignore accumulated) with
                | Some json_str =>
                    match json_loads json_str with
                    | Ret json_data0 => Discover.Returned json_data0 Discover.Stopped
                    | Raise _ => Discover.Returned JNull Discover.LeftRunning
                    end
                | None => Discover.Returned JNull Discover.Stopped
                end
            | _ => Discover.Returned json_data Discover.Stopped
            end,
            match json_data with
            | JNull =>
                match Discover.from_brace (utf8_decode_ignore accumulated) with
                | Some json_str =>
                    match json_loads json_str with
                    | Ret json_data0 => Discover.Returned json_data0 Discover.Stopped
                    | Raise _ => Discover.Returned JNull Discover.Stopped
                    end
                | None => Discover.Returned JNull Discover.Stopped
                end
            | _ => Discover.Returned json_data Discover.Stopped
            end
          with
          | Discover.Returned config process, Discover.Returned config' process' =>
              config = config'
              ∧ process' ≠ Discover.LeftRunning
              ∧ (process = process'
                 ∨ (process = Discover.LeftRunning ∧ process' = Discover.Stopped
                    ∧ config = JNull
                    ∧ match Discover.from_brace (utf8_decode_ignore accumulated) with
                      | Some json_str =>
                          match json_loads json_str with
                          | Ret v => Some v
                          | Raise _ => None
                          end
                      | None => None
                      end = None
                    ∧ Discover.from_brace (utf8_decode_ignore accumulated) ≠ None))
          | Discover.Raised kind, Discover.Raised kind' => kind = kind'
          | Discover.NeverReturns, Discover.NeverReturns =>
              Discover.ending_of w = Discover.ReadBlocks
          | _, _ => False
          end) as Hreturns.
  { destruct json_data; try by auto.
    destruct (Discover.from_brace (utf8_decode_ignore accumulated)) as [json_str|];
      [|by auto].
    destruct (json_loads json_str); [by auto|].
    split; [done|]. split; [done|]. right. by split_and!. }
  destruct broke; [done|]. by destruct (Discover.ending_of w).
Qed.

Lemma append_assoc (s1 s2 s3 : string) : (s1 +:+ s2) +:+ s3 = s1 +:+ (s2 +:+ s3).
Proof.
  induction s1 as [|a s1 IH]; [done|]. rewrite !append_cons. by rewrite IH.
Qed.

Lemma append_nil_r (s : string) : s +:+ EmptyString = s.
Proof. induction s as [|a s IH]; [done|]. rewrite append_cons. by rewrite IH. Qed.

(** As long as no run of the output has a document in it, the loop goes
    on to the end of the time and keeps all the bytes. *)
Lemma read_loop_without_document reads accumulated :
  (∀ seen rest, Discover.output reads = seen +:+ rest → seen ≠ EmptyString →
     Discover.document (Discover.loop_text (accumulated +:+ seen)) = None) →
  Discover.read_loop reads accumulated
  = (false, JNull, accumulated +:+ Discover.output reads).
Proof.
  revert accumulated. induction reads as [|r reads IH]; intros accumulated Hnone.
  { simpl. by rewrite append_nil_r. }
  destruct r as [b| |]; cbn [Discover.read_loop Discover.output foldr];
    [|by apply IH..].
  fold (Discover.output reads). cbv zeta.
  assert (Discover.read_loop reads (accumulated +:+ String b EmptyString)
          = (false, JNull, accumulated +:+ String b (Discover.output reads)))
    as Hnext.
  { rewrite IH.
    - by rewrite append_assoc.
    - intros seen rest Hout Hseen. rewrite append_assoc. rewrite append_cons.
      apply (Hnone (String b seen) rest); [|done].
      simpl. fold (Discover.output reads). rewrite Hout. by rewrite append_cons. }
  pose proof (Hnone (String b EmptyString) (Discover.output reads) eq_refl) as Hb.
  unfold Discover.document in Hb.
  destruct (Discover.from_brace _) as [json_str|]; [|done].
  destruct (json_loads json_str); [|done]. by discriminate Hb.
Qed.

(** X23. The discovery of the package does not stop a child that writes
    a brace but no JSON. When the binary is started, no run of the output
    has a JSON document in it and the whole output has a brace in it, then
    one of two things happens. If every read returns until the five
    seconds are over (the child goes on writing, or has closed its
    output), [discover_mcp_server_endpoint] returns [None] without having
    called [terminate] or [kill]; the copy of the demo script returns
    [None] too, and has stopped the child. If the child falls silent with
    its output open, the next [read(1)] does not return: neither copy
    returns, whatever the five seconds, and the child is not stopped. *)
Theorem discovery_leaves_the_child_running
    (manifest : json) (w : Discover.world) (path : string) :
  Discover.binary_path_of manifest (Discover.binary_exists w) = inr (Some path) →
  Discover.popen w = None →
  (∀ seen rest, Discover.output (Discover.reads w) = seen +:+ rest →
     seen ≠ EmptyString →
     Discover.document (Discover.loop_text seen) = None) →
  Discover.document (utf8_decode_ignore (Discover.output (Discover.reads w))) = None →
  Discover.from_brace (utf8_decode_ignore (Discover.output (Discover.reads w))) ≠ None →
  match Discover.ending_of w with
  | Discover.TimeIsOver =>
      Discover.discover_mcp_server_endpoint manifest w
        = Discover.Returned JNull Discover.LeftRunning
      ∧ Discover.discover_this_mcp_server_endpoint_by_running_native_binary manifest w
        = Discover.Returned JNull Discover.Stopped
  | Discover.ReadBlocks =>
      Discover.discover_mcp_server_endpoint manifest w = Discover.NeverReturns
      ∧ Discover.discover_this_mcp_server_endpoint_by_running_native_binary manifest w
        = Discover.NeverReturns
  end.
Proof.
  intros Hpath Hpopen Hloop Hdocument Hbrace.
  unfold Discover.discover_mcp_server_endpoint,
    Discover.discover_this_mcp_server_endpoint_by_running_native_binary.
  rewrite Hpath, Hpopen.
  rewrite (read_loop_without_document (Discover.reads w) EmptyString) by done.
  change (EmptyString +:+ ?s) with s.
  destruct (Discover.ending_of w); [|done].
  unfold Discover.document in Hdocument.
  destruct (Discover.from_brace _) as [json_str|]; [|done].
  destruct (json_loads json_str); [|done]. by discriminate Hdocument.
Qed.

End Discovery.

(** ** Setting up the bridge *)

Section SettingUp.
Context `{JsonLib} `{FloatLib}.

Lemma any_named_remote_true tools :
  Setup.any_named_remote tools = Ret true
  ↔ ∃ before tool after,
      tools = before ++ JObj tool :: after
      ∧ Py.assoc "name" tool = Some (JStr "remote")
      ∧ Forall (λ t, ∃ m, t = JObj m ∧ Py.assoc "name" m ≠ Some (JStr "remote"))
          before.
Proof.
  induction tools as [|t tools IH].
  { split; [done|]. intros (before & tool & after & Heq & _). by destruct before. }
  cbn [Setup.any_named_remote].
  destruct t as [| | | | | |m]; cbn [Py.get mbind res_bind];
    try (split; [done|]; intros (before & tool & after & Heq & _ & Hall);
         destruct before as [|t0 before]; [done|];
         apply Forall_cons_1 in Hall as [(m0 & -> & _) _]; done).
  destruct (Py.is_str "remote" (default JNull (Py.assoc "name" m))) eqn:Hname.
  - assert (Py.assoc "name" m = Some (JStr "remote")) as Hm.
    { destruct (Py.assoc "name" m) as [[| | | |s| |]|]; simpl in Hname; try done.
      by apply bool_decide_eq_true in Hname as ->. }
    split; [|done]. intros _. exists [], m, tools. by split_and!.
  - assert (Py.assoc "name" m ≠ Some (JStr "remote")) as Hm.
    { intros Heq. rewrite Heq in Hname. done. }
    rewrite IH. split.
    + intros (before & tool & after & -> & Htool & Hall).
      exists (JObj m :: before), tool, after. split; [done|]. split; [done|].
      constructor; [eauto|done].
    + intros (before & tool & after & Heq & Htool & Hall).
      destruct before as [|t0 before]; simplify_eq/=.
      apply Forall_cons_1 in Hall as [_ Hall]. eauto 10.
Qed.

(** X24. Step 7 of [connect] finds the tool "remote" exactly when the
    reply to [tools/list] is an object whose "result" is an object (or is
    missing) whose "tools" is a list that has an object named "remote"
    with nothing but objects before it. An entry that is not an object
    and stands before the tool raises the [AttributeError] that ends
    [connect]; entries after the tool are not looked at. *)
Theorem remote_tool_is_found_behind_objects_only (tools_response : json) :
  Setup.has_remote tools_response = Ret true
  ↔ ∃ members result before tool after,
      tools_response = JObj members
      ∧ default (JObj []) (Py.assoc "result" members) = JObj result
      ∧ Py.assoc "tools" result = Some (JArr (before ++ JObj tool :: after))
      ∧ Py.assoc "name" tool = Some (JStr "remote")
      ∧ Forall (λ t, ∃ m, t = JObj m ∧ Py.assoc "name" m ≠ Some (JStr "remote"))
          before.
Proof.
  unfold Setup.has_remote. split.
  - destruct tools_response as [| | | | | |members]; try done.
    cbn [Py.get mbind res_bind].
    destruct (default (JObj []) (Py.assoc "result" members))
      as [| | | | | |result] eqn:Hresult; try done.
    cbn [Py.get mbind res_bind].
    destruct (Py.assoc "tools" result) as [tools|] eqn:Htools; [|done].
    cbn [default].
    destruct tools as [| | | |s|items|ms]; try done.
    + destruct s as [|a s]; [done|]. done.
    + cbn [Builtins.iterate mbind res_bind]. intros Hany.
      apply any_named_remote_true in Hany
        as (before & tool & after & -> & Htool & Hall).
      exists members, result, before, tool, after. by split_and!.
    + cbn [Builtins.iterate mbind res_bind].
      unfold id. cbn [Builtins.iterate mbind res_bind].
      generalize (remove_dups ms.*1). by intros [|key keys].
  - intros (members & result & before & tool & after & -> & Hresult & Htools & Htool & Hall).
    cbn [Py.get mbind res_bind]. rewrite Hresult.
    cbn [Py.get mbind res_bind]. rewrite Htools.
    cbn [default Builtins.iterate mbind res_bind].
    apply any_named_remote_true. eauto 10.
Qed.

(** Giving up tears everything down. *)
Lemma abandon_tears_down err c sock stop eff :
  Forall (λ e, e ≠ ThreadStart) eff →
  let r := Setup.abandon err c sock stop eff in
  Setup.error r = Some err
  ∧ Setup.attributes_after r = Setup.Attributes None false ((λ _, true) <$> stop)
  ∧ Setup.connection_after r = with_stop_event true c
  ∧ last (Setup.effects r) = Some ConnClose
  ∧ Forall (λ e, e ≠ ThreadStart) (Setup.effects r).
Proof.
  intros Hquiet. unfold Setup.abandon, Setup.disconnect. simpl.
  split; [done|]. split; [by destruct stop|]. split; [done|].
  split; [by rewrite last_snoc|]. apply Forall_app. split; [done|].
  by repeat constructor.
Qed.

(** X25. From step 7 on, [connect] either succeeds or tears everything
    down. It returns [True] only after five calls have been posted, in
    this order: [tools/list] and the registrations of the four tools;
    then the socket to Blender is connected, a new stop event is in
    place, the stop flag of the connection is as it was and the listener
    thread is the last thing started. In every other case [disconnect]
    has run: the stop flag of the connection is set, so that the reader
    thread ends, the stream has been closed last, both attributes are
    [None] and no thread has been started. In both cases the calls have
    left no entry in the table of pending requests. *)
Theorem setup_succeeds_or_tears_down
    (sock : bool) (stop : option bool) (c : sse_connection) (w : Setup.world) :
  let r := Setup.connect_from_step_7 sock stop c w in
  let posted request_id method params :=
    let request_body :=
      json_dumps (Client.jsonrpc_request request_id method params) in
    HttpPost (server_url c) (message_endpoint c) request_body
      (Client.post_headers (auth_header c) request_body) in
  match Setup.error r with
  | None =>
      Setup.attributes_after r
      = Setup.Attributes (Some (Setup.connection_after r)) true (Some false)
      ∧ stop_event (Setup.connection_after r) = stop_event c
      ∧ List.filter Spec.is_post (Setup.effects r)
        = posted (Registration.uuid4 (Setup.tools_list w)) "tools/list" (JObj [])
          :: imap (λ j t, posted (Registration.uuid4 (Setup.registrations w j))
                            "tools/call" (Registration.registration_params t))
               Registration.tools_to_register
      ∧ last (Setup.effects r) = Some ThreadStart
      ∧ Setup.blender_connect w = None
  | Some _ =>
      Setup.attributes_after r = Setup.Attributes None false ((λ _, true) <$> stop)
      ∧ stop_event (Setup.connection_after r) = true
      ∧ last (Setup.effects r) = Some ConnClose
      ∧ Forall (λ e, e ≠ ThreadStart) (Setup.effects r)
  end
  ∧ pending_responses (Setup.connection_after r) ⊆ pending_responses c.
Proof.
  intros r posted. subst r. unfold Setup.connect_from_step_7. cbv zeta.
  set (call := Setup.tools_list w).
  pose proof (send_jsonrpc_request_no_thread c "tools/list" (JObj []) 10
                (Registration.uuid4 call) (Registration.post call)
                (Registration.during_post call) (Registration.during_wait call))
    as Hquiet1.
  pose proof (send_jsonrpc_request_frame c "tools/list" (JObj []) 10
                (Registration.uuid4 call) (Registration.post call)
                (Registration.during_post call) (Registration.during_wait call))
    as (Hp1 & Hstop1 & _).
  pose proof (send_jsonrpc_request_effects c "tools/list" (JObj []) 10
                (Registration.uuid4 call) (Registration.post call)
                (Registration.during_post call) (Registration.during_wait call))
    as (Hposts1 & _ & Hm1 & Hu1 & Ha1).
  destruct (Client.send_jsonrpc_request _ _ _ _ _ _ _ _)
    as [[tools_response c1] eff1].
  cbn [fst snd] in *.
  assert (pending_responses c1 ⊆ pending_responses c) as Hsub1.
  { rewrite Hp1. apply delete_subseteq. }
  assert (∀ err c0 sock0 eff,
            pending_responses c0 ⊆ pending_responses c →
            Forall (λ e, e ≠ ThreadStart) eff →
            let r := Setup.abandon err c0 sock0 stop eff in
            match Setup.error r with
            | None => False
            | Some _ =>
                Setup.attributes_after r
                = Setup.Attributes None false ((λ _, true) <$> stop)
                ∧ stop_event (Setup.connection_after r) = true
                ∧ last (Setup.effects r) = Some ConnClose
                ∧ Forall (λ e, e ≠ ThreadStart) (Setup.effects r)
            end
            ∧ pending_responses (Setup.connection_after r) ⊆ pending_responses c)
    as Habandon.
  { intros err c0 sock0 eff Hsub Hquiet r.
    destruct (abandon_tears_down err c0 sock0 stop eff Hquiet)
      as (Herr & Hattr & Hconn & Hlast & Hall).
    fold r in Herr, Hattr, Hconn, Hlast, Hall.
    rewrite Herr, Hconn. by split_and!. }
  assert (∀ r0, (match Setup.error r0 with
                 | None => False
                 | Some _ =>
                     Setup.attributes_after r0
                     = Setup.Attributes None false ((λ _, true) <$> stop)
                     ∧ stop_event (Setup.connection_after r0) = true
                     ∧ last (Setup.effects r0) = Some ConnClose
                     ∧ Forall (λ e, e ≠ ThreadStart) (Setup.effects r0)
                 end
                 ∧ pending_responses (Setup.connection_after r0)
                   ⊆ pending_responses c) →
            match Setup.error r0 with
            | None =>
                Setup.attributes_after r0
                = Setup.Attributes (Some (Setup.connection_after r0)) true (Some false)
                ∧ stop_event (Setup.connection_after r0) = stop_event c
                ∧ List.filter Spec.is_post (Setup.effects r0)
                  = posted (Registration.uuid4 call) "tools/list" (JObj [])
                    :: imap (λ j t, posted (Registration.uuid4 (Setup.registrations w j))
                                      "tools/call" (Registration.registration_params t))
                         Registration.tools_to_register
                ∧ last (Setup.effects r0) = Some ThreadStart
                ∧ Setup.blender_connect w = None
            | Some _ =>
                Setup.attributes_after r0
                = Setup.Attributes None false ((λ _, true) <$> stop)
                ∧ stop_event (Setup.connection_after r0) = true
                ∧ last (Setup.effects r0) = Some ConnClose
                ∧ Forall (λ e, e ≠ ThreadStart) (Setup.effects r0)
            end
            ∧ pending_responses (Setup.connection_after r0) ⊆ pending_responses c)
    as Hfail.
  { intros r0 [Hr0 Hsub]. by destruct (Setup.error r0). }
  destruct tools_response as [tools_response|]; [|by apply Hfail, Habandon].
  destruct (negb (Builtins.truth tools_response)); [by apply Hfail, Habandon|].
  destruct (Setup.has_remote tools_response) as [[]|e];
    [|by apply Hfail, Habandon..].
  destruct (Setup.blender_connect w) as [e|] eqn:Hblender;
    [by apply Hfail, Habandon|].
  pose proof (register_tools_quiet Registration.tools_to_register 0
                (Setup.registrations w) c1) as [Hstop2 Hquiet2].
  destruct (register_tools_requests Registration.tools_to_register 0
              (Setup.registrations w) c1)
    as (r & c2 & eff2 & k & Hrun & Hk & Hposts2 & Hr & Hsub2 & _).
  unfold Registration._register_all_tools. rewrite Hrun in Hstop2, Hquiet2 |- *.
  cbn [fst snd] in *.
  assert (pending_responses c2 ⊆ pending_responses c) as Hsub by by etrans.
  assert (Forall (λ e, e ≠ ThreadStart) (eff1 ++ eff2)) as Hquiet
    by by apply Forall_app.
  destruct r as [[| |]|e]; [|by apply Hfail, Habandon..].
  cbn [Setup.error Setup.attributes_after Setup.connection_after Setup.effects].
  split; [|done]. split; [done|]. split; [by rewrite Hstop2|].
  split; [|split; [|done]].
  - rewrite !List.filter_app, Hposts1, Hposts2. subst k. simpl.
    unfold Registration.registration_request, posted.
    by rewrite Hm1, Hu1, Ha1.
  - by rewrite !app_assoc, last_snoc.
Qed.

End SettingUp.

(** ** The further properties at concrete inputs *)

Section FurtherInstances.
Import Sample.
#[local] Existing Instance Example.float_lib.
#[local] Existing Instance Example.bytes_lib.

Lemma reader_survives_exactly_the_harmless_lines_witness :
  thread fresh_connection = Running
  ∧ stop_event fresh_connection = false
  ∧ (thread (Client.sse_reader_step (data_line notification) fresh_connection)
       = Running
     ↔ Stream.harmless (data_line notification) = true).
Proof.
  split; [reflexivity|]. split; [reflexivity|].
  exact (reader_survives_exactly_the_harmless_lines (data_line notification)
           fresh_connection eq_refl eq_refl).
Defined.

Lemma stopped_reader_routes_nothing_witness :
  stop_event (with_stop_event true busy_connection) = true
  ∧ Client.sse_reader_thread [data_line reply_r1; data_line unknown_call]
      (with_stop_event true busy_connection)
    = with_thread Finished (with_stop_event true busy_connection).
Proof.
  split; [reflexivity|].
  exact (stopped_reader_routes_nothing [data_line reply_r1; data_line unknown_call]
           (with_stop_event true busy_connection) eq_refl).
Defined.


Lemma bridge_answers_every_envelope_witness :
  Blender.exchange Blender.SendTimesOut [] = Some (Bridge.blender quiet_world)
  ∧ Py.getitem "reverse" unknown_call
    = Ret (JObj [("tool", JStr "no_such_tool"); ("call_id", JStr "abc123");
                 ("input", JObj [("message", JStr "hi")])])
  ∧ ∃ result b' log tail,
      ((∃ text is_error, result = text_result text is_error)
       ∨ ∃ image_data, result = image_result image_data)
      ∧ Forall (λ e, Spec.is_post e = false ∧ Spec.is_wait e = false) (log ++ tail)
      ∧ Bridge.listen_turn
          (bridge (with_reverse_queue [unknown_call; both_fields] fresh_connection))
          quiet_world
        = Bridge.Turn b' (Some unknown_call)
            (log ++ HttpPost (server_url fresh_connection)
                      (message_endpoint fresh_connection)
                      (dumps (Client.reply_request (JStr "abc123") result))
                      (Client.post_headers "Bearer t"
                         (dumps (Client.reply_request (JStr "abc123") result)))
                    :: tail)
            true
      ∧ Bridge.sse_connection_of b'
        = with_reverse_queue [both_fields] fresh_connection.
Proof.
  split; [reflexivity|]. split; [reflexivity|].
  exact (bridge_answers_every_envelope
           (bridge (with_reverse_queue [unknown_call; both_fields] fresh_connection))
           quiet_world Blender.SendTimesOut [] unknown_call
           [("tool", JStr "no_such_tool"); ("call_id", JStr "abc123");
            ("input", JObj [("message", JStr "hi")])]
           [both_fields] eq_refl eq_refl eq_refl eq_refl).
Defined.

Lemma bridge_forwards_a_text_tool_witness :
  Py.assoc "status" Example.blender_answer ≠ Some (JStr "error")
  ∧ Bridge._handle_tool_call (bridge fresh_connection)
      (JStr "blender_get_object_info") Example.object_info_input
      Example.answering_world
    = (text_result (dumps (JObj [("name", JStr "Cube")])) false,
       bridge fresh_connection,
       [BlenderCommand
          (dumps (JObj [("type", JStr "get_object_info");
                        ("params", JObj [("name", JStr "Cube")])]))]).
Proof.
  assert (Py.assoc "status" Example.blender_answer ≠ Some (JStr "error")) as Hstatus
    by discriminate.
  split; [exact Hstatus|].
  refine (bridge_forwards_a_text_tool (bridge fresh_connection)
            Example.object_info_input Example.answering_world
            [("object_name", JStr "Cube")] Example.blender_answer
            "blender_get_object_info" "get_object_info"
            (JObj [("name", JStr "Cube")]) eq_refl eq_refl eq_refl Hstatus _).
  apply list_elem_of_further, list_elem_of_here.
Defined.

Lemma bridge_screenshot_reads_the_file_witness :
  Py.assoc "status" Example.blender_answer ≠ Some (JStr "error")
  ∧ Bridge._handle_tool_call (bridge fresh_connection)
      (JStr "blender_get_viewport_screenshot") (JObj []) Example.answering_world
    = (image_result "aGVsbG8=", bridge fresh_connection,
       [BlenderCommand
          (dumps
             (JObj [("type", JStr "get_viewport_screenshot");
                    ("params",
                     JObj [("max_size", JInt 800);
                           ("filepath",
                            JStr "/tmp/blender_screenshot_reverse_140023.png");
                           ("format", JStr "png")])]))]).
Proof.
  assert (Py.assoc "status" Example.blender_answer ≠ Some (JStr "error")) as Hstatus
    by discriminate.
  split; [exact Hstatus|].
  exact (bridge_screenshot_reads_the_file (bridge fresh_connection) (JObj [])
           Example.answering_world [] Example.blender_answer
           eq_refl eq_refl eq_refl Hstatus).
Defined.


Lemma payload_that_is_not_an_object_is_enqueued_then_dropped_witness :
  Spec.frame_payload (data_line (JStr "reverse")) = Some (JStr "reverse")
  ∧ Py.contains "reverse" (JStr "reverse") = Ret true
  ∧ Client.sse_reader_step (data_line (JStr "reverse")) fresh_connection
    = with_reverse_queue [JStr "reverse"] fresh_connection
  ∧ Bridge.listen_turn
      (bridge (Client.sse_reader_step (data_line (JStr "reverse")) fresh_connection))
      quiet_world
    = Bridge.Turn
        (Bridge.with_sse fresh_connection
           (bridge (Client.sse_reader_step (data_line (JStr "reverse"))
                      fresh_connection)))
        (Some (JStr "reverse")) [] true
  ∧ Demo.main_worker_turn
      (Client.sse_reader_step (data_line (JStr "reverse")) fresh_connection)
      (HttpStatus 202)
    = Demo.Turn fresh_connection (Some (JStr "reverse")) [] true.
Proof.
  assert (∀ members, JStr "reverse" ≠ JObj members) as Hnot by discriminate.
  assert (Spec.frame_payload (data_line (JStr "reverse")) = Some (JStr "reverse"))
    as Hpayload by (vm_compute; reflexivity).
  destruct (payload_that_is_not_an_object_is_enqueued_then_dropped
              (data_line (JStr "reverse")) (JStr "reverse") fresh_connection
              eq_refl eq_refl eq_refl Hpayload Hnot eq_refl)
    as (Hstep & Hbridge & Hdemo).
  split; [exact Hpayload|]. split; [reflexivity|]. split; [exact Hstep|].
  split; [|exact (Hdemo (HttpStatus 202))].
  exact (Hbridge
           (bridge (Client.sse_reader_step (data_line (JStr "reverse"))
                      fresh_connection))
           quiet_world eq_refl eq_refl).
Defined.

Lemma envelope_without_an_object_is_not_answered_witness :
  Py.getitem "reverse" Example.number_envelope = Ret (JInt 5)
  ∧ Bridge.listen_turn
      (bridge (with_reverse_queue [Example.number_envelope; unknown_call]
                 fresh_connection))
      quiet_world
    = Bridge.Turn
        (bridge (with_reverse_queue [unknown_call] fresh_connection))
        (Some Example.number_envelope)
        [LogError (ErrorInReverseCallListener
                     (Exn AttributeError "'int' object has no attribute 'get'"))]
        true
  ∧ Demo.main_worker_turn
      (with_reverse_queue [Example.number_envelope; unknown_call] fresh_connection)
      (HttpStatus 202)
    = Demo.Turn
        (with_stop_event true (with_reverse_queue [unknown_call] fresh_connection))
        (Some Example.number_envelope) [] false.
Proof.
  assert (∀ fields, JInt 5 ≠ JObj fields) as Hnot by discriminate.
  destruct (envelope_without_an_object_is_not_answered Example.number_envelope
              (JInt 5) [unknown_call] eq_refl Hnot) as [Hbridge Hdemo].
  split; [reflexivity|]. split.
  - exact (Hbridge
             (bridge (with_reverse_queue [Example.number_envelope; unknown_call]
                        fresh_connection))
             quiet_world eq_refl eq_refl).
  - exact (Hdemo
             (with_reverse_queue [Example.number_envelope; unknown_call]
                fresh_connection)
             (HttpStatus 202) eq_refl).
Defined.

Lemma demo_worker_echoes_or_stops_witness :
  Py.getitem "reverse" Example.echo_call = Ret (JObj Example.echo_fields)
  ∧ Py.assoc "tool" Example.echo_fields = Some (JStr "demo_tool_python")
  ∧ ∃ tail,
      Demo.main_worker_turn (with_reverse_queue [Example.echo_call] fresh_connection)
        (HttpStatus 202)
      = Demo.Turn fresh_connection (Some Example.echo_call)
          (HttpPost (server_url fresh_connection) (message_endpoint fresh_connection)
             (dumps (Client.reply_request (JStr "c1") (text_result "Echo: hi" false)))
             (Client.post_headers "Bearer t"
                (dumps (Client.reply_request (JStr "c1")
                          (text_result "Echo: hi" false))))
           :: tail)
          true
      ∧ Forall (λ e, Spec.is_post e = false ∧ Spec.is_wait e = false) tail.
Proof.
  destruct (demo_worker_echoes_or_stops Example.echo_call Example.echo_fields []
              (with_reverse_queue [Example.echo_call] fresh_connection)
              (HttpStatus 202) eq_refl eq_refl eq_refl) as [Hecho _].
  split; [reflexivity|]. split; [reflexivity|].
  exact (Hecho [("message", JStr "hi")] eq_refl).
Defined.

Lemma handshake_reads_at_most_ten_lines_witness :
  (∀ i, (i < 10)%nat → handshake_ok i = Example.late_stream i)
  ∧ (Client.lines_read
       (Client.connect_to_sse_endpoint "http://127.0.0.1:31173/sse" "Bearer t"
          (HttpStatus 200) handshake_ok) ≤ 10)%nat
  ∧ Client.connect_to_sse_endpoint "http://127.0.0.1:31173/sse" "Bearer t"
      (HttpStatus 200) handshake_ok
    = Client.connect_to_sse_endpoint "http://127.0.0.1:31173/sse" "Bearer t"
        (HttpStatus 200) Example.late_stream.
Proof.
  assert (∀ i, (i < 10)%nat → handshake_ok i = Example.late_stream i) as Hsame.
  { intros i Hi. unfold Example.late_stream.
    by rewrite (proj2 (Nat.ltb_lt i 10) Hi). }
  split; [exact Hsame|].
  exact (handshake_reads_at_most_ten_lines "http://127.0.0.1:31173/sse" "Bearer t"
           (HttpStatus 200) handshake_ok Example.late_stream Hsame).
Defined.

Lemma handshake_gives_up_after_ten_lines_witness :
  (∀ i, (i < 10)%nat →
     ∃ raw, handshake_pings i = Text raw
            ∧ PyStr.startswith "data:" (PyStr.strip raw) = false)
  ∧ Client.connect_to_sse_endpoint "http://127.0.0.1:31173/sse" "Bearer t"
      (HttpStatus 200) handshake_pings
    = Client.ConnectResult None
        [HttpGet "http://127.0.0.1:31173/sse" (Client.sse_headers "Bearer t");
         LogError CouldNotExtractMessageEndpoint; ConnClose] 10.
Proof.
  assert (∀ i, (i < 10)%nat →
            ∃ raw, handshake_pings i = Text raw
                   ∧ PyStr.startswith "data:" (PyStr.strip raw) = false) as Hpings.
  { intros i _. eexists. split; reflexivity. }
  split; [exact Hpings|].
  exact (handshake_gives_up_after_ten_lines "http://127.0.0.1:31173/sse" "Bearer t"
           handshake_pings (or_introl Hpings)).
Defined.

Lemma only_the_first_server_is_consulted_witness :
  Py.get "mcpServers" (JObj []) Example.config
    = Ret (JObj [("mypc", JObj Example.first_server);
                 ("other", JObj [("url", JStr "https://example.org/sse")])])
  ∧ Config.extract_server_url_from_config Example.config
    = (JStr "https://127.0.0.1:31173/sse", None)
  ∧ ∀ auth_header,
      Config.extract_authorization auth_header
        Example.config
      = Ret (JStr "Bearer t").
Proof.
  split; [reflexivity|].
  exact (only_the_first_server_is_consulted Example.config
           "mypc" Example.first_server
           [("other", JObj [("url", JStr "https://example.org/sse")])] eq_refl).
Defined.

Lemma call_without_arguments_fails_before_the_tool_is_looked_up_witness :
  (∀ args,
     Py.get "params" (JObj []) JNull ≫= Py.get "arguments" (JObj [])
       ≠ Ret (JObj args))
  ∧ ∃ e,
      exn_kind_of e = AttributeError
      ∧ Bridge._handle_tool_call (bridge fresh_connection)
          (JStr "blender_get_scene_info") JNull Example.answering_world
        = (text_result ("Error: " +:+ exn_text e) true, bridge fresh_connection,
           [LogError (ErrorHandlingToolCall e)]).
Proof.
  assert (∀ args,
            Py.get "params" (JObj []) JNull ≫= Py.get "arguments" (JObj [])
              ≠ Ret (JObj args)) as Hargs by discriminate.
  split; [exact Hargs|].
  exact (call_without_arguments_fails_before_the_tool_is_looked_up
           (bridge fresh_connection) (JStr "blender_get_scene_info") JNull
           Example.answering_world Hargs).
Defined.

Lemma receive_after_the_loop_always_raises_witness :
  (∀ k, (0 < k ≤ 1)%nat →
     Blender.incomplete (Blender.join (take k ["{"])))
  ∧ Blender._receive_full_response
      ((Blender.Received <$> ["{"]) ++ Blender.RecvTimeout :: [Blender.Received "}"])
    = Some (Raise (Exn OtherError "Incomplete JSON response received")).
Proof.
  assert (∀ k, (0 < k ≤ 1)%nat →
            Blender.incomplete
              (Blender.join (take k ["{"]))) as Hincomplete.
  { intros k Hk. assert (k = 1%nat) as -> by lia.
    by exists "{", (Exn JSONDecodeError "Expecting value: line 1 column 1 (char 0)"). }
  split; [exact Hincomplete|].
  refine (receive_after_the_loop_always_raises ["{"]
            Blender.RecvTimeout [Blender.Received "}"] (or_introl eq_refl) _
            Hincomplete).
  by repeat constructor.
Defined.

Lemma discovery_leaves_the_child_running_witness :
  Discover.binary_path_of Example.manifest
    (Discover.binary_exists Example.braces_only)
    = inr (Some "/opt/aurafriday/shim")
  ∧ Discover.ending_of Example.braces_only = Discover.TimeIsOver
  ∧ Discover.discover_mcp_server_endpoint
      Example.manifest Example.braces_only
    = Discover.Returned JNull Discover.LeftRunning
  ∧ Discover.discover_this_mcp_server_endpoint_by_running_native_binary
      Example.manifest Example.braces_only
    = Discover.Returned JNull Discover.Stopped.
Proof.
  split; [reflexivity|]. split; [reflexivity|].
  refine (discovery_leaves_the_child_running
            Example.manifest Example.braces_only "/opt/aurafriday/shim"
            eq_refl eq_refl _ eq_refl _).
  - intros seen rest Hout Hseen.
    change (Discover.output (Discover.reads Example.braces_only)) with "{x" in Hout.
    destruct seen as [|a [|b [|c seen]]]; [done|..];
      rewrite ?append_cons in Hout; simplify_eq; reflexivity.
  - discriminate.
Defined.

End FurtherInstances.
